(** * versitygw: the S3 request dispatcher of [s3api/controllers/base.go]

    A shallow embedding of the controller functions and of the parts of
    Go's [strings], [strconv] and [time] packages and of the fiber
    request context that they use, followed by the properties of the
    dispatch ladder.

    Go strings are byte strings: they are [string] here, one [ascii] per
    byte.  Go's [int] and [int64] are [Z] with the 64-bit range written
    out where the code depends on it (number parsing). *)

From Stdlib Require Import String Ascii List ZArith Lia Bool.
From Stdlib Require Import DecimalString.
Import ListNotations.

Local Open Scope string_scope.
Local Open Scope Z_scope.

(** ** Go's [strings] package (the functions the controllers call) *)

Module strings.

(** [strings.Split(s, sep)] for a one-byte separator, which is how the
    controllers call it ("/" and ","): the pieces between the
    occurrences of [sep]; always at least one piece. *)
Fixpoint Split (s : string) (sep : ascii) : list string :=
  match s with
  | EmptyString => [EmptyString]
  | String c s' =>
      if Ascii.eqb c sep then EmptyString :: Split s' sep
      else match Split s' sep with
           | [] => [String c EmptyString]
           | p :: ps => String c p :: ps
           end
  end.

(** [strings.Join(elems, sep)]. *)
Fixpoint Join (elems : list string) (sep : string) : string :=
  match elems with
  | [] => EmptyString
  | [e] => e
  | e :: rest => e ++ sep ++ Join rest sep
  end.

(** [s[len(s)-1:]]: the last byte of [s] as a string; the slice
    expression panics on the empty string (bounds out of range), which
    is [None] here. *)
Fixpoint lastByte (s : string) : option string :=
  match s with
  | EmptyString => None
  | String c EmptyString => Some (String c EmptyString)
  | String _ s' => lastByte s'
  end.

(** [s[n:]] for [n] within the string. *)
Definition dropBytes (n : nat) (s : string) : string :=
  substring n (String.length s - n)%nat s.

(** Does byte [c] occur in [s]? *)
Fixpoint ContainsByte (s : string) (c : ascii) : bool :=
  match s with
  | EmptyString => false
  | String d s' => Ascii.eqb d c || ContainsByte s' c
  end.

(** ASCII case folding, as used for header names. *)
Definition lowerByte (c : ascii) : ascii :=
  let n := nat_of_ascii c in
  if (Nat.leb 65 n && Nat.leb n 90)%bool then ascii_of_nat (n + 32) else c.

Fixpoint ToLower (s : string) : string :=
  match s with
  | EmptyString => EmptyString
  | String c s' => String (lowerByte c) (ToLower s')
  end.

Definition EqualFold (a b : string) : bool := String.eqb (ToLower a) (ToLower b).

End strings.

(** ** Go's [strconv] package *)

Module strconv.

Inductive NumError := ErrSyntax | ErrRange.

Inductive parsed := Ok (v : Z) | Err (e : NumError).

Definition minInt64 : Z := - 2 ^ 63.
Definition maxInt64 : Z := 2 ^ 63 - 1.

Definition digit (c : ascii) : option Z :=
  let n := Z.of_nat (nat_of_ascii c) in
  if (48 <=? n) && (n <=? 57) then Some (n - 48) else None.

(** The digit loop: every byte must be a decimal digit (base 10 admits
    no underscore). *)
Fixpoint digits (acc : Z) (s : string) : option Z :=
  match s with
  | EmptyString => Some acc
  | String c s' =>
      match digit c with
      | Some d => digits (acc * 10 + d) s'
      | None => None
      end
  end.

(** [strconv.ParseInt(s, 10, 64)]: an optional sign, then at least one
    decimal digit; a value outside the int64 range is a range error. *)
Definition ParseInt (s : string) : parsed :=
  match s with
  | EmptyString => Err ErrSyntax
  | String c s' =>
      let neg := Ascii.eqb c "-" in
      let ds := if (Ascii.eqb c "-" || Ascii.eqb c "+")%bool then s' else s in
      match ds with
      | EmptyString => Err ErrSyntax
      | _ =>
          match digits 0 ds with
          | None => Err ErrSyntax
          | Some n =>
              let v := if neg then - n else n in
              if (minInt64 <=? v) && (v <=? maxInt64) then Ok v else Err ErrRange
          end
      end
  end.

(** [strconv.Atoi(s)] on a 64-bit platform accepts what
    [ParseInt(s, 10, 0)] accepts, with the same value. *)
Definition Atoi (s : string) : parsed := ParseInt s.

(** [fmt.Sprint] of an integer: its decimal notation. *)
Definition FormatInt (z : Z) : string := NilZero.string_of_int (Z.to_int z).

End strconv.

(** ** What fasthttp does with the Content-Length header *)

Module fasthttp.

(** [parseContentLength]: a non-empty string of decimal digits, without
    sign, whose value is in the range of [int]. *)
Definition parseContentLength (v : string) : option Z :=
  match v with
  | EmptyString => None
  | _ =>
      match strconv.digits 0 v with
      | Some n => if n <=? strconv.maxInt64 then Some n else None
      | None => None
      end
  end.

(** The value of the Content-Length header of a request that fasthttp
    has read: none, or the bytes it has parsed as a content length. *)
Definition deliveredLength (v : string) : Prop :=
  v = EmptyString \/ exists n, parseContentLength v = Some n.

End fasthttp.

(** ** Go's [time] package: [Time.Format] *)

Module time.

Inductive Month :=
| January | February | March | April | May | June
| July | August | September | October | November | December.

Inductive Weekday :=
| Sunday | Monday | Tuesday | Wednesday | Thursday | Friday | Saturday.

(** A [time.Time] as [Format] sees it: the calendar date, the clock and
    the weekday of the instant in the value's own location, and the
    abbreviation and the offset (seconds east of UTC) of that location's
    zone.  [Format] does not move the value to another location: a value
    whose offset is not 0 is printed with the clock of its own zone. *)
Record Time := {
  Year : Z;
  Mon : Month;
  Day : Z;
  Hour : Z;
  Minute : Z;
  Second : Z;
  WDay : Weekday;
  ZoneAbbr : string;
  Offset : Z
}.

Definition MonthString (m : Month) : string :=
  match m with
  | January => "January" | February => "February" | March => "March"
  | April => "April" | May => "May" | June => "June"
  | July => "July" | August => "August" | September => "September"
  | October => "October" | November => "November" | December => "December"
  end.

Definition MonthNumber (m : Month) : Z :=
  match m with
  | January => 1 | February => 2 | March => 3 | April => 4 | May => 5
  | June => 6 | July => 7 | August => 8 | September => 9 | October => 10
  | November => 11 | December => 12
  end.

Definition WeekdayString (d : Weekday) : string :=
  match d with
  | Sunday => "Sunday" | Monday => "Monday" | Tuesday => "Tuesday"
  | Wednesday => "Wednesday" | Thursday => "Thursday" | Friday => "Friday"
  | Saturday => "Saturday"
  end.

(** The layout chunks [nextStdChunk] can find at the bytes J, M and
    0 to 5.  Left out: the chunks that start at an underscore, P, p, a
    minus sign, Z, a dot or a comma followed by 0 or 9, and the
    day-of-year chunk 002; a layout without them, such as the
    controllers' [timefmt], is read as Go reads it. *)
Inductive std :=
| stdLongMonth | stdMonth | stdNumMonth | stdZeroMonth
| stdLongWeekDay | stdWeekDay | stdDay | stdZeroDay
| stdHour | stdHour12 | stdZeroHour12
| stdMinute | stdZeroMinute | stdSecond | stdZeroSecond
| stdLongYear | stdYear | stdTZ.

Definition startsWithLowerCase (s : string) : bool :=
  match s with
  | EmptyString => false
  | String c _ =>
      let n := nat_of_ascii c in (Nat.leb 97 n && Nat.leb n 122)%bool
  end.

(** The chunk that starts at the first byte of [layout], with its
    length in bytes, if there is one. *)
Definition stdChunkAt (layout : string) : option (std * nat) :=
  match layout with
  | EmptyString => None
  | String c rest =>
      if Ascii.eqb c "J" then
        if prefix "Jan" layout then
          if prefix "January" layout then Some (stdLongMonth, 7%nat)
          else if negb (startsWithLowerCase (strings.dropBytes 3 layout))
               then Some (stdMonth, 3%nat) else None
        else None
      else if Ascii.eqb c "M" then
        if prefix "Mon" layout then
          if prefix "Monday" layout then Some (stdLongWeekDay, 6%nat)
          else if negb (startsWithLowerCase (strings.dropBytes 3 layout))
               then Some (stdWeekDay, 3%nat) else None
        else if prefix "MST" layout then Some (stdTZ, 3%nat)
        else None
      else if Ascii.eqb c "0" then
        match rest with
        | String "1" _ => Some (stdZeroMonth, 2%nat)
        | String "2" _ => Some (stdZeroDay, 2%nat)
        | String "3" _ => Some (stdZeroHour12, 2%nat)
        | String "4" _ => Some (stdZeroMinute, 2%nat)
        | String "5" _ => Some (stdZeroSecond, 2%nat)
        | String "6" _ => Some (stdYear, 2%nat)
        | _ => None
        end
      else if Ascii.eqb c "1" then
        match rest with
        | String "5" _ => Some (stdHour, 2%nat)
        | _ => Some (stdNumMonth, 1%nat)
        end
      else if Ascii.eqb c "2" then
        if prefix "2006" layout then Some (stdLongYear, 4%nat)
        else Some (stdDay, 1%nat)
      else if Ascii.eqb c "3" then Some (stdHour12, 1%nat)
      else if Ascii.eqb c "4" then Some (stdMinute, 1%nat)
      else if Ascii.eqb c "5" then Some (stdSecond, 1%nat)
      else None
  end.

Fixpoint zeros (n : nat) : string :=
  match n with
  | O => EmptyString
  | S k => String "0" (zeros k)
  end.

(** [appendInt(b, x, width)]: a minus sign for a negative [x], then its
    decimal digits, padded with zeros on the left to [width]. *)
Definition appendInt (x : Z) (width : nat) : string :=
  let ds := NilZero.string_of_uint (N.to_uint (Z.abs_N x)) in
  (if x <? 0 then "-" else "") ++ zeros (width - String.length ds)%nat ++ ds.

Definition appendStd (t : Time) (s : std) : string :=
  match s with
  | stdYear => appendInt (Z.rem (Z.abs (Year t)) 100) 2
  | stdLongYear => appendInt (Year t) 4
  | stdMonth => substring 0 3 (MonthString (Mon t))
  | stdLongMonth => MonthString (Mon t)
  | stdNumMonth => appendInt (MonthNumber (Mon t)) 0
  | stdZeroMonth => appendInt (MonthNumber (Mon t)) 2
  | stdWeekDay => substring 0 3 (WeekdayString (WDay t))
  | stdLongWeekDay => WeekdayString (WDay t)
  | stdDay => appendInt (Day t) 0
  | stdZeroDay => appendInt (Day t) 2
  | stdHour => appendInt (Hour t) 2
  | stdHour12 =>
      let hr := Z.rem (Hour t) 12 in appendInt (if hr =? 0 then 12 else hr) 0
  | stdZeroHour12 =>
      let hr := Z.rem (Hour t) 12 in appendInt (if hr =? 0 then 12 else hr) 2
  | stdMinute => appendInt (Minute t) 0
  | stdZeroMinute => appendInt (Minute t) 2
  | stdSecond => appendInt (Second t) 0
  | stdZeroSecond => appendInt (Second t) 2
  | stdTZ => ZoneAbbr t
  end.

(** The loop of [Time.Format]: copy the layout, replacing every chunk
    by the field it stands for.  [skip] counts the bytes of the chunk
    just replaced that are still to be passed over. *)
Fixpoint formatFrom (t : Time) (skip : nat) (layout : string) : string :=
  match layout with
  | EmptyString => EmptyString
  | String c rest =>
      match skip with
      | S k => formatFrom t k rest
      | O =>
          match stdChunkAt layout with
          | Some (sd, n) => appendStd t sd ++ formatFrom t (Nat.pred n) rest
          | None => String c (formatFrom t 0 rest)
          end
      end
  end.

Definition Format (t : Time) (layout : string) : string := formatFrom t 0 layout.

End time.

(** ** The error catalog, package [s3err] *)

Module s3err.

(** An entry of the catalog. *)
Record APIError := {
  Code : string;
  Description : string;
  HTTPStatusCode : Z
}.

(** The catalog entries the controllers and the specification name. *)
Inductive ErrorCode :=
| ErrInvalidRequest
| ErrInvalidMaxParts
| ErrInvalidPartNumberMarker
| ErrInvalidPart
| ErrNoSuchBucket
| ErrNoSuchKey
| ErrBucketAlreadyExists
| ErrAccessDenied
| ErrInternalError.

(** Modelled from the spec: the package s3err is not among the sources;
    the HTTP status of each catalog entry is the one the error catalog
    section of the specification lists. *)
Definition httpStatus (c : ErrorCode) : Z :=
  match c with
  | ErrInvalidRequest => 400
  | ErrInvalidMaxParts => 400
  | ErrInvalidPartNumberMarker => 400
  | ErrInvalidPart => 400
  | ErrNoSuchBucket => 404
  | ErrNoSuchKey => 404
  | ErrBucketAlreadyExists => 409
  | ErrAccessDenied => 403
  | ErrInternalError => 500
  end.

End s3err.

(** A Go [error] value as the controllers tell them apart: a catalog
    entry (the type assertion [err.(s3err.APIError)] succeeds) or any
    other error, which here carries its message ([errors.New],
    [fmt.Errorf]). *)
Inductive error :=
| CatalogError (e : s3err.APIError)
| OtherError (msg : string).

(** ** The fiber request context *)

Module fiber.

(** A value kept in the request-local store ([ctx.Locals]): an
    interface value, of which the controllers only ask whether it is a
    string. *)
Inductive any :=
| Nil
| Str (s : string)
| NotAString.

(** What a handler can read of a request.  Route parameters, query
    arguments and headers are kept in the order the request has them;
    a key may occur more than once and a query argument may be present
    with an empty value.  [reqBody] is the body as it was sent, and
    [reqBodyDecoded] the body after fiber has undone the
    Content-Encoding of the request (the same bytes when the request has
    none). *)
Record Request := {
  reqPath : string;
  routeParams : list (string * string);
  queryArgs : list (string * string);
  reqHeader : list (string * string);
  reqBody : string;
  reqBodyDecoded : string;
  locals : list (string * any)
}.

(** [Args.Peek]: the value of the first argument called [key], or the
    empty string. *)
Fixpoint Peek (args : list (string * string)) (key : string) : string :=
  match args with
  | [] => EmptyString
  | (k, v) :: rest => if String.eqb k key then v else Peek rest key
  end.

(** [Args.Has]: is there an argument called [key], whatever its
    value? *)
Fixpoint Has (args : list (string * string)) (key : string) : bool :=
  match args with
  | [] => false
  | (k, _) :: rest => String.eqb k key || Has rest key
  end.

(** Header names are matched without regard to case. *)
Fixpoint PeekHeader (h : list (string * string)) (key : string) : string :=
  match h with
  | [] => EmptyString
  | (k, v) :: rest => if strings.EqualFold k key then v else PeekHeader rest key
  end.

Definition Params (r : Request) (key : string) : string := Peek (routeParams r) key.
Definition Query (r : Request) (key : string) : string := Peek (queryArgs r) key.
Definition Get (r : Request) (key : string) : string := PeekHeader (reqHeader r) key.
Definition Path (r : Request) : string := reqPath r.
(** [ctx.Body()]: the decoded body. *)
Definition Body (r : Request) : string := reqBodyDecoded r.

(** [ctx.Request().Body()]: the body as sent. *)
Definition RequestBody (r : Request) : string := reqBody r.

(** [ctx.QueryInt(key, defaultValue)]: [strconv.Atoi] of the query
    value, or the default when that fails (also on an absent or empty
    value). *)
Definition QueryInt (r : Request) (key : string) (defaultValue : Z) : Z :=
  match strconv.Atoi (Query r key) with
  | strconv.Ok v => v
  | strconv.Err _ => defaultValue
  end.

Fixpoint Locals_lookup (l : list (string * any)) (key : string) : any :=
  match l with
  | [] => Nil
  | (k, v) :: rest => if String.eqb k key then v else Locals_lookup rest key
  end.

Definition Locals (r : Request) (key : string) : any := Locals_lookup (locals r) key.

(** The response under construction. *)
Record Response := {
  StatusCode : Z;
  Header : list (string * string);
  RespBody : string
}.

(** A response nothing was written to: fasthttp reports status 200. *)
Definition fresh : Response :=
  {| StatusCode := 200; Header := []; RespBody := EmptyString |}.

Definition Status (code : Z) (w : Response) : Response :=
  {| StatusCode := code; Header := Header w; RespBody := RespBody w |}.

Fixpoint setArg (h : list (string * string)) (key value : string)
  : list (string * string) :=
  match h with
  | [] => [(key, value)]
  | (k, v) :: rest =>
      if strings.EqualFold k key then (k, value) :: rest
      else (k, v) :: setArg rest key value
  end.

(** The headers called [key] taken out. *)
Fixpoint delArg (h : list (string * string)) (key : string) : list (string * string) :=
  match h with
  | [] => []
  | (k, v) :: rest =>
      if strings.EqualFold k key then delArg rest key else (k, v) :: delArg rest key
  end.

(** What [Response.Header.Set] does to the headers a handler has set.
    fasthttp keeps three of the headers the controllers write apart from
    the others: an empty Content-Type or Content-Encoding is no header
    (for the content type the default of fasthttp then stands), and a
    Content-Length is kept only when it parses as a content length.  Any
    other header replaces one of the same name or is added, whatever the
    value. *)
Definition setHeader (h : list (string * string)) (key value : string)
  : list (string * string) :=
  if strings.EqualFold key "Content-Type" || strings.EqualFold key "Content-Encoding" then
    if String.eqb value EmptyString then delArg h key else setArg h key value
  else if strings.EqualFold key "Content-Length" then
    match fasthttp.parseContentLength value with
    | Some _ => setArg h key value
    | None => h
    end
  else setArg h key value.

(** [ctx.Set(key, val)] and [Response.Header.Set] (written [Set_], as
    Set is a keyword here).  [Header] holds the headers the handler has
    set; what fasthttp adds or replaces when it writes the response out
    (the Content-Length of a body, the default Content-Type, Date,
    Server) is not part of it. *)
Definition Set_ (key value : string) (w : Response) : Response :=
  {| StatusCode := StatusCode w; Header := setHeader (Header w) key value;
     RespBody := RespBody w |}.

(** Is a header of this name in the response, and with what value? *)
Fixpoint lookupHeader (h : list (string * string)) (key : string) : option string :=
  match h with
  | [] => None
  | (k, v) :: rest => if strings.EqualFold k key then Some v else lookupHeader rest key
  end.

Definition SetContentType (value : string) (w : Response) : Response :=
  Set_ "Content-Type" value w.

Definition MIMEApplicationXML : string := "application/xml".

(** [ctx.Send(body)]. *)
Definition Send (b : string) (w : Response) : Response :=
  {| StatusCode := StatusCode w; Header := Header w; RespBody := b |}.

(** Bytes written to [ctx.Response().BodyWriter()]. *)
Definition Write (b : string) (w : Response) : Response :=
  {| StatusCode := StatusCode w; Header := Header w; RespBody := RespBody w ++ b |}.

Definition StatusMessage (code : Z) : string :=
  if code =? 200 then "OK"
  else if code =? 400 then "Bad Request"
  else if code =? 404 then "Not Found"
  else if code =? 500 then "Internal Server Error"
  else EmptyString.

(** [ctx.SendStatus(code)]: sets the status and, when the response has
    no body yet, the status message as body. *)
Definition SendStatus (code : Z) (w : Response) : Response :=
  let w' := Status code w in
  if String.eqb (RespBody w') EmptyString then Send (StatusMessage code) w' else w'.

End fiber.

(** ** The request and result structures of the AWS SDK that the
       controllers build and read *)

Module s3.

Module PutBucketAclInput.
Record t := {
  Bucket : string;
  ACL : string;
  GrantFullControl : string;
  GrantRead : string;
  GrantReadACP : string;
  GrantWrite : string;
  GrantWriteACP : string;
  OwnerID : string
}.
End PutBucketAclInput.

Module PutObjectAclInput.
Record t := {
  Bucket : string;
  Key : string;
  ACL : string;
  GrantFullControl : string;
  GrantRead : string;
  GrantReadACP : string;
  GrantWrite : string;
  GrantWriteACP : string
}.
End PutObjectAclInput.

Module PutObjectInput.
Record t := {
  Bucket : string;
  Key : string;
  ContentLength : Z;
  Metadata : list (string * string);
  Body : string
}.
End PutObjectInput.

Module AbortMultipartUploadInput.
Record t := {
  UploadId : string;
  Bucket : string;
  Key : string;
  ExpectedBucketOwner : string;
  RequestPayer : string
}.
End AbortMultipartUploadInput.

Module CreateMultipartUploadInput.
Record t := {
  Bucket : string;
  Key : string
}.
End CreateMultipartUploadInput.

(** The fields of [s3.GetObjectOutput] the controller reads; a nil
    pointer is [None].  A Go map has no order; the metadata keep the
    order in which the map is ranged over. *)
Module GetObjectOutput.
Record t := {
  Metadata : list (string * string);
  LastModified : option time.Time;
  ContentLength : Z;
  ContentType : option string;
  ContentEncoding : option string;
  ETag : option string
}.
End GetObjectOutput.

Module HeadObjectOutput.
Record t := {
  Metadata : list (string * string);
  LastModified : option time.Time;
  ContentLength : Z;
  ContentType : option string;
  ContentEncoding : option string;
  ETag : option string
}.
End HeadObjectOutput.

End s3.

(** ** The backend interface, as the controllers call it *)

Module backend.
Section Types.

(** [Doc]: the result values that are rendered as XML; [Delete],
    [Restore], [Part]: the parsed request bodies. *)
Variables Doc Delete Restore Part : Type.

(** One method per backend operation.  A method returns what the Go
    method returns; a nil error is [None], a nil result is [None].
    [GetObject] also returns the bytes it wrote to the body writer. *)
Record Backend := {
  ListObjectParts : string -> string -> string -> Z -> Z -> option Doc * option error;
  GetObjectAcl : string -> string -> option Doc * option error;
  GetObjectAttributes : string -> string -> list string -> option Doc * option error;
  GetObject : string -> string -> string ->
              string * option s3.GetObjectOutput.t * option error;
  PutBucketAcl : s3.PutBucketAclInput.t -> option error;
  PutBucket : string -> string -> option error;
  PutObjectPart : string -> string -> string -> Z -> Z -> string -> string * option error;
  PutObjectAcl : s3.PutObjectAclInput.t -> option error;
  CopyObject : string -> string -> string -> string -> option Doc * option error;
  PutObject : s3.PutObjectInput.t -> string * option error;
  DeleteObjects : string -> Delete -> option error;
  AbortMultipartUpload : s3.AbortMultipartUploadInput.t -> option error;
  DeleteObject : string -> string -> option error;
  HeadObject : string -> string -> option s3.HeadObjectOutput.t * option error;
  RestoreObject : string -> string -> Restore -> option error;
  CompleteMultipartUpload : string -> string -> string -> list Part ->
                            option Doc * option error;
  CreateMultipartUpload : s3.CreateMultipartUploadInput.t -> option Doc * option error
}.

(** A backend operation invoked by a handler, with its arguments. *)
Inductive Call :=
| CallListObjectParts (bucket key uploadId : string) (partNumberMarker maxParts : Z)
| CallGetObjectAcl (bucket key : string)
| CallGetObjectAttributes (bucket key : string) (attributes : list string)
| CallGetObject (bucket key acceptRange : string)
| CallPutBucketAcl (input : s3.PutBucketAclInput.t)
| CallPutBucket (bucket owner : string)
| CallPutObjectPart (bucket key uploadId : string) (partNumber length : Z) (body : string)
| CallPutObjectAcl (input : s3.PutObjectAclInput.t)
| CallCopyObject (srcBucket srcObject dstBucket dstObject : string)
| CallPutObject (input : s3.PutObjectInput.t)
| CallDeleteObjects (bucket : string) (del : Delete)
| CallAbortMultipartUpload (input : s3.AbortMultipartUploadInput.t)
| CallDeleteObject (bucket key : string)
| CallHeadObject (bucket key : string)
| CallRestoreObject (bucket key : string) (req : Restore)
| CallCompleteMultipartUpload (bucket key uploadId : string) (parts : list Part)
| CallCreateMultipartUpload (input : s3.CreateMultipartUploadInput.t).

End Types.

Arguments ListObjectParts {Doc Delete Restore Part}.
Arguments GetObjectAcl {Doc Delete Restore Part}.
Arguments GetObjectAttributes {Doc Delete Restore Part}.
Arguments GetObject {Doc Delete Restore Part}.
Arguments PutBucketAcl {Doc Delete Restore Part}.
Arguments PutBucket {Doc Delete Restore Part}.
Arguments PutObjectPart {Doc Delete Restore Part}.
Arguments PutObjectAcl {Doc Delete Restore Part}.
Arguments CopyObject {Doc Delete Restore Part}.
Arguments PutObject {Doc Delete Restore Part}.
Arguments DeleteObjects {Doc Delete Restore Part}.
Arguments AbortMultipartUpload {Doc Delete Restore Part}.
Arguments DeleteObject {Doc Delete Restore Part}.
Arguments HeadObject {Doc Delete Restore Part}.
Arguments RestoreObject {Doc Delete Restore Part}.
Arguments CompleteMultipartUpload {Doc Delete Restore Part}.
Arguments CreateMultipartUpload {Doc Delete Restore Part}.

Arguments CallListObjectParts {Delete Restore Part}.
Arguments CallGetObjectAcl {Delete Restore Part}.
Arguments CallGetObjectAttributes {Delete Restore Part}.
Arguments CallGetObject {Delete Restore Part}.
Arguments CallPutBucketAcl {Delete Restore Part}.
Arguments CallPutBucket {Delete Restore Part}.
Arguments CallPutObjectPart {Delete Restore Part}.
Arguments CallPutObjectAcl {Delete Restore Part}.
Arguments CallCopyObject {Delete Restore Part}.
Arguments CallPutObject {Delete Restore Part}.
Arguments CallDeleteObjects {Delete Restore Part}.
Arguments CallAbortMultipartUpload {Delete Restore Part}.
Arguments CallDeleteObject {Delete Restore Part}.
Arguments CallHeadObject {Delete Restore Part}.
Arguments CallRestoreObject {Delete Restore Part}.
Arguments CallCompleteMultipartUpload {Delete Restore Part}.
Arguments CallCreateMultipartUpload {Delete Restore Part}.

End backend.

(** ** The header codec, package [s3api/utils] *)

Module utils.

Record CustomHeader := { Key : string; Value : string }.

Definition metaPrefix : string := "x-amz-meta-".

(** [m[key] = value] on a map kept as a list of its entries: the entry
    of the key gets the value, or a new entry is added. *)
Fixpoint mapSet (m : list (string * string)) (key value : string) : list (string * string) :=
  match m with
  | [] => [(key, value)]
  | (k, v) :: rest =>
      if String.eqb k key then (k, value) :: rest else (k, v) :: mapSet rest key value
  end.

Fixpoint userMetaData (m h : list (string * string)) : list (string * string) :=
  match h with
  | [] => m
  | (k, v) :: rest =>
      let lk := strings.ToLower k in
      if prefix metaPrefix lk
      then userMetaData (mapSet m (strings.dropBytes (String.length metaPrefix) lk) v) rest
      else userMetaData m rest
  end.

(** Modelled from the spec: utils.GetUserMetaData is not among the
    sources.  The request headers are gone through in order; for each
    header whose name starts, without regard to case, with x-amz-meta-,
    the lowercased rest of the name is recorded in the metadata map with
    the header's value, a later header of the same name replacing an
    earlier one. *)
Definition GetUserMetaData (h : list (string * string)) : list (string * string) :=
  userMetaData [] h.

(** Modelled from the spec: utils.SetMetaHeaders is not among the
    sources.  For each metadata entry the header x-amz-meta-{suffix}
    is written with the entry's value. *)
Fixpoint SetMetaHeaders (meta : list (string * string)) (w : fiber.Response)
  : fiber.Response :=
  match meta with
  | [] => w
  | (k, v) :: rest => SetMetaHeaders rest (fiber.Set_ (metaPrefix ++ k) v w)
  end.

(** Modelled from the spec: utils.SetResponseHeaders is not among the
    sources.  The headers are written in the order given; a nullable
    field arrives as the empty string and is written as such, so that
    the header stays present. *)
Fixpoint SetResponseHeaders (headers : list CustomHeader) (w : fiber.Response)
  : fiber.Response :=
  match headers with
  | [] => w
  | h :: rest => SetResponseHeaders rest (fiber.Set_ (Key h) (Value h) w)
  end.

End utils.

(** ** The packages the controllers import and that are taken as given

    Go's [encoding/xml]: [xml.Marshal] of a result value ([Doc] is the
    type of the values the backend returns for rendering), and
    [xml.Unmarshal] of a request body into each of the three targets the
    controllers use ([None]: the body does not parse).  Package s3err,
    which is not among the sources: the code string and the message of
    each catalog entry, and the rendering of an entry as the S3 error
    document. *)
Class Packages := {
  Doc : Type;
  Delete : Type;
  Restore : Type;
  Part : Type;
  xmlMarshal : Doc -> string + error;
  xmlUnmarshalDelete : string -> option Delete;
  xmlUnmarshalRestore : string -> option Restore;
  xmlUnmarshalParts : string -> option (list Part);
  catalogText : s3err.ErrorCode -> string * string;
  GetAPIErrorResponse : s3err.APIError -> string -> string -> string -> string
}.

(** ** The controllers, [s3api/controllers/base.go] *)

Module controllers.

(** A line written to standard error. *)
Inductive LogLine :=
| InternalErrorLine (req : fiber.Request) (err : error).

Definition timefmt : string := "Mon, 02 Jan 2006 15:04:05 GMT".

Definition getstring (s : option string) : string :=
  match s with
  | None => EmptyString
  | Some v => v
  end.

(** The trailing-slash rule of [PutActions]:
    [if path[len(path)-1:] == "/" && keyStart[len(keyStart)-1:] != "/"]
    appends a slash to the key.  Either slice expression panics on an
    empty string; the second is evaluated only when the first comparison
    holds.  [None] is the panic. *)
Definition withTrailingSlash (path keyStart : string) : option string :=
  match strings.lastByte path with
  | None => None
  | Some pl =>
      if String.eqb pl "/" then
        match strings.lastByte keyStart with
        | None => None
        | Some kl => if negb (String.eqb kl "/") then Some (keyStart ++ "/") else Some keyStart
        end
      else Some keyStart
  end.

Section Controllers.

Context {P : Packages}.

Local Abbreviation Call := (backend.Call Delete Restore Part).

(** Modelled from the spec: s3err.GetAPIError is not among the sources;
    an entry has the HTTP status the specification's catalog lists. *)
Definition GetAPIError (code : s3err.ErrorCode) : s3err.APIError :=
  {| s3err.Code := fst (catalogText code);
     s3err.Description := snd (catalogText code);
     s3err.HTTPStatusCode := s3err.httpStatus code |}.

Record S3ApiController := {
  be : backend.Backend Doc Delete Restore Part
}.

Definition New (be : backend.Backend Doc Delete Restore Part) : S3ApiController :=
  {| be := be |}.

(** The receiver of the handlers. *)
Variable c : S3ApiController.

(** What a handler has done so far: the response, the backend operations
    invoked (oldest first) and the lines written to standard error. *)
Record State := {
  response : fiber.Response;
  calls : list Call;
  stderr : list LogLine
}.

Definition start : State :=
  {| response := fiber.fresh; calls := []; stderr := [] |}.

Definition respond (f : fiber.Response -> fiber.Response) (s : State) : State :=
  {| response := f (response s); calls := calls s; stderr := stderr s |}.

Definition invoked (op : Call) (s : State) : State :=
  {| response := response s; calls := (calls s ++ [op])%list; stderr := stderr s |}.

Definition logged (l : LogLine) (s : State) : State :=
  {| response := response s; calls := calls s; stderr := (stderr s ++ [l])%list |}.

(** How a handler ends: it panics, or it returns a Go error value
    ([None] is nil) to the router. *)
Inductive Outcome :=
| Panic
| Return (s : State) (err : option error).

Definition SendResponse (req : fiber.Request) (s : State) (err : option error) : Outcome :=
  match err with
  | Some (CatalogError serr) =>
      let s := respond (fiber.Status (s3err.HTTPStatusCode serr)) s in
      Return (respond (fiber.Send (GetAPIErrorResponse serr "" "" "")) s) None
  | Some (OtherError msg) =>
      let s := logged (InternalErrorLine req (OtherError msg)) s in
      Return (respond (fiber.Send
                (GetAPIErrorResponse (GetAPIError s3err.ErrInternalError) "" "" "")) s) None
  | None =>
      Return (respond (fiber.Status 200) s) None
  end.

Definition SendXMLResponse (req : fiber.Request) (s : State) (resp : option Doc)
  (err : option error) : Outcome :=
  match err with
  | Some (CatalogError serr) =>
      let s := respond (fiber.Status (s3err.HTTPStatusCode serr)) s in
      Return (respond (fiber.Send (GetAPIErrorResponse serr "" "" "")) s) None
  | Some (OtherError msg) =>
      let s := logged (InternalErrorLine req (OtherError msg)) s in
      Return (respond (fiber.Send
                (GetAPIErrorResponse (GetAPIError s3err.ErrInternalError) "" "" "")) s) None
  | None =>
      match resp with
      | Some v =>
          match xmlMarshal v with
          | inr e => Return s (Some e)
          | inl b =>
              let s := if negb (String.eqb b EmptyString)
                       then respond (fiber.SetContentType fiber.MIMEApplicationXML) s
                       else s in
              Return (respond (fiber.Send b) s) None
          end
      | None => Return (respond (fiber.Send EmptyString) s) None
      end
  end.

(** [if keyEnd != "" { key = strings.Join([]string{key, keyEnd}, "/") }] *)
Definition joinKey (key keyEnd : string) : string :=
  if negb (String.eqb keyEnd EmptyString) then strings.Join [key; keyEnd] "/" else key.

Definition objectHeaders (contentLength : Z) (contentType contentEncoding etag : option string)
  (lastmod : string) : list utils.CustomHeader :=
  [ {| utils.Key := "Content-Length"; utils.Value := strconv.FormatInt contentLength |};
    {| utils.Key := "Content-Type"; utils.Value := getstring contentType |};
    {| utils.Key := "Content-Encoding"; utils.Value := getstring contentEncoding |};
    {| utils.Key := "ETag"; utils.Value := getstring etag |};
    {| utils.Key := "Last-Modified"; utils.Value := lastmod |} ].

Definition GetActions (ctx : fiber.Request) : Outcome :=
  let bucket := fiber.Params ctx "bucket" in
  let key := fiber.Params ctx "key" in
  let keyEnd := fiber.Params ctx "*1" in
  let uploadId := fiber.Query ctx "uploadId" in
  let maxParts := fiber.QueryInt ctx "max-parts" 0 in
  let partNumberMarker := fiber.QueryInt ctx "part-number-marker" 0 in
  let acceptRange := fiber.Get ctx "Range" in
  let key := joinKey key keyEnd in
  if negb (String.eqb uploadId EmptyString) then
    if (maxParts <? 0)
       || ((maxParts =? 0) && negb (String.eqb (fiber.Query ctx "max-parts") EmptyString))
    then SendResponse ctx start (Some (CatalogError (GetAPIError s3err.ErrInvalidMaxParts)))
    else if (partNumberMarker <? 0)
       || ((partNumberMarker =? 0)
           && negb (String.eqb (fiber.Query ctx "part-number-marker") EmptyString))
    then SendResponse ctx start
           (Some (CatalogError (GetAPIError s3err.ErrInvalidPartNumberMarker)))
    else
      let '(res, err) :=
        backend.ListObjectParts (be c) bucket key uploadId partNumberMarker maxParts in
      SendXMLResponse ctx
        (invoked (backend.CallListObjectParts bucket key uploadId partNumberMarker maxParts) start)
        res err
  else if fiber.Has (fiber.queryArgs ctx) "acl" then
    let '(res, err) := backend.GetObjectAcl (be c) bucket key in
    SendXMLResponse ctx (invoked (backend.CallGetObjectAcl bucket key) start) res err
  else if negb (String.eqb (fiber.Get ctx "X-Amz-Object-Attributes") EmptyString) then
    let attrs := fiber.Get ctx "X-Amz-Object-Attributes" in
    let '(res, err) := backend.GetObjectAttributes (be c) bucket key (strings.Split attrs ",") in
    SendXMLResponse ctx
      (invoked (backend.CallGetObjectAttributes bucket key (strings.Split attrs ",")) start)
      res err
  else
    let '(written, res, err) := backend.GetObject (be c) bucket key acceptRange in
    let s := respond (fiber.Write written)
               (invoked (backend.CallGetObject bucket key acceptRange) start) in
    match err with
    | Some e => SendResponse ctx s (Some e)
    | None =>
        match res with
        | None => SendResponse ctx s (Some (OtherError "get object nil response"))
        | Some res =>
            let s := respond (utils.SetMetaHeaders (s3.GetObjectOutput.Metadata res)) s in
            let lastmod :=
              match s3.GetObjectOutput.LastModified res with
              | Some t => time.Format t timefmt
              | None => EmptyString
              end in
            let s := respond (utils.SetResponseHeaders
                       (objectHeaders (s3.GetObjectOutput.ContentLength res)
                          (s3.GetObjectOutput.ContentType res)
                          (s3.GetObjectOutput.ContentEncoding res)
                          (s3.GetObjectOutput.ETag res) lastmod)) s in
            Return (respond (fiber.SendStatus 200) s) None
        end
    end.

Definition PutBucketActions (ctx : fiber.Request) : Outcome :=
  let bucket := fiber.Params ctx "bucket" in
  let acl := fiber.Get ctx "X-Amz-Acl" in
  let grantFullControl := fiber.Get ctx "X-Amz-Grant-Full-Control" in
  let grantRead := fiber.Get ctx "X-Amz-Grant-Read" in
  let grantReadACP := fiber.Get ctx "X-Amz-Grant-Read-Acp" in
  let granWrite := fiber.Get ctx "X-Amz-Grant-Write" in
  let grantWriteACP := fiber.Get ctx "X-Amz-Grant-Write-Acp" in
  let access := fiber.Locals ctx "access" in
  match access with
  | fiber.Str owner =>
      let grants := grantFullControl ++ grantRead ++ grantReadACP ++ granWrite ++ grantWriteACP in
      if negb (String.eqb grants EmptyString) || negb (String.eqb acl EmptyString) then
        if negb (String.eqb grants EmptyString) && negb (String.eqb acl EmptyString) then
          Return start (Some (OtherError "wrong api call"))
        else
          let input :=
            {| s3.PutBucketAclInput.Bucket := bucket;
               s3.PutBucketAclInput.ACL := acl;
               s3.PutBucketAclInput.GrantFullControl := grantFullControl;
               s3.PutBucketAclInput.GrantRead := grantRead;
               s3.PutBucketAclInput.GrantReadACP := grantReadACP;
               s3.PutBucketAclInput.GrantWrite := granWrite;
               s3.PutBucketAclInput.GrantWriteACP := grantWriteACP;
               s3.PutBucketAclInput.OwnerID := owner |} in
          SendResponse ctx (invoked (backend.CallPutBucketAcl input) start)
            (backend.PutBucketAcl (be c) input)
      else
        SendResponse ctx (invoked (backend.CallPutBucket bucket owner) start)
          (backend.PutBucket (be c) bucket owner)
  | _ => Panic
  end.

(** The dispatch ladder of [PutActions], entered once the key is
    rebuilt and the Content-Length header is parsed. *)
Definition putLadder (ctx : fiber.Request) (bucket keyStart : string) (contentLength : Z)
  : Outcome :=
  let uploadId := fiber.Query ctx "uploadId" in
  let partNumberStr := fiber.Query ctx "partNumber" in
  let copySource := fiber.Get ctx "X-Amz-Copy-Source" in
  let acl := fiber.Get ctx "X-Amz-Acl" in
  let grantFullControl := fiber.Get ctx "X-Amz-Grant-Full-Control" in
  let grantRead := fiber.Get ctx "X-Amz-Grant-Read" in
  let grantReadACP := fiber.Get ctx "X-Amz-Grant-Read-Acp" in
  let granWrite := fiber.Get ctx "X-Amz-Grant-Write" in
  let grantWriteACP := fiber.Get ctx "X-Amz-Grant-Write-Acp" in
  let grants := grantFullControl ++ grantRead ++ grantReadACP ++ granWrite ++ grantWriteACP in
  if negb (String.eqb uploadId EmptyString) && negb (String.eqb partNumberStr EmptyString) then
    let partNumber := fiber.QueryInt ctx "partNumber" (-1) in
    if partNumber <? 1 then
      SendResponse ctx start (Some (CatalogError (GetAPIError s3err.ErrInvalidPart)))
    else
      let body := fiber.Body ctx in
      let '(etag, err) :=
        backend.PutObjectPart (be c) bucket keyStart uploadId partNumber contentLength body in
      let s := invoked (backend.CallPutObjectPart bucket keyStart uploadId partNumber
                          contentLength body) start in
      SendResponse ctx (respond (fiber.Set_ "Etag" etag) s) err
  else if negb (String.eqb grants EmptyString) || negb (String.eqb acl EmptyString) then
    if negb (String.eqb grants EmptyString) && negb (String.eqb acl EmptyString) then
      Return start (Some (OtherError "wrong api call"))
    else
      let input :=
        {| s3.PutObjectAclInput.Bucket := bucket;
           s3.PutObjectAclInput.Key := keyStart;
           s3.PutObjectAclInput.ACL := acl;
           s3.PutObjectAclInput.GrantFullControl := grantFullControl;
           s3.PutObjectAclInput.GrantRead := grantRead;
           s3.PutObjectAclInput.GrantReadACP := grantReadACP;
           s3.PutObjectAclInput.GrantWrite := granWrite;
           s3.PutObjectAclInput.GrantWriteACP := grantWriteACP |} in
      SendResponse ctx (invoked (backend.CallPutObjectAcl input) start)
        (backend.PutObjectAcl (be c) input)
  else if negb (String.eqb copySource EmptyString) then
    match strings.Split copySource "/" with
    | [] => Panic
    | srcBucket :: srcObject =>
        let '(res, err) :=
          backend.CopyObject (be c) srcBucket (strings.Join srcObject "/") bucket keyStart in
        SendXMLResponse ctx
          (invoked (backend.CallCopyObject srcBucket (strings.Join srcObject "/")
                      bucket keyStart) start)
          res err
    end
  else
    let metadata := utils.GetUserMetaData (fiber.reqHeader ctx) in
    let input :=
      {| s3.PutObjectInput.Bucket := bucket;
         s3.PutObjectInput.Key := keyStart;
         s3.PutObjectInput.ContentLength := contentLength;
         s3.PutObjectInput.Metadata := metadata;
         s3.PutObjectInput.Body := fiber.RequestBody ctx |} in
    let '(etag, err) := backend.PutObject (be c) input in
    SendResponse ctx (respond (fiber.Set_ "ETag" etag)
                        (invoked (backend.CallPutObject input) start)) err.

Definition PutActions (ctx : fiber.Request) : Outcome :=
  let bucket := fiber.Params ctx "bucket" in
  let keyStart := fiber.Params ctx "key" in
  let keyEnd := fiber.Params ctx "*1" in
  let contentLengthStr := fiber.Get ctx "Content-Length" in
  let keyStart := joinKey keyStart keyEnd in
  match withTrailingSlash (fiber.Path ctx) keyStart with
  | None => Panic
  | Some keyStart =>
      if negb (String.eqb contentLengthStr EmptyString) then
        match strconv.ParseInt contentLengthStr with
        | strconv.Err _ =>
            SendResponse ctx start (Some (CatalogError (GetAPIError s3err.ErrInvalidRequest)))
        | strconv.Ok contentLength => putLadder ctx bucket keyStart contentLength
        end
      else putLadder ctx bucket keyStart 0
  end.

Definition DeleteObjects (ctx : fiber.Request) : Outcome :=
  match xmlUnmarshalDelete (fiber.Body ctx) with
  | None => Return start (Some (OtherError "wrong api call"))
  | Some dObj =>
      let bucket := fiber.Params ctx "bucket" in
      SendResponse ctx (invoked (backend.CallDeleteObjects bucket dObj) start)
        (backend.DeleteObjects (be c) bucket dObj)
  end.

Definition DeleteActions (ctx : fiber.Request) : Outcome :=
  let bucket := fiber.Params ctx "bucket" in
  let key := fiber.Params ctx "key" in
  let keyEnd := fiber.Params ctx "*1" in
  let uploadId := fiber.Query ctx "uploadId" in
  let key := joinKey key keyEnd in
  if negb (String.eqb uploadId EmptyString) then
    let expectedBucketOwner := fiber.Get ctx "X-Amz-Expected-Bucket-Owner" in
    let requestPayer := fiber.Get ctx "X-Amz-Request-Payer" in
    let input :=
      {| s3.AbortMultipartUploadInput.UploadId := uploadId;
         s3.AbortMultipartUploadInput.Bucket := bucket;
         s3.AbortMultipartUploadInput.Key := key;
         s3.AbortMultipartUploadInput.ExpectedBucketOwner := expectedBucketOwner;
         s3.AbortMultipartUploadInput.RequestPayer := requestPayer |} in
    SendResponse ctx (invoked (backend.CallAbortMultipartUpload input) start)
      (backend.AbortMultipartUpload (be c) input)
  else
    SendResponse ctx (invoked (backend.CallDeleteObject bucket key) start)
      (backend.DeleteObject (be c) bucket key).

Definition HeadObject (ctx : fiber.Request) : Outcome :=
  let bucket := fiber.Params ctx "bucket" in
  let key := fiber.Params ctx "key" in
  let keyEnd := fiber.Params ctx "*1" in
  let key := joinKey key keyEnd in
  let '(res, err) := backend.HeadObject (be c) bucket key in
  let s := invoked (backend.CallHeadObject bucket key) start in
  match err with
  | Some e => SendResponse ctx s (Some e)
  | None =>
      match res with
      | None => SendResponse ctx s (Some (OtherError "head object nil response"))
      | Some res =>
          let s := respond (utils.SetMetaHeaders (s3.HeadObjectOutput.Metadata res)) s in
          let lastmod :=
            match s3.HeadObjectOutput.LastModified res with
            | Some t => time.Format t timefmt
            | None => EmptyString
            end in
          let s := respond (utils.SetResponseHeaders
                     (objectHeaders (s3.HeadObjectOutput.ContentLength res)
                        (s3.HeadObjectOutput.ContentType res)
                        (s3.HeadObjectOutput.ContentEncoding res)
                        (s3.HeadObjectOutput.ETag res) lastmod)) s in
          SendResponse ctx s None
      end
  end.

Definition CreateActions (ctx : fiber.Request) : Outcome :=
  let bucket := fiber.Params ctx "bucket" in
  let key := fiber.Params ctx "key" in
  let keyEnd := fiber.Params ctx "*1" in
  let uploadId := fiber.Query ctx "uploadId" in
  let key := joinKey key keyEnd in
  if fiber.Has (fiber.queryArgs ctx) "restore" then
    match xmlUnmarshalRestore (fiber.Body ctx) with
    | None => Return start (Some (OtherError "wrong api call"))
    | Some restoreRequest =>
        SendResponse ctx (invoked (backend.CallRestoreObject bucket key restoreRequest) start)
          (backend.RestoreObject (be c) bucket key restoreRequest)
    end
  else if negb (String.eqb uploadId EmptyString) then
    match xmlUnmarshalParts (fiber.Body ctx) with
    | None => Return start (Some (OtherError "wrong api call"))
    | Some parts =>
        let '(res, err) := backend.CompleteMultipartUpload (be c) bucket key uploadId parts in
        SendXMLResponse ctx
          (invoked (backend.CallCompleteMultipartUpload bucket key uploadId parts) start)
          res err
    end
  else
    let input :=
      {| s3.CreateMultipartUploadInput.Bucket := bucket;
         s3.CreateMultipartUploadInput.Key := key |} in
    let '(res, err) := backend.CreateMultipartUpload (be c) input in
    SendXMLResponse ctx (invoked (backend.CallCreateMultipartUpload input) start) res err.


(** What an outcome shows of the handler's run. *)
Definition callsOf (o : Outcome) : list Call :=
  match o with
  | Panic => []
  | Return s _ => calls s
  end.

Definition responseOf (o : Outcome) : option fiber.Response :=
  match o with
  | Panic => None
  | Return s _ => Some (response s)
  end.

Definition headerOf (o : Outcome) (key : string) : option string :=
  match o with
  | Panic => None
  | Return s _ => fiber.lookupHeader (fiber.Header (response s)) key
  end.

(** The key [PutActions] rebuilds from the route parameters and the
    path; [None] when rebuilding it panics. *)
Definition putKey (ctx : fiber.Request) : option string :=
  withTrailingSlash (fiber.Path ctx)
    (joinKey (fiber.Params ctx "key") (fiber.Params ctx "*1")).

(** The key the other object handlers rebuild. *)
Definition objectKey (ctx : fiber.Request) : string :=
  joinKey (fiber.Params ctx "key") (fiber.Params ctx "*1").

(** The five grant headers, as the handlers concatenate them. *)
Definition grantHeaders : list string :=
  [ "X-Amz-Grant-Full-Control"; "X-Amz-Grant-Read"; "X-Amz-Grant-Read-Acp";
    "X-Amz-Grant-Write"; "X-Amz-Grant-Write-Acp" ].

Definition grantsOf (ctx : fiber.Request) : string :=
  fiber.Get ctx "X-Amz-Grant-Full-Control" ++ fiber.Get ctx "X-Amz-Grant-Read"
    ++ fiber.Get ctx "X-Amz-Grant-Read-Acp" ++ fiber.Get ctx "X-Amz-Grant-Write"
    ++ fiber.Get ctx "X-Amz-Grant-Write-Acp".

(** The specification's words for a query value that is a positive
    integer. *)
Definition positiveInt (s : string) : bool :=
  match strconv.Atoi s with
  | strconv.Ok n => 0 <? n
  | strconv.Err _ => false
  end.

(** The specification's words for the copy source: cut at the first
    occurrence of the separator, which is dropped; without separator
    the second half is empty. *)
Fixpoint cutFirst (s : string) (sep : ascii) : string * string :=
  match s with
  | EmptyString => (EmptyString, EmptyString)
  | String ch s' =>
      if Ascii.eqb ch sep then (EmptyString, s')
      else let '(a, b) := cutFirst s' sep in (String ch a, b)
  end.

Definition isPutObjectPart (op : Call) : bool :=
  match op with
  | backend.CallPutObjectPart _ _ _ _ _ _ => true
  | _ => false
  end.

(** The Content-Length a request carries, as [PutActions] reads it: 0
    for an absent or empty header, else the parsed header. *)
Inductive lengthIs (ctx : fiber.Request) (contentLength : Z) : Prop :=
| lengthAbsent :
    fiber.Get ctx "Content-Length" = EmptyString -> contentLength = 0 ->
    lengthIs ctx contentLength
| lengthParsed :
    strconv.ParseInt (fiber.Get ctx "Content-Length") = strconv.Ok contentLength ->
    lengthIs ctx contentLength.

(** The two ways a handler refuses a request: the error it returns to
    the router without writing a response, and a catalog entry sent with
    [SendResponse]. *)
Definition wrongApiCall : Outcome := Return start (Some (OtherError "wrong api call")).

Definition sendCatalog (ctx : fiber.Request) (code : s3err.ErrorCode) : Outcome :=
  SendResponse ctx start (Some (CatalogError (GetAPIError code))).

End Controllers.
End controllers.

(** ** A sample backend and sample requests, on which the handlers run *)

Module sample.

(** Documents are kept as their text. *)
Definition marshal (d : string) : string + error := inl d.

Definition unmarshalDelete (b : string) : option string :=
  if prefix "<Delete>" b then Some b else None.

Definition unmarshalRestore (b : string) : option string :=
  if prefix "<RestoreRequest>" b then Some b else None.

Definition unmarshalParts (b : string) : option (list string) :=
  if prefix "<CompleteMultipartUpload>" b then Some [b] else None.

Definition texts (c : s3err.ErrorCode) : string * string :=
  match c with
  | s3err.ErrInvalidRequest => ("InvalidRequest", "Invalid Request")
  | s3err.ErrInvalidMaxParts => ("InvalidMaxParts", "Invalid max-parts")
  | s3err.ErrInvalidPartNumberMarker =>
      ("InvalidPartNumberMarker", "Invalid part-number-marker")
  | s3err.ErrInvalidPart => ("InvalidPart", "Invalid part")
  | s3err.ErrNoSuchBucket => ("NoSuchBucket", "The specified bucket does not exist")
  | s3err.ErrNoSuchKey => ("NoSuchKey", "The specified key does not exist")
  | s3err.ErrBucketAlreadyExists => ("BucketAlreadyExists", "The bucket exists")
  | s3err.ErrAccessDenied => ("AccessDenied", "Access Denied")
  | s3err.ErrInternalError => ("InternalError", "We encountered an internal error")
  end.

Definition render (e : s3err.APIError) (resource requestID hostID : string) : string :=
  "<Error><Code>" ++ s3err.Code e ++ "</Code><Message>" ++ s3err.Description e
    ++ "</Message><Resource/><RequestId/></Error>".

Definition packages : Packages :=
  {| Doc := string;
     Delete := string;
     Restore := string;
     Part := string;
     xmlMarshal := marshal;
     xmlUnmarshalDelete := unmarshalDelete;
     xmlUnmarshalRestore := unmarshalRestore;
     xmlUnmarshalParts := unmarshalParts;
     catalogText := texts;
     GetAPIErrorResponse := render |}.

Definition modified : time.Time :=
  {| time.Year := 2023; time.Mon := time.May; time.Day := 7;
     time.Hour := 3; time.Minute := 4; time.Second := 59;
     time.WDay := time.Sunday; time.ZoneAbbr := "UTC"; time.Offset := 0 |}.

Definition got (lastModified : option time.Time) : s3.GetObjectOutput.t :=
  {| s3.GetObjectOutput.Metadata := [("color", "blue")];
     s3.GetObjectOutput.LastModified := lastModified;
     s3.GetObjectOutput.ContentLength := 3;
     s3.GetObjectOutput.ContentType := Some "text/plain";
     s3.GetObjectOutput.ContentEncoding := None;
     s3.GetObjectOutput.ETag := Some "etag-1" |}.

Definition head (lastModified : option time.Time) : s3.HeadObjectOutput.t :=
  {| s3.HeadObjectOutput.Metadata := [("color", "blue")];
     s3.HeadObjectOutput.LastModified := lastModified;
     s3.HeadObjectOutput.ContentLength := 3;
     s3.HeadObjectOutput.ContentType := Some "text/plain";
     s3.HeadObjectOutput.ContentEncoding := None;
     s3.HeadObjectOutput.ETag := Some "etag-1" |}.

(** A backend on which every operation succeeds; objects carry the
    given modification time. *)
Definition be (lastModified : option time.Time)
  : backend.Backend string string string string :=
  {| backend.ListObjectParts := fun _ _ _ _ _ => (Some "<ListPartsResult/>", None);
     backend.GetObjectAcl := fun _ _ => (Some "<AccessControlPolicy/>", None);
     backend.GetObjectAttributes := fun _ _ _ => (Some "<GetObjectAttributesOutput/>", None);
     backend.GetObject := fun _ _ _ => ("abc", Some (got lastModified), None);
     backend.PutBucketAcl := fun _ => None;
     backend.PutBucket := fun _ _ => None;
     backend.PutObjectPart := fun _ _ _ _ _ _ => ("etag-part", None);
     backend.PutObjectAcl := fun _ => None;
     backend.CopyObject := fun _ _ _ _ => (Some "<CopyObjectResult/>", None);
     backend.PutObject := fun _ => ("etag-1", None);
     backend.DeleteObjects := fun _ _ => None;
     backend.AbortMultipartUpload := fun _ => None;
     backend.DeleteObject := fun _ _ => None;
     backend.HeadObject := fun _ _ => (Some (head lastModified), None);
     backend.RestoreObject := fun _ _ _ => None;
     backend.CompleteMultipartUpload :=
       fun _ _ _ _ => (Some "<CompleteMultipartUploadResult/>", None);
     backend.CreateMultipartUpload :=
       fun _ => (Some "<InitiateMultipartUploadResult/>", None) |}.

(** A backend that answers as [be None] does, except that [HeadObject]
    returns neither a result nor an error and [GetObject] returns an
    error that is no catalog entry. *)
Definition broken : backend.Backend string string string string :=
  {| backend.ListObjectParts := backend.ListObjectParts (be None);
     backend.GetObjectAcl := backend.GetObjectAcl (be None);
     backend.GetObjectAttributes := backend.GetObjectAttributes (be None);
     backend.GetObject := fun _ _ _ => (EmptyString, None, Some (OtherError "disk failure"));
     backend.PutBucketAcl := backend.PutBucketAcl (be None);
     backend.PutBucket := backend.PutBucket (be None);
     backend.PutObjectPart := backend.PutObjectPart (be None);
     backend.PutObjectAcl := backend.PutObjectAcl (be None);
     backend.CopyObject := backend.CopyObject (be None);
     backend.PutObject := backend.PutObject (be None);
     backend.DeleteObjects := backend.DeleteObjects (be None);
     backend.AbortMultipartUpload := backend.AbortMultipartUpload (be None);
     backend.DeleteObject := backend.DeleteObject (be None);
     backend.HeadObject := fun _ _ => (None, None);
     backend.RestoreObject := backend.RestoreObject (be None);
     backend.CompleteMultipartUpload := backend.CompleteMultipartUpload (be None);
     backend.CreateMultipartUpload := backend.CreateMultipartUpload (be None) |}.

Definition controller (lastModified : option time.Time)
  : controllers.S3ApiController (P := packages) :=
  controllers.New (P := packages) (be lastModified).

Definition brokenController : controllers.S3ApiController (P := packages) :=
  controllers.New (P := packages) broken.

(** A request on the object route [/{bucket}/{key}/*]. *)
Definition object (path key keyEnd : string) (query header : list (string * string))
  (body : string) : fiber.Request :=
  {| fiber.reqPath := path;
     fiber.routeParams := [("bucket", "b1"); ("key", key); ("*1", keyEnd)];
     fiber.queryArgs := query;
     fiber.reqHeader := header;
     fiber.reqBody := body;
     fiber.reqBodyDecoded := body;
     fiber.locals := [("access", fiber.Str "alice")] |}.

(** A request on the bucket route [/{bucket}]. *)
Definition bucket (header : list (string * string)) (body : string) : fiber.Request :=
  {| fiber.reqPath := "/b1";
     fiber.routeParams := [("bucket", "b1")];
     fiber.queryArgs := [];
     fiber.reqHeader := header;
     fiber.reqBody := body;
     fiber.reqBodyDecoded := body;
     fiber.locals := [("access", fiber.Str "alice")] |}.

(** The requests of the specification's scenarios, and variations. *)

Definition aclAndGrants : list (string * string) :=
  [("X-Amz-Acl", "private"); ("X-Amz-Grant-Read", "id=alice")].

(** PUT /b1 with a canned ACL and a grant. *)
Definition putBucketBoth : fiber.Request := bucket aclAndGrants "".

(** PUT /b1/k1 with a canned ACL and a grant. *)
Definition putObjectBoth : fiber.Request := object "/b1/k1" "k1" "" [] aclAndGrants "".

(** PUT /b1/k1?uploadId=U&partNumber=..., body abc, with the given
    Content-Length header. *)
Definition putPart (partNumber contentLength : string) : fiber.Request :=
  object "/b1/k1" "k1" "" [("uploadId", "U"); ("partNumber", partNumber)]
    [("Content-Length", contentLength)] "abc".

Definition putPartThree : fiber.Request := putPart "3" "3".
Definition putPartZero : fiber.Request := putPart "0" "3".

(** PUT /b1/k1 with X-Amz-Copy-Source: src/obj/sub, without and with a
    Content-Length header that is no number. *)
Definition putCopy : fiber.Request :=
  object "/b1/k1" "k1" "" [] [("X-Amz-Copy-Source", "src/obj/sub")] "".

Definition putCopyBadLength : fiber.Request :=
  object "/b1/k1" "k1" "" []
    [("X-Amz-Copy-Source", "src/obj/sub"); ("Content-Length", "abc")] "".

(** PUT /b1/k1 with body abc and no header. *)
Definition putPlain : fiber.Request := object "/b1/k1" "k1" "" [] [] "abc".

(** A request for /b1/k1 with the given query arguments. *)
Definition getObject (query : list (string * string)) : fiber.Request :=
  object "/b1/k1" "k1" "" query [] "".

Definition getPlain : fiber.Request := getObject [].
Definition emptyUploadId : fiber.Request := getObject [("uploadId", ""); ("acl", "")].
Definition maxPartsNegative : fiber.Request :=
  getObject [("max-parts", "-1"); ("uploadId", "U")].
Definition maxPartsTen : fiber.Request := getObject [("uploadId", "U"); ("max-parts", "10")].
Definition maxPartsEmpty : fiber.Request := getObject [("uploadId", "U"); ("max-parts", "")].
Definition markerNoNumber : fiber.Request :=
  getObject [("uploadId", "U"); ("part-number-marker", "x")].

(** A request for /b1/dir/ : the route gives the key dir and an empty
    tail. *)
Definition getDir : fiber.Request := object "/b1/dir/" "dir" "" [] [] "".

(** Requests whose body is no XML. *)
Definition deleteNoXml : fiber.Request := bucket [] "not xml".
Definition restoreNoXml : fiber.Request :=
  object "/b1/k1" "k1" "" [("restore", "")] [] "not xml".
Definition completeNoXml : fiber.Request :=
  object "/b1/k1" "k1" "" [("uploadId", "U")] [] "not xml".

(** The controller on the backend without and with timestamps. *)
Definition api : controllers.S3ApiController (P := packages) := controller None.
Definition apiModified : controllers.S3ApiController (P := packages) :=
  controller (Some modified).

End sample.

(** ** The bucket-level operations of the backend *)

Module bucketBackend.

Module ListMultipartUploadsInput.
Record t := {
  Bucket : string
}.
End ListMultipartUploadsInput.

Section Types.

Variable Doc : Type.

(** The methods of the backend that the service-level and bucket-level
    handlers call, with what the Go methods return. *)
Record Backend := {
  ListBuckets : option Doc * option error;
  GetBucketAcl : string -> option Doc * option error;
  ListMultipartUploads : ListMultipartUploadsInput.t -> option Doc * option error;
  ListObjectsV2 : string -> string -> string -> string -> Z -> option Doc * option error;
  ListObjects : string -> string -> string -> string -> Z -> option Doc * option error;
  DeleteBucket : string -> option error;
  HeadBucket : string -> option Doc * option error
}.

End Types.

Arguments ListBuckets {Doc}.
Arguments GetBucketAcl {Doc}.
Arguments ListMultipartUploads {Doc}.
Arguments ListObjectsV2 {Doc}.
Arguments ListObjects {Doc}.
Arguments DeleteBucket {Doc}.
Arguments HeadBucket {Doc}.

(** One of these operations invoked by a handler, with its arguments. *)
Inductive Call :=
| CallListBuckets
| CallGetBucketAcl (bucket : string)
| CallListMultipartUploads (input : ListMultipartUploadsInput.t)
| CallListObjectsV2 (bucket prefix marker delimiter : string) (maxkeys : Z)
| CallListObjects (bucket prefix marker delimiter : string) (maxkeys : Z)
| CallDeleteBucket (bucket : string)
| CallHeadBucket (bucket : string).

End bucketBackend.

(** ** The service-level and bucket-level handlers of [base.go] *)

Module bucketControllers.
Section Handlers.

Context {P : Packages}.

(** The backend of the controller ([c.be]), as far as these handlers use
    it. *)
Variable be : bucketBackend.Backend Doc.

(** The run of one of these handlers: the operations it invoked, oldest
    first, and how it ended. *)
Record Run := {
  invoked : list bucketBackend.Call;
  outcome : controllers.Outcome
}.

Definition ListBuckets (ctx : fiber.Request) : Run :=
  let '(res, err) := bucketBackend.ListBuckets be in
  {| invoked := [bucketBackend.CallListBuckets];
     outcome := controllers.SendXMLResponse ctx controllers.start res err |}.

Definition ListActions (ctx : fiber.Request) : Run :=
  let bucket := fiber.Params ctx "bucket" in
  let prefix := fiber.Query ctx "prefix" in
  let marker := fiber.Query ctx "continuation-token" in
  let delimiter := fiber.Query ctx "delimiter" in
  let maxkeys := fiber.QueryInt ctx "max-keys" 0 in
  if fiber.Has (fiber.queryArgs ctx) "acl" then
    let '(res, err) := bucketBackend.GetBucketAcl be (fiber.Params ctx "bucket") in
    {| invoked := [bucketBackend.CallGetBucketAcl (fiber.Params ctx "bucket")];
       outcome := controllers.SendXMLResponse ctx controllers.start res err |}
  else if fiber.Has (fiber.queryArgs ctx) "uploads" then
    let input :=
      {| bucketBackend.ListMultipartUploadsInput.Bucket := fiber.Params ctx "bucket" |} in
    let '(res, err) := bucketBackend.ListMultipartUploads be input in
    {| invoked := [bucketBackend.CallListMultipartUploads input];
       outcome := controllers.SendXMLResponse ctx controllers.start res err |}
  else if fiber.QueryInt ctx "list-type" 0 =? 2 then
    let '(res, err) := bucketBackend.ListObjectsV2 be bucket prefix marker delimiter maxkeys in
    {| invoked := [bucketBackend.CallListObjectsV2 bucket prefix marker delimiter maxkeys];
       outcome := controllers.SendXMLResponse ctx controllers.start res err |}
  else
    let '(res, err) := bucketBackend.ListObjects be bucket prefix marker delimiter maxkeys in
    {| invoked := [bucketBackend.CallListObjects bucket prefix marker delimiter maxkeys];
       outcome := controllers.SendXMLResponse ctx controllers.start res err |}.

Definition DeleteBucket (ctx : fiber.Request) : Run :=
  let err := bucketBackend.DeleteBucket be (fiber.Params ctx "bucket") in
  {| invoked := [bucketBackend.CallDeleteBucket (fiber.Params ctx "bucket")];
     outcome := controllers.SendResponse ctx controllers.start err |}.

Definition HeadBucket (ctx : fiber.Request) : Run :=
  let '(_, err) := bucketBackend.HeadBucket be (fiber.Params ctx "bucket") in
  {| invoked := [bucketBackend.CallHeadBucket (fiber.Params ctx "bucket")];
     outcome := controllers.SendResponse ctx controllers.start err |}.

(** What the backend returns to one of these operations: the value that
    is rendered as XML, where the handler renders one, and the error. *)
Definition reply (op : bucketBackend.Call) : option Doc * option error :=
  match op with
  | bucketBackend.CallListBuckets => bucketBackend.ListBuckets be
  | bucketBackend.CallGetBucketAcl bucket => bucketBackend.GetBucketAcl be bucket
  | bucketBackend.CallListMultipartUploads input => bucketBackend.ListMultipartUploads be input
  | bucketBackend.CallListObjectsV2 bucket prefix marker delimiter maxkeys =>
      bucketBackend.ListObjectsV2 be bucket prefix marker delimiter maxkeys
  | bucketBackend.CallListObjects bucket prefix marker delimiter maxkeys =>
      bucketBackend.ListObjects be bucket prefix marker delimiter maxkeys
  | bucketBackend.CallDeleteBucket bucket => (None, bucketBackend.DeleteBucket be bucket)
  | bucketBackend.CallHeadBucket bucket =>
      (None, snd (bucketBackend.HeadBucket be bucket))
  end.

End Handlers.
End bucketControllers.

(** ** What a run shows, and the handlers as a family *)

Module dispatch.
Section Dispatch.

Context {P : Packages}.
Variable c : controllers.S3ApiController.

(** The Go error a handler returns to the router ([None]: nil, or a
    panic). *)
Definition returned (o : controllers.Outcome) : option error :=
  match o with
  | controllers.Panic => None
  | controllers.Return _ err => err
  end.

Definition statusOf (o : controllers.Outcome) : option Z :=
  match o with
  | controllers.Panic => None
  | controllers.Return s _ => Some (fiber.StatusCode (controllers.response s))
  end.

Definition bodyOf (o : controllers.Outcome) : option string :=
  match o with
  | controllers.Panic => None
  | controllers.Return s _ => Some (fiber.RespBody (controllers.response s))
  end.

Definition headersOf (o : controllers.Outcome) : list (string * string) :=
  match o with
  | controllers.Panic => []
  | controllers.Return s _ => fiber.Header (controllers.response s)
  end.

(** The object and bucket handlers that use the object-level backend. *)
Definition handlers : list (fiber.Request -> controllers.Outcome) :=
  [ controllers.GetActions c; controllers.PutBucketActions c; controllers.PutActions c;
    controllers.DeleteObjects c; controllers.DeleteActions c; controllers.HeadObject c;
    controllers.CreateActions c ].

(** What the backend returns to an operation a handler has invoked: the
    value that is rendered as XML, for the operations that give one, and
    the error. *)
Definition reply (op : backend.Call Delete Restore Part) : option Doc * option error :=
  let b := controllers.be c in
  match op with
  | backend.CallListObjectParts bucket key uploadId partNumberMarker maxParts =>
      backend.ListObjectParts b bucket key uploadId partNumberMarker maxParts
  | backend.CallGetObjectAcl bucket key => backend.GetObjectAcl b bucket key
  | backend.CallGetObjectAttributes bucket key attributes =>
      backend.GetObjectAttributes b bucket key attributes
  | backend.CallGetObject bucket key acceptRange =>
      (None, snd (backend.GetObject b bucket key acceptRange))
  | backend.CallPutBucketAcl input => (None, backend.PutBucketAcl b input)
  | backend.CallPutBucket bucket owner => (None, backend.PutBucket b bucket owner)
  | backend.CallPutObjectPart bucket key uploadId partNumber length body =>
      (None, snd (backend.PutObjectPart b bucket key uploadId partNumber length body))
  | backend.CallPutObjectAcl input => (None, backend.PutObjectAcl b input)
  | backend.CallCopyObject srcBucket srcObject dstBucket dstObject =>
      backend.CopyObject b srcBucket srcObject dstBucket dstObject
  | backend.CallPutObject input => (None, snd (backend.PutObject b input))
  | backend.CallDeleteObjects bucket del => (None, backend.DeleteObjects b bucket del)
  | backend.CallAbortMultipartUpload input => (None, backend.AbortMultipartUpload b input)
  | backend.CallDeleteObject bucket key => (None, backend.DeleteObject b bucket key)
  | backend.CallHeadObject bucket key => (None, snd (backend.HeadObject b bucket key))
  | backend.CallRestoreObject bucket key req => (None, backend.RestoreObject b bucket key req)
  | backend.CallCompleteMultipartUpload bucket key uploadId parts =>
      backend.CompleteMultipartUpload b bucket key uploadId parts
  | backend.CallCreateMultipartUpload input => backend.CreateMultipartUpload b input
  end.

(** Does the string hold the byte? (as a proposition on list elements) *)
Definition withoutByte (sep : ascii) (s : string) : Prop :=
  strings.ContainsByte s sep = false.

End Dispatch.
End dispatch.

(** A backend for the bucket-level handlers on which every operation
    succeeds, and one that fails with the NoSuchBucket entry. *)
Module bucketSample.

Definition be : bucketBackend.Backend string :=
  {| bucketBackend.ListBuckets := (Some "<ListAllMyBucketsResult/>", None);
     bucketBackend.GetBucketAcl := fun _ => (Some "<AccessControlPolicy/>", None);
     bucketBackend.ListMultipartUploads := fun _ => (Some "<ListMultipartUploadsResult/>", None);
     bucketBackend.ListObjectsV2 := fun _ _ _ _ _ => (Some "<ListBucketResult/>", None);
     bucketBackend.ListObjects := fun _ _ _ _ _ => (Some "<ListBucketResult/>", None);
     bucketBackend.DeleteBucket := fun _ => None;
     bucketBackend.HeadBucket := fun _ => (Some "<HeadBucketOutput/>", None) |}.

Definition noSuchBucket : error :=
  CatalogError (controllers.GetAPIError (P := sample.packages) s3err.ErrNoSuchBucket).

Definition missing : bucketBackend.Backend string :=
  {| bucketBackend.ListBuckets := (None, Some noSuchBucket);
     bucketBackend.GetBucketAcl := fun _ => (None, Some noSuchBucket);
     bucketBackend.ListMultipartUploads := fun _ => (None, Some noSuchBucket);
     bucketBackend.ListObjectsV2 := fun _ _ _ _ _ => (None, Some noSuchBucket);
     bucketBackend.ListObjects := fun _ _ _ _ _ => (None, Some noSuchBucket);
     bucketBackend.DeleteBucket := fun _ => Some noSuchBucket;
     bucketBackend.HeadBucket := fun _ => (None, Some noSuchBucket) |}.

(** GET /b1 with the given query arguments. *)
Definition list (query : list (string * string)) : fiber.Request :=
  {| fiber.reqPath := "/b1";
     fiber.routeParams := [("bucket", "b1")];
     fiber.queryArgs := query;
     fiber.reqHeader := [];
     fiber.reqBody := EmptyString;
     fiber.reqBodyDecoded := EmptyString;
     fiber.locals := [("access", fiber.Str "alice")] |}.

End bucketSample.

(** More requests, and a backend whose GetObject fails with the
    NoSuchKey entry after it has written to the body writer. *)
Module moreSamples.

(** PUT /b1/ : the route gives no key. *)
Definition putNoKey : fiber.Request := sample.object "/b1/" "" "" [] [] "".

Definition putWithLength : fiber.Request :=
  sample.object "/b1/k1" "k1" "" []
    [("Content-Length", "3"); ("X-Amz-Meta-Color", "blue")] "abc".

Definition putAclAndCopy : fiber.Request :=
  sample.object "/b1/k1" "k1" "" []
    [("X-Amz-Acl", "private"); ("X-Amz-Copy-Source", "src/obj")] "".

Definition putBucketPlain : fiber.Request := sample.bucket [] "".

Definition putBucketAcl : fiber.Request := sample.bucket [("X-Amz-Acl", "private")] "".

Definition abort : fiber.Request :=
  sample.object "/b1/dir/sub/k1" "dir" "sub/k1" [("uploadId", "U")]
    [("X-Amz-Request-Payer", "requester")] "".

Definition deleteTwo : fiber.Request := sample.bucket [] "<Delete></Delete>".

Definition restoreDuringUpload : fiber.Request :=
  sample.object "/b1/k1" "k1" "" [("uploadId", "U"); ("restore", "")] []
    "<RestoreRequest></RestoreRequest>".

Definition complete : fiber.Request :=
  sample.object "/b1/k1" "k1" "" [("uploadId", "U")] []
    "<CompleteMultipartUpload></CompleteMultipartUpload>".

Definition copyLeadingSlash : fiber.Request :=
  sample.object "/b1/k1" "k1" "" [] [("X-Amz-Copy-Source", "/src/obj")] "".

Definition copyBucketOnly : fiber.Request :=
  sample.object "/b1/k1" "k1" "" [] [("X-Amz-Copy-Source", "src")] "".

Definition attributes : fiber.Request :=
  sample.object "/b1/k1" "k1" "" [] [("X-Amz-Object-Attributes", "ETag, ObjectSize")] "".

Definition noSuchKey : s3err.APIError :=
  controllers.GetAPIError (P := sample.packages) s3err.ErrNoSuchKey.

Definition failingGet : controllers.S3ApiController (P := sample.packages) :=
  controllers.New (P := sample.packages)
    {| backend.ListObjectParts := backend.ListObjectParts (sample.be None);
       backend.GetObjectAcl := backend.GetObjectAcl (sample.be None);
       backend.GetObjectAttributes := backend.GetObjectAttributes (sample.be None);
       backend.GetObject := fun _ _ _ => ("partial", None, Some (CatalogError noSuchKey));
       backend.PutBucketAcl := backend.PutBucketAcl (sample.be None);
       backend.PutBucket := backend.PutBucket (sample.be None);
       backend.PutObjectPart := backend.PutObjectPart (sample.be None);
       backend.PutObjectAcl := backend.PutObjectAcl (sample.be None);
       backend.CopyObject := backend.CopyObject (sample.be None);
       backend.PutObject := backend.PutObject (sample.be None);
       backend.DeleteObjects := backend.DeleteObjects (sample.be None);
       backend.AbortMultipartUpload := backend.AbortMultipartUpload (sample.be None);
       backend.DeleteObject := backend.DeleteObject (sample.be None);
       backend.HeadObject := backend.HeadObject (sample.be None);
       backend.RestoreObject := backend.RestoreObject (sample.be None);
       backend.CompleteMultipartUpload := backend.CompleteMultipartUpload (sample.be None);
       backend.CreateMultipartUpload := backend.CreateMultipartUpload (sample.be None) |}.

(** GET /b1 with arguments of both listings. *)
Definition listV2 : fiber.Request :=
  bucketSample.list [("list-type", "2"); ("prefix", "p"); ("max-keys", "100")].

Definition listV1 : fiber.Request :=
  bucketSample.list [("continuation-token", "m"); ("marker", "ignored"); ("max-keys", "-5")].

Definition listAcl : fiber.Request :=
  bucketSample.list [("uploads", ""); ("list-type", "2"); ("acl", "")].

Definition listUploads : fiber.Request :=
  bucketSample.list [("uploads", ""); ("list-type", "2")].

Definition listNoNumber : fiber.Request := bucketSample.list [("max-keys", "many")].

End moreSamples.

(** ** Properties *)

Import controllers.

Section Properties.

Context {P : Packages}.
Variable api : S3ApiController.

(** *** Strings and headers *)

Lemma neq_empty_eqb (s : string) : s <> EmptyString -> String.eqb s EmptyString = false.
Proof. intro H. now apply String.eqb_neq. Qed.

Lemma eqb_empty_neq (s : string) : String.eqb s EmptyString = false -> s <> EmptyString.
Proof. intro H. now apply String.eqb_neq. Qed.

Lemma append_empty (a b : string) : a ++ b = EmptyString -> a = EmptyString /\ b = EmptyString.
Proof. destruct a; simpl; intro H; [now split | discriminate]. Qed.

Lemma append_not_empty_l (a b : string) : a <> EmptyString -> a ++ b <> EmptyString.
Proof. intros Ha H. now apply append_empty in H. Qed.

Lemma append_not_empty_r (a b : string) : b <> EmptyString -> a ++ b <> EmptyString.
Proof. intros Hb H. now apply append_empty in H. Qed.

(** The concatenation of the grant headers is non-empty as soon as one
    of the five headers is. *)
Lemma grantsOf_not_empty (ctx : fiber.Request) (h : string) :
  In h grantHeaders -> fiber.Get ctx h <> EmptyString -> grantsOf ctx <> EmptyString.
Proof.
  unfold grantHeaders, grantsOf. simpl.
  intros [<- | [<- | [<- | [<- | [<- | []]]]]] Hne.
  - now apply append_not_empty_l.
  - now apply append_not_empty_r, append_not_empty_l.
  - now apply append_not_empty_r, append_not_empty_r, append_not_empty_l.
  - now apply append_not_empty_r, append_not_empty_r, append_not_empty_r, append_not_empty_l.
  - now apply append_not_empty_r, append_not_empty_r, append_not_empty_r, append_not_empty_r.
Qed.

Lemma lastByte_None (s : string) : strings.lastByte s = None -> s = EmptyString.
Proof.
  induction s as [| c s IH]; simpl; [reflexivity |].
  destruct s; [discriminate |]. intro H. apply IH in H. discriminate.
Qed.

Lemma lastByte_append (s : string) (c : ascii) :
  strings.lastByte (s ++ String c EmptyString) = Some (String c EmptyString).
Proof.
  induction s as [| d s IH]; simpl; [reflexivity |].
  destruct (s ++ String c EmptyString) eqn:E; [| exact IH].
  destruct s; discriminate.
Qed.

Lemma joinKey_not_empty (key keyEnd : string) :
  key <> EmptyString -> joinKey key keyEnd <> EmptyString.
Proof.
  intro H. unfold joinKey. destruct (String.eqb keyEnd EmptyString); simpl; [exact H |].
  now apply append_not_empty_l.
Qed.

(** On the object route the path and the key parameter are not empty,
    and then rebuilding the key does not panic. *)
Lemma putKey_defined (ctx : fiber.Request) :
  fiber.Path ctx <> EmptyString -> fiber.Params ctx "key" <> EmptyString ->
  exists key, putKey ctx = Some key.
Proof.
  intros Hp Hk. unfold putKey, withTrailingSlash.
  destruct (strings.lastByte (fiber.Path ctx)) as [pl |] eqn:Ep.
  - destruct (String.eqb pl "/"); [| eauto].
    destruct (strings.lastByte (joinKey (fiber.Params ctx "key") (fiber.Params ctx "*1")))
      as [kl |] eqn:Ek.
    + destruct (negb (String.eqb kl "/")); eauto.
    + apply lastByte_None in Ek. now apply joinKey_not_empty in Ek.
  - apply lastByte_None in Ep. contradiction.
Qed.

(** The rule of [PutActions] itself keeps a trailing slash of the path on
    the key. *)
Lemma withTrailingSlash_keeps (path keyStart key : string) :
  strings.lastByte path = Some "/" ->
  withTrailingSlash path keyStart = Some key ->
  strings.lastByte key = Some "/".
Proof.
  unfold withTrailingSlash. intros ->. simpl.
  destruct (strings.lastByte keyStart) as [kl |] eqn:Ek; [| discriminate].
  destruct (String.eqb kl "/") eqn:E; simpl; intro H; injection H as <-.
  - apply String.eqb_eq in E. now subst kl.
  - apply lastByte_append.
Qed.

Lemma EqualFold_refl (k : string) : strings.EqualFold k k = true.
Proof. unfold strings.EqualFold. apply String.eqb_refl. Qed.

Lemma EqualFold_sym (a b : string) : strings.EqualFold a b = strings.EqualFold b a.
Proof. unfold strings.EqualFold. apply String.eqb_sym. Qed.

Lemma EqualFold_trans (a b c : string) :
  strings.EqualFold a b = true -> strings.EqualFold b c = true ->
  strings.EqualFold a c = true.
Proof.
  unfold strings.EqualFold. intros H1 H2.
  apply String.eqb_eq in H1, H2. apply String.eqb_eq. congruence.
Qed.

(** A header just set is found, under any spelling of its name, with the
    value it was set to. *)
Lemma lookupHeader_setArg (h : list (string * string)) (key key' value : string) :
  strings.EqualFold key key' = true ->
  fiber.lookupHeader (fiber.setArg h key value) key' = Some value.
Proof.
  intro Hk. induction h as [| [k v] h IH]; simpl.
  - now rewrite Hk.
  - destruct (strings.EqualFold k key) eqn:E; simpl.
    + now rewrite (EqualFold_trans _ _ _ E Hk).
    + destruct (strings.EqualFold k key') eqn:E'; [| exact IH].
      rewrite EqualFold_sym in Hk.
      now rewrite (EqualFold_trans _ _ _ E' Hk) in E.
Qed.

(** *** The response writers *)

Lemma callsOf_SendResponse (req : fiber.Request) (s : State) (err : option error) :
  callsOf (SendResponse req s err) = calls s.
Proof. destruct err as [[serr | msg] |]; reflexivity. Qed.

Lemma callsOf_SendXMLResponse (req : fiber.Request) (s : State) (resp : option Doc)
  (err : option error) :
  callsOf (SendXMLResponse req s resp err) = calls s.
Proof.
  destruct err as [[serr | msg] |]; try reflexivity.
  destruct resp as [v |]; simpl; [| reflexivity].
  destruct (xmlMarshal v) as [b | e]; simpl; [| reflexivity].
  now destruct (negb (String.eqb b EmptyString)).
Qed.

Lemma headerOf_SendResponse (req : fiber.Request) (s : State) (err : option error)
  (key : string) :
  headerOf (SendResponse req s err) key = fiber.lookupHeader (fiber.Header (response s)) key.
Proof. destruct err as [[serr | msg] |]; reflexivity. Qed.

(** A catalog error is answered with its own HTTP status and its
    rendering as body, by either writer. *)
Lemma SendResponse_catalog (req : fiber.Request) (s : State) (serr : s3err.APIError) :
  SendResponse req s (Some (CatalogError serr)) =
    Return {| response :=
                {| fiber.StatusCode := s3err.HTTPStatusCode serr;
                   fiber.Header := fiber.Header (response s);
                   fiber.RespBody := GetAPIErrorResponse serr "" "" "" |};
              calls := calls s; stderr := stderr s |} None.
Proof. reflexivity. Qed.

Lemma SendXMLResponse_catalog (req : fiber.Request) (s : State) (resp : option Doc)
  (serr : s3err.APIError) :
  SendXMLResponse req s resp (Some (CatalogError serr)) =
    SendResponse req s (Some (CatalogError serr)).
Proof. reflexivity. Qed.

(** C3. A non-catalog error is logged and answered with the rendered
    InternalError entry as body, but the status of the response is left
    as it was: on a response nothing else wrote to, the status is 200 and
    not the 500 of the InternalError entry.  Both writers do so. *)
Theorem SendResponse_other_error_status (req : fiber.Request) (s : State)
  (resp : option Doc) (msg : string) :
  SendResponse req s (Some (OtherError msg)) =
    Return {| response :=
                {| fiber.StatusCode := fiber.StatusCode (response s);
                   fiber.Header := fiber.Header (response s);
                   fiber.RespBody :=
                     GetAPIErrorResponse (GetAPIError s3err.ErrInternalError) "" "" "" |};
              calls := calls s;
              stderr := (stderr s ++ [InternalErrorLine req (OtherError msg)])%list |} None
  /\ SendXMLResponse req s resp (Some (OtherError msg)) =
       SendResponse req s (Some (OtherError msg))
  /\ fiber.StatusCode (response start) = 200
  /\ s3err.HTTPStatusCode (GetAPIError s3err.ErrInternalError) = 500.
Proof. repeat split. Qed.

(** *** PUT on an object *)

(** [PutActions] after the key is rebuilt: the Content-Length header is
    parsed, and only then the ladder is entered. *)
Lemma PutActions_parses_length_first (ctx : fiber.Request) (key : string) :
  putKey ctx = Some key ->
  PutActions api ctx =
    if negb (String.eqb (fiber.Get ctx "Content-Length") EmptyString) then
      match strconv.ParseInt (fiber.Get ctx "Content-Length") with
      | strconv.Err _ =>
          SendResponse ctx start (Some (CatalogError (GetAPIError s3err.ErrInvalidRequest)))
      | strconv.Ok contentLength =>
          putLadder api ctx (fiber.Params ctx "bucket") key contentLength
      end
    else putLadder api ctx (fiber.Params ctx "bucket") key 0.
Proof.
  unfold putKey. intro Hk. cbv beta zeta delta [PutActions]. now rewrite Hk.
Qed.

Lemma not_both_false (a b : string) :
  ~ (a <> EmptyString /\ b <> EmptyString) ->
  negb (String.eqb a EmptyString) && negb (String.eqb b EmptyString) = false.
Proof.
  intro H.
  destruct (String.eqb a EmptyString) eqn:Ea; [reflexivity |].
  destruct (String.eqb b EmptyString) eqn:Eb; [reflexivity |].
  exfalso. apply H. split; now apply eqb_empty_neq.
Qed.

(** The ladder on a request with both a canned ACL and grants, outside
    the part-upload branch. *)
Lemma putLadder_acl_conflict (ctx : fiber.Request) (bucket key : string) (contentLength : Z) :
  fiber.Get ctx "X-Amz-Acl" <> EmptyString ->
  grantsOf ctx <> EmptyString ->
  ~ (fiber.Query ctx "uploadId" <> EmptyString /\ fiber.Query ctx "partNumber" <> EmptyString) ->
  putLadder api ctx bucket key contentLength = Return start (Some (OtherError "wrong api call")).
Proof.
  intros Hacl Hgr Hup. apply neq_empty_eqb in Hacl, Hgr. apply not_both_false in Hup.
  unfold grantsOf in Hgr. cbv beta zeta delta [putLadder].
  now rewrite Hup, Hgr, Hacl.
Qed.

(** C1. A request that carries a canned ACL and at least one grant
    header is refused without any backend operation.  On the bucket
    route (with the authenticated principal in place) the handler returns
    the error "wrong api call".  On the object route, outside the
    part-upload branch, it returns the same error when the Content-Length
    header is absent or parses; when that header is present and does not
    parse, the request was already refused with the InvalidRequest
    catalog error. *)
Theorem acl_and_grants_refused (ctx : fiber.Request) (h : string) :
  fiber.Get ctx "X-Amz-Acl" <> EmptyString ->
  In h grantHeaders ->
  fiber.Get ctx h <> EmptyString ->
  (forall owner, fiber.Locals ctx "access" = fiber.Str owner ->
     PutBucketActions api ctx = Return start (Some (OtherError "wrong api call"))
     /\ callsOf (PutBucketActions api ctx) = [])
  /\ (forall key, putKey ctx = Some key ->
        ~ (fiber.Query ctx "uploadId" <> EmptyString
           /\ fiber.Query ctx "partNumber" <> EmptyString) ->
        callsOf (PutActions api ctx) = []
        /\ ((exists contentLength, lengthIs ctx contentLength)
            /\ PutActions api ctx = Return start (Some (OtherError "wrong api call"))
            \/ (exists e, strconv.ParseInt (fiber.Get ctx "Content-Length") = strconv.Err e)
               /\ fiber.Get ctx "Content-Length" <> EmptyString
               /\ PutActions api ctx =
                    SendResponse ctx start
                      (Some (CatalogError (GetAPIError s3err.ErrInvalidRequest))))).
Proof.
  intros Hacl Hin Hh.
  pose proof (grantsOf_not_empty ctx h Hin Hh) as Hgr.
  split.
  - intros owner Hown.
    assert (PutBucketActions api ctx = Return start (Some (OtherError "wrong api call"))) as E.
    { apply neq_empty_eqb in Hacl, Hgr. unfold grantsOf in Hgr.
      cbv beta zeta delta [PutBucketActions]. now rewrite Hown, Hgr, Hacl. }
    now rewrite E.
  - intros key Hkey Hup.
    rewrite (PutActions_parses_length_first ctx key Hkey).
    destruct (String.eqb (fiber.Get ctx "Content-Length") EmptyString) eqn:El; simpl.
    + apply String.eqb_eq in El.
      rewrite (putLadder_acl_conflict ctx _ key 0 Hacl Hgr Hup).
      split; [reflexivity | left]. split; [| reflexivity].
      exists 0. now apply lengthAbsent.
    + apply String.eqb_neq in El.
      destruct (strconv.ParseInt (fiber.Get ctx "Content-Length")) as [cl | e] eqn:Ep.
      * rewrite (putLadder_acl_conflict ctx _ key cl Hacl Hgr Hup).
        split; [reflexivity | left]. split; [| reflexivity].
        exists cl. now apply lengthParsed.
      * split; [reflexivity | right]. split; [now exists e | now split].
Qed.

Lemma PutActions_with_length (ctx : fiber.Request) (key : string) (contentLength : Z) :
  putKey ctx = Some key ->
  lengthIs ctx contentLength ->
  PutActions api ctx = putLadder api ctx (fiber.Params ctx "bucket") key contentLength.
Proof.
  intros Hk Hl. rewrite (PutActions_parses_length_first ctx key Hk).
  destruct Hl as [He -> | Hp].
  - now rewrite He.
  - destruct (fiber.Get ctx "Content-Length") as [| c hd]; [discriminate |].
    now rewrite Hp.
Qed.

Lemma both_true (a b : string) :
  a <> EmptyString -> b <> EmptyString ->
  negb (String.eqb a EmptyString) && negb (String.eqb b EmptyString) = true.
Proof. intros Ha Hb. apply neq_empty_eqb in Ha, Hb. now rewrite Ha, Hb. Qed.

(** What fasthttp delivers as Content-Length, [ParseInt] takes: a
    decimal digit is no sign, and a run of digits is no negative
    number. *)
Lemma digit_spec (c : ascii) (d : Z) :
  strconv.digit c = Some d ->
  Ascii.eqb c "-" = false /\ Ascii.eqb c "+" = false /\ 0 <= d.
Proof.
  intro H. repeat split.
  - destruct (Ascii.eqb_spec c "-") as [-> | _]; [discriminate | reflexivity].
  - destruct (Ascii.eqb_spec c "+") as [-> | _]; [discriminate | reflexivity].
  - unfold strconv.digit in H. cbv zeta in H.
    destruct (_ && _) eqn:E; [| discriminate]. injection H as <-.
    apply andb_prop in E. destruct E as [E _]. apply Z.leb_le in E. lia.
Qed.

Lemma digits_nonneg (s : string) (acc n : Z) :
  0 <= acc -> strconv.digits acc s = Some n -> 0 <= n.
Proof.
  revert acc. induction s as [| c s IH]; simpl; intros acc Hacc H.
  - now injection H as <-.
  - destruct (strconv.digit c) as [d |] eqn:Ed; [| discriminate].
    destruct (digit_spec c d Ed) as (_ & _ & Hd).
    apply (IH (acc * 10 + d)); [lia | exact H].
Qed.

Lemma delivered_parses (v : string) (n : Z) :
  fasthttp.parseContentLength v = Some n -> strconv.ParseInt v = strconv.Ok n.
Proof.
  unfold fasthttp.parseContentLength. destruct v as [| c s]; [discriminate |].
  destruct (strconv.digits 0 (String c s)) as [m |] eqn:E; [| discriminate].
  destruct (m <=? strconv.maxInt64) eqn:L; [| discriminate]. intro H. injection H as <-.
  pose proof (digits_nonneg _ _ _ (Z.le_refl 0) E) as Hm.
  pose proof E as E'. simpl in E'.
  destruct (strconv.digit c) as [d |] eqn:Ed; [| discriminate].
  destruct (digit_spec c d Ed) as (E1 & E2 & _).
  unfold strconv.ParseInt. rewrite E1, E2. cbv beta iota zeta delta [orb]. rewrite E.
  assert ((strconv.minInt64 <=? m) = true) as Lmin.
  { apply Z.leb_le. assert (strconv.minInt64 < 0) by reflexivity. lia. }
  now rewrite Lmin, L.
Qed.

Lemma delivered_lengthIs (ctx : fiber.Request) :
  fasthttp.deliveredLength (fiber.Get ctx "Content-Length") ->
  exists contentLength, lengthIs ctx contentLength.
Proof.
  intros [He | [n Hn]].
  - exists 0. now apply lengthAbsent.
  - exists n. now apply lengthParsed, delivered_parses.
Qed.

(** The part-upload branch of the ladder, for a Content-Length that is
    absent or parses. *)
Lemma putPart_with_length (ctx : fiber.Request) (key : string) (contentLength : Z) :
  putKey ctx = Some key ->
  lengthIs ctx contentLength ->
  fiber.Query ctx "uploadId" <> EmptyString ->
  fiber.Query ctx "partNumber" <> EmptyString ->
  (forall partNumber,
     strconv.Atoi (fiber.Query ctx "partNumber") = strconv.Ok partNumber ->
     1 <= partNumber ->
     callsOf (PutActions api ctx) =
       [backend.CallPutObjectPart (fiber.Params ctx "bucket") key
          (fiber.Query ctx "uploadId") partNumber contentLength (fiber.Body ctx)]
     /\ headerOf (PutActions api ctx) "ETag" =
          Some (fst (backend.PutObjectPart (be api) (fiber.Params ctx "bucket") key
                       (fiber.Query ctx "uploadId") partNumber contentLength
                       (fiber.Body ctx))))
  /\ (~ (exists partNumber,
           strconv.Atoi (fiber.Query ctx "partNumber") = strconv.Ok partNumber
           /\ 1 <= partNumber) ->
      PutActions api ctx =
        SendResponse ctx start (Some (CatalogError (GetAPIError s3err.ErrInvalidPart)))
      /\ callsOf (PutActions api ctx) = []).
Proof.
  intros Hk Hl Hu Hp. rewrite (PutActions_with_length ctx key contentLength Hk Hl).
  pose proof (both_true _ _ Hu Hp) as Hb.
  cbv beta zeta delta [putLadder]. rewrite Hb. unfold fiber.QueryInt.
  split.
  - intros partNumber Ha Hge. rewrite Ha.
    destruct (Z.ltb_spec partNumber 1) as [Hlt | _]; [lia |].
    destruct (backend.PutObjectPart (be api) (fiber.Params ctx "bucket") key
                (fiber.Query ctx "uploadId") partNumber contentLength (fiber.Body ctx))
      as [etag err].
    rewrite callsOf_SendResponse, headerOf_SendResponse. split; [reflexivity |].
    simpl. reflexivity.
  - intro Hno.
    destruct (strconv.Atoi (fiber.Query ctx "partNumber")) as [pn | e] eqn:Ea.
    + destruct (Z.ltb_spec pn 1) as [_ | Hge]; [now split |].
      exfalso. apply Hno. now exists pn.
    + now split.
Qed.

(** C2. On a PUT that fasthttp has read (its Content-Length header is
    absent or was parsed as a content length) with non-empty uploadId and
    partNumber, the handler has a content length, 0 for an absent header
    and the parsed header otherwise, and: a partNumber that is an integer
    of at least 1 makes [PutObjectPart] the one backend operation, called
    with the bucket, the rebuilt key, the upload id, the part number,
    that content length and the body, and the etag it returns is the ETag
    header of the response; any other partNumber is answered with
    InvalidPart and no backend operation. *)
Theorem put_part_dispatch (ctx : fiber.Request) (key : string) :
  putKey ctx = Some key ->
  fasthttp.deliveredLength (fiber.Get ctx "Content-Length") ->
  fiber.Query ctx "uploadId" <> EmptyString ->
  fiber.Query ctx "partNumber" <> EmptyString ->
  exists contentLength,
    lengthIs ctx contentLength
    /\ (forall partNumber,
          strconv.Atoi (fiber.Query ctx "partNumber") = strconv.Ok partNumber ->
          1 <= partNumber ->
          callsOf (PutActions api ctx) =
            [backend.CallPutObjectPart (fiber.Params ctx "bucket") key
               (fiber.Query ctx "uploadId") partNumber contentLength (fiber.Body ctx)]
          /\ headerOf (PutActions api ctx) "ETag" =
               Some (fst (backend.PutObjectPart (be api) (fiber.Params ctx "bucket") key
                            (fiber.Query ctx "uploadId") partNumber contentLength
                            (fiber.Body ctx))))
    /\ (~ (exists partNumber,
             strconv.Atoi (fiber.Query ctx "partNumber") = strconv.Ok partNumber
             /\ 1 <= partNumber) ->
        PutActions api ctx =
          SendResponse ctx start (Some (CatalogError (GetAPIError s3err.ErrInvalidPart)))
        /\ callsOf (PutActions api ctx) = []).
Proof.
  intros Hk Hd Hu Hp. destruct (delivered_lengthIs ctx Hd) as [contentLength Hl].
  exists contentLength. split; [exact Hl |]. now apply putPart_with_length.
Qed.

(** [strings.Split] gives at least one piece, and joining the pieces
    gives the string back. *)
Lemma Split_not_nil (s : string) (sep : ascii) : strings.Split s sep <> [].
Proof.
  destruct s as [| c s]; simpl; [discriminate |].
  destruct (Ascii.eqb c sep); [discriminate |].
  destruct (strings.Split s sep); discriminate.
Qed.

Lemma Join_Split (s : string) (sep : ascii) :
  strings.Join (strings.Split s sep) (String sep EmptyString) = s.
Proof.
  induction s as [| c s IH]; simpl; [reflexivity |].
  pose proof (Split_not_nil s sep) as Hne.
  destruct (Ascii.eqb c sep) eqn:E.
  - apply Ascii.eqb_eq in E. subst c.
    destruct (strings.Split s sep) as [| p ps]; [contradiction |].
    simpl in *. now rewrite IH.
  - destruct (strings.Split s sep) as [| p ps]; [contradiction |].
    destruct ps as [| q qs]; simpl in *; now rewrite <- IH.
Qed.

(** Taking the first piece and joining the others, as the handler does,
    is cutting at the first separator. *)
Lemma Split_cutFirst (s : string) (sep : ascii) :
  exists b rest,
    strings.Split s sep = b :: rest
    /\ cutFirst s sep = (b, strings.Join rest (String sep EmptyString)).
Proof.
  induction s as [| c s (b & rest & Hs & Hc)]; simpl.
  - now exists EmptyString, [].
  - destruct (Ascii.eqb c sep).
    + exists EmptyString, (strings.Split s sep). now rewrite Join_Split.
    + rewrite Hs, Hc. now exists (String c b), rest.
Qed.

(** What [cutFirst] does: the first half has no separator, and the two
    halves around one separator are the string (when it has one). *)
Lemma cutFirst_spec (s : string) (sep : ascii) :
  strings.ContainsByte (fst (cutFirst s sep)) sep = false
  /\ (if strings.ContainsByte s sep
      then s = fst (cutFirst s sep) ++ String sep (snd (cutFirst s sep))
      else cutFirst s sep = (s, EmptyString)).
Proof.
  induction s as [| c s [IH1 IH2]]; simpl; [now split |].
  destruct (Ascii.eqb c sep) eqn:E; simpl.
  - apply Ascii.eqb_eq in E. now subst c.
  - destruct (cutFirst s sep) as [a b]. simpl in *. rewrite E, IH1. split; [reflexivity |].
    destruct (strings.ContainsByte s sep); [now rewrite IH2 at 1 | now injection IH2 as -> ->].
Qed.

(** The copy branch of the ladder, for a Content-Length that is absent
    or parses. *)
Lemma copy_with_length (ctx : fiber.Request) (key : string) (contentLength : Z) :
  putKey ctx = Some key ->
  lengthIs ctx contentLength ->
  ~ (fiber.Query ctx "uploadId" <> EmptyString /\ fiber.Query ctx "partNumber" <> EmptyString) ->
  fiber.Get ctx "X-Amz-Acl" = EmptyString ->
  grantsOf ctx = EmptyString ->
  fiber.Get ctx "X-Amz-Copy-Source" <> EmptyString ->
  callsOf (PutActions api ctx) =
    [backend.CallCopyObject
       (fst (cutFirst (fiber.Get ctx "X-Amz-Copy-Source") "/"))
       (snd (cutFirst (fiber.Get ctx "X-Amz-Copy-Source") "/"))
       (fiber.Params ctx "bucket") key].
Proof.
  intros Hk Hl Hup Hacl Hgr Hcp. rewrite (PutActions_with_length ctx key contentLength Hk Hl).
  apply not_both_false in Hup. apply neq_empty_eqb in Hcp. unfold grantsOf in Hgr.
  cbv beta zeta delta [putLadder]. rewrite Hup, Hgr, Hacl, Hcp. simpl.
  destruct (Split_cutFirst (fiber.Get ctx "X-Amz-Copy-Source") "/") as (b & rest & Hs & Hc).
  rewrite Hs, Hc. simpl fst. simpl snd.
  destruct (backend.CopyObject (be api) b (strings.Join rest "/") (fiber.Params ctx "bucket") key)
    as [res err].
  now rewrite callsOf_SendXMLResponse.
Qed.

(** C7. On a PUT that fasthttp has read (its Content-Length header is
    absent or was parsed as a content length) with a copy source, outside
    the part-upload branch and without ACL or grant headers, [CopyObject]
    is the one backend operation, called with the copy source cut at its
    first slash, the bucket and the rebuilt key. *)
Theorem copy_source_dispatch (ctx : fiber.Request) (key : string) :
  putKey ctx = Some key ->
  fasthttp.deliveredLength (fiber.Get ctx "Content-Length") ->
  ~ (fiber.Query ctx "uploadId" <> EmptyString /\ fiber.Query ctx "partNumber" <> EmptyString) ->
  fiber.Get ctx "X-Amz-Acl" = EmptyString ->
  grantsOf ctx = EmptyString ->
  fiber.Get ctx "X-Amz-Copy-Source" <> EmptyString ->
  callsOf (PutActions api ctx) =
    [backend.CallCopyObject
       (fst (cutFirst (fiber.Get ctx "X-Amz-Copy-Source") "/"))
       (snd (cutFirst (fiber.Get ctx "X-Amz-Copy-Source") "/"))
       (fiber.Params ctx "bucket") key].
Proof.
  intros Hk Hd. destruct (delivered_lengthIs ctx Hd) as [contentLength Hl].
  now apply (copy_with_length ctx key contentLength).
Qed.


(** What [ParseInt] takes and what it refuses. *)
Example ParseInt_examples :
  strconv.ParseInt "9223372036854775807" = strconv.Ok strconv.maxInt64
  /\ strconv.ParseInt "9223372036854775808" = strconv.Err strconv.ErrRange
  /\ strconv.ParseInt "-9223372036854775808" = strconv.Ok strconv.minInt64
  /\ strconv.ParseInt "+3" = strconv.Ok 3
  /\ strconv.ParseInt "007" = strconv.Ok 7
  /\ strconv.ParseInt "1_0" = strconv.Err strconv.ErrSyntax
  /\ strconv.ParseInt " 3" = strconv.Err strconv.ErrSyntax
  /\ strconv.ParseInt "-" = strconv.Err strconv.ErrSyntax
  /\ strconv.ParseInt "" = strconv.Err strconv.ErrSyntax.
Proof. repeat split. Qed.

(** A parsed number is in the range of int64. *)
Lemma ParseInt_range (s : string) (v : Z) :
  strconv.ParseInt s = strconv.Ok v -> strconv.minInt64 <= v <= strconv.maxInt64.
Proof.
  unfold strconv.ParseInt. destruct s as [| c s]; [discriminate |].
  destruct (if (Ascii.eqb c "-" || Ascii.eqb c "+")%bool then s else String c s);
    [discriminate |].
  match goal with |- context [strconv.digits ?a ?b] => destruct (strconv.digits a b) end;
    [| discriminate].
  match goal with |- context [if ?b then strconv.Ok _ else _] => destruct b eqn:E end;
    [| discriminate].
  intro H. injection H as <-. apply andb_prop in E. lia.
Qed.

(** C9. In [PutActions] the Content-Length header is parsed before the
    ladder is entered.  A non-empty header that is not a base-10 int64 is
    answered with InvalidRequest and no backend operation, whatever else
    the request carries; a header that parses enters the ladder with its
    value; an absent header enters it with 0, which is then the length a
    plain [PutObject] is given. *)
Theorem content_length_parsed_first (ctx : fiber.Request) (key : string) :
  putKey ctx = Some key ->
  (forall e,
     fiber.Get ctx "Content-Length" <> EmptyString ->
     strconv.ParseInt (fiber.Get ctx "Content-Length") = strconv.Err e ->
     PutActions api ctx =
       SendResponse ctx start (Some (CatalogError (GetAPIError s3err.ErrInvalidRequest)))
     /\ callsOf (PutActions api ctx) = [])
  /\ (forall contentLength,
        strconv.ParseInt (fiber.Get ctx "Content-Length") = strconv.Ok contentLength ->
        PutActions api ctx = putLadder api ctx (fiber.Params ctx "bucket") key contentLength)
  /\ (fiber.Get ctx "Content-Length" = EmptyString ->
      PutActions api ctx = putLadder api ctx (fiber.Params ctx "bucket") key 0
      /\ (fiber.Query ctx "uploadId" = EmptyString ->
          fiber.Get ctx "X-Amz-Acl" = EmptyString ->
          grantsOf ctx = EmptyString ->
          fiber.Get ctx "X-Amz-Copy-Source" = EmptyString ->
          callsOf (PutActions api ctx) =
            [backend.CallPutObject
               {| s3.PutObjectInput.Bucket := fiber.Params ctx "bucket";
                  s3.PutObjectInput.Key := key;
                  s3.PutObjectInput.ContentLength := 0;
                  s3.PutObjectInput.Metadata := utils.GetUserMetaData (fiber.reqHeader ctx);
                  s3.PutObjectInput.Body := fiber.RequestBody ctx |}])).
Proof.
  intro Hk. split; [| split].
  - intros e Hne Hp. rewrite (PutActions_parses_length_first ctx key Hk).
    apply neq_empty_eqb in Hne. rewrite Hne, Hp. now split.
  - intros contentLength Hp. apply PutActions_with_length; [exact Hk |].
    now apply lengthParsed.
  - intro He.
    assert (PutActions api ctx = putLadder api ctx (fiber.Params ctx "bucket") key 0) as E.
    { apply PutActions_with_length; [exact Hk |]. now apply lengthAbsent. }
    split; [exact E |].
    intros Hu Hacl Hgr Hcp. rewrite E. unfold grantsOf in Hgr.
    cbv beta zeta delta [putLadder]. rewrite Hu, Hgr, Hacl, Hcp. simpl.
    match goal with |- context [backend.PutObject (be api) ?i] =>
      destruct (backend.PutObject (be api) i) as [etag err] end.
    now rewrite callsOf_SendResponse.
Qed.

(** *** An empty uploadId *)

Lemma putLadder_without_uploadId (ctx : fiber.Request) (bucket key : string)
  (contentLength : Z) :
  fiber.Query ctx "uploadId" = EmptyString ->
  forallb (fun c => negb (isPutObjectPart c)) (callsOf (putLadder api ctx bucket key contentLength))
    = true.
Proof.
  intro Hu. cbv beta zeta delta [putLadder]. rewrite Hu. simpl.
  repeat match goal with
         | |- context [if ?b then _ else _] => destruct b
         | |- context [match strings.Split ?a ?b with _ => _ end] =>
             destruct (strings.Split a b)
         | |- context [let '(_, _) := ?p in _] => destruct p
         end;
    rewrite ?callsOf_SendResponse, ?callsOf_SendXMLResponse; reflexivity.
Qed.

Lemma GetActions_without_uploadId (ctx : fiber.Request) :
  fiber.Query ctx "uploadId" = EmptyString ->
  callsOf (GetActions api ctx) =
    (if fiber.Has (fiber.queryArgs ctx) "acl" then
       [backend.CallGetObjectAcl (fiber.Params ctx "bucket") (objectKey ctx)]
     else if negb (String.eqb (fiber.Get ctx "X-Amz-Object-Attributes") EmptyString) then
       [backend.CallGetObjectAttributes (fiber.Params ctx "bucket") (objectKey ctx)
          (strings.Split (fiber.Get ctx "X-Amz-Object-Attributes") ",")]
     else
       [backend.CallGetObject (fiber.Params ctx "bucket") (objectKey ctx)
          (fiber.Get ctx "Range")]).
Proof.
  intro Hu. unfold objectKey. cbv beta zeta delta [GetActions]. rewrite Hu. simpl.
  destruct (fiber.Has (fiber.queryArgs ctx) "acl").
  - match goal with |- context [backend.GetObjectAcl (be api) ?b ?k] =>
      destruct (backend.GetObjectAcl (be api) b k) as [res err] end.
    now rewrite callsOf_SendXMLResponse.
  - destruct (negb (String.eqb (fiber.Get ctx "X-Amz-Object-Attributes") EmptyString)).
    + match goal with |- context [backend.GetObjectAttributes (be api) ?b ?k ?a] =>
        destruct (backend.GetObjectAttributes (be api) b k a) as [res err] end.
      now rewrite callsOf_SendXMLResponse.
    + match goal with |- context [backend.GetObject (be api) ?b ?k ?r] =>
        destruct (backend.GetObject (be api) b k r) as [[written res] err] end.
      destruct err as [[serr | msg] |]; [reflexivity | reflexivity |].
      now destruct res as [res |].
Qed.

Lemma HeadObject_calls (ctx : fiber.Request) :
  callsOf (HeadObject api ctx) =
    [backend.CallHeadObject (fiber.Params ctx "bucket") (objectKey ctx)].
Proof.
  unfold objectKey. cbv beta zeta delta [HeadObject].
  match goal with |- context [backend.HeadObject (be api) ?b ?k] =>
    destruct (backend.HeadObject (be api) b k) as [res err] end.
  destruct err as [[serr | msg] |]; [reflexivity | reflexivity |].
  now destruct res as [res |].
Qed.

Lemma DeleteActions_without_uploadId (ctx : fiber.Request) :
  fiber.Query ctx "uploadId" = EmptyString ->
  callsOf (DeleteActions api ctx) =
    [backend.CallDeleteObject (fiber.Params ctx "bucket") (objectKey ctx)].
Proof.
  intro Hu. unfold objectKey. cbv beta zeta delta [DeleteActions]. rewrite Hu. simpl.
  now rewrite callsOf_SendResponse.
Qed.

Lemma CreateActions_without_uploadId (ctx : fiber.Request) :
  fiber.Query ctx "uploadId" = EmptyString ->
  fiber.Has (fiber.queryArgs ctx) "restore" = false ->
  callsOf (CreateActions api ctx) =
    [backend.CallCreateMultipartUpload
       {| s3.CreateMultipartUploadInput.Bucket := fiber.Params ctx "bucket";
          s3.CreateMultipartUploadInput.Key := objectKey ctx |}].
Proof.
  intros Hu Hr. unfold objectKey. cbv beta zeta delta [CreateActions]. rewrite Hr, Hu. simpl.
  match goal with |- context [backend.CreateMultipartUpload (be api) ?i] =>
    destruct (backend.CreateMultipartUpload (be api) i) as [res err] end.
  now rewrite callsOf_SendXMLResponse.
Qed.

Lemma PutActions_without_uploadId (ctx : fiber.Request) :
  fiber.Query ctx "uploadId" = EmptyString ->
  forallb (fun c => negb (isPutObjectPart c)) (callsOf (PutActions api ctx)) = true.
Proof.
  intro Hu. cbv beta zeta delta [PutActions].
  destruct (withTrailingSlash _ _) as [key |]; [| reflexivity].
  destruct (negb (String.eqb (fiber.Get ctx "Content-Length") EmptyString)).
  - destruct (strconv.ParseInt (fiber.Get ctx "Content-Length")) as [cl | e].
    + now apply putLadder_without_uploadId.
    + reflexivity.
  - now apply putLadder_without_uploadId.
Qed.

(** C10. The handlers test the value of uploadId, so a request whose
    uploadId has the empty value, present or not, is dispatched as one
    without uploadId: GET goes on to the acl, attributes and GetObject rules
    (where acl is tested for presence, whatever its value), PUT never
    calls [PutObjectPart], DELETE calls [DeleteObject] and POST (without
    restore) calls [CreateMultipartUpload]. *)
Theorem empty_uploadId_is_absent (ctx : fiber.Request) :
  fiber.Query ctx "uploadId" = EmptyString ->
  callsOf (GetActions api ctx) =
    (if fiber.Has (fiber.queryArgs ctx) "acl" then
       [backend.CallGetObjectAcl (fiber.Params ctx "bucket") (objectKey ctx)]
     else if negb (String.eqb (fiber.Get ctx "X-Amz-Object-Attributes") EmptyString) then
       [backend.CallGetObjectAttributes (fiber.Params ctx "bucket") (objectKey ctx)
          (strings.Split (fiber.Get ctx "X-Amz-Object-Attributes") ",")]
     else
       [backend.CallGetObject (fiber.Params ctx "bucket") (objectKey ctx)
          (fiber.Get ctx "Range")])
  /\ forallb (fun c => negb (isPutObjectPart c)) (callsOf (PutActions api ctx)) = true
  /\ callsOf (DeleteActions api ctx) =
       [backend.CallDeleteObject (fiber.Params ctx "bucket") (objectKey ctx)]
  /\ (fiber.Has (fiber.queryArgs ctx) "restore" = false ->
      callsOf (CreateActions api ctx) =
        [backend.CallCreateMultipartUpload
           {| s3.CreateMultipartUploadInput.Bucket := fiber.Params ctx "bucket";
              s3.CreateMultipartUploadInput.Key := objectKey ctx |}]).
Proof.
  intro Hu. split; [| split; [| split]].
  - now apply GetActions_without_uploadId.
  - now apply PutActions_without_uploadId.
  - now apply DeleteActions_without_uploadId.
  - now apply CreateActions_without_uploadId.
Qed.

(** *** GET on an object with uploadId *)

(** The test the handler makes on a numeric query argument refuses
    exactly a non-empty value that is not a positive integer. *)
Lemma numeric_query_test (ctx : fiber.Request) (key : string) :
  (fiber.QueryInt ctx key 0 <? 0)
    || ((fiber.QueryInt ctx key 0 =? 0) && negb (String.eqb (fiber.Query ctx key) EmptyString))
  = negb (String.eqb (fiber.Query ctx key) EmptyString)
      && negb (positiveInt (fiber.Query ctx key)).
Proof.
  unfold fiber.QueryInt, positiveInt.
  destruct (fiber.Query ctx key) as [| c v] eqn:E; [reflexivity |].
  destruct (strconv.Atoi (String c v)) as [n | e]; simpl; [| reflexivity].
  rewrite andb_true_r.
  destruct (Z.ltb_spec n 0), (Z.eqb_spec n 0), (Z.ltb_spec 0 n); simpl; try reflexivity; lia.
Qed.

Lemma QueryInt_empty (ctx : fiber.Request) (key : string) (d : Z) :
  fiber.Query ctx key = EmptyString -> fiber.QueryInt ctx key d = d.
Proof. unfold fiber.QueryInt. now intros ->. Qed.

Lemma accepted_test (v : string) :
  v = EmptyString \/ positiveInt v = true ->
  negb (String.eqb v EmptyString) && negb (positiveInt v) = false.
Proof. intros [-> | ->]; [reflexivity | apply andb_false_r]. Qed.

Lemma refused_test (v : string) :
  v <> EmptyString -> positiveInt v = false ->
  negb (String.eqb v EmptyString) && negb (positiveInt v) = true.
Proof. intros Hne ->. apply neq_empty_eqb in Hne. now rewrite Hne. Qed.

(** [GetActions] on a request with a non-empty uploadId. *)
Lemma GetActions_with_uploadId (ctx : fiber.Request) :
  fiber.Query ctx "uploadId" <> EmptyString ->
  GetActions api ctx =
    if negb (String.eqb (fiber.Query ctx "max-parts") EmptyString)
       && negb (positiveInt (fiber.Query ctx "max-parts"))
    then SendResponse ctx start
           (Some (CatalogError (GetAPIError s3err.ErrInvalidMaxParts)))
    else if negb (String.eqb (fiber.Query ctx "part-number-marker") EmptyString)
            && negb (positiveInt (fiber.Query ctx "part-number-marker"))
    then SendResponse ctx start
           (Some (CatalogError (GetAPIError s3err.ErrInvalidPartNumberMarker)))
    else
      let '(res, err) :=
        backend.ListObjectParts (be api) (fiber.Params ctx "bucket") (objectKey ctx)
          (fiber.Query ctx "uploadId")
          (fiber.QueryInt ctx "part-number-marker" 0)
          (fiber.QueryInt ctx "max-parts" 0) in
      SendXMLResponse ctx
        (invoked (backend.CallListObjectParts (fiber.Params ctx "bucket")
                    (objectKey ctx) (fiber.Query ctx "uploadId")
                    (fiber.QueryInt ctx "part-number-marker" 0)
                    (fiber.QueryInt ctx "max-parts" 0)) start)
        res err.
Proof.
  intro Hu. apply neq_empty_eqb in Hu.
  cbv beta zeta delta [GetActions]. rewrite Hu. simpl negb. cbv iota.
  now rewrite !numeric_query_test.
Qed.

(** C5, as the code has it.  On a GET with a non-empty uploadId the two
    numeric arguments are checked in order.  A max-parts with a non-empty
    value that is not a positive integer is answered with
    InvalidMaxParts; otherwise a part-number-marker with a non-empty
    value that is not a positive integer is answered with
    InvalidPartNumberMarker; in both cases without backend operation.
    Otherwise [ListObjectParts] is the one backend operation, with the
    values of the two arguments, an absent or empty one counting 0. *)
Theorem list_parts_arguments (ctx : fiber.Request) :
  fiber.Query ctx "uploadId" <> EmptyString ->
  (fiber.Query ctx "max-parts" <> EmptyString ->
   positiveInt (fiber.Query ctx "max-parts") = false ->
   GetActions api ctx =
     SendResponse ctx start (Some (CatalogError (GetAPIError s3err.ErrInvalidMaxParts)))
   /\ callsOf (GetActions api ctx) = [])
  /\ (fiber.Query ctx "max-parts" = EmptyString
        \/ positiveInt (fiber.Query ctx "max-parts") = true ->
      fiber.Query ctx "part-number-marker" <> EmptyString ->
      positiveInt (fiber.Query ctx "part-number-marker") = false ->
      GetActions api ctx =
        SendResponse ctx start
          (Some (CatalogError (GetAPIError s3err.ErrInvalidPartNumberMarker)))
      /\ callsOf (GetActions api ctx) = [])
  /\ (fiber.Query ctx "max-parts" = EmptyString
        \/ positiveInt (fiber.Query ctx "max-parts") = true ->
      fiber.Query ctx "part-number-marker" = EmptyString
        \/ positiveInt (fiber.Query ctx "part-number-marker") = true ->
      callsOf (GetActions api ctx) =
        [backend.CallListObjectParts (fiber.Params ctx "bucket") (objectKey ctx)
           (fiber.Query ctx "uploadId")
           (fiber.QueryInt ctx "part-number-marker" 0)
           (fiber.QueryInt ctx "max-parts" 0)])
  /\ (fiber.Query ctx "max-parts" = EmptyString -> fiber.QueryInt ctx "max-parts" 0 = 0)
  /\ (fiber.Query ctx "part-number-marker" = EmptyString ->
      fiber.QueryInt ctx "part-number-marker" 0 = 0).
Proof.
  intro Hu. pose proof (GetActions_with_uploadId ctx Hu) as E.
  split; [| split; [| split; [| split]]].
  - intros Hne Hnp. rewrite E, (refused_test _ Hne Hnp). now split.
  - intros Hmp Hne Hnp. rewrite E, (accepted_test _ Hmp), (refused_test _ Hne Hnp). now split.
  - intros Hmp Hpm. rewrite E, (accepted_test _ Hmp), (accepted_test _ Hpm).
    destruct (backend.ListObjectParts (be api) _ _ _ _ _) as [res err].
    now rewrite callsOf_SendXMLResponse.
  - apply QueryInt_empty.
  - apply QueryInt_empty.
Qed.

(** *** Request bodies that do not parse *)

(** C4, as the code has it.  When the body of a DeleteObjects request, of
    a POST with restore, or of a POST with a non-empty uploadId (and
    without restore) does not parse, the handler returns the error
    "wrong api call" to the router; it writes no response of its own, no
    catalog error is rendered, and no backend operation is invoked. *)
Theorem unparsable_body_refused (ctx : fiber.Request) :
  (xmlUnmarshalDelete (fiber.Body ctx) = None ->
   DeleteObjects api ctx = Return start (Some (OtherError "wrong api call")))
  /\ (fiber.Has (fiber.queryArgs ctx) "restore" = true ->
      xmlUnmarshalRestore (fiber.Body ctx) = None ->
      CreateActions api ctx = Return start (Some (OtherError "wrong api call")))
  /\ (fiber.Has (fiber.queryArgs ctx) "restore" = false ->
      fiber.Query ctx "uploadId" <> EmptyString ->
      xmlUnmarshalParts (fiber.Body ctx) = None ->
      CreateActions api ctx = Return start (Some (OtherError "wrong api call")))
  /\ callsOf (Return start (Some (OtherError "wrong api call"))) = []
  /\ responseOf (Return start (Some (OtherError "wrong api call"))) = Some fiber.fresh.
Proof.
  repeat split.
  - intro H. unfold DeleteObjects. now rewrite H.
  - intros Hr H. cbv beta zeta delta [CreateActions]. now rewrite Hr, H.
  - intros Hr Hu H. apply neq_empty_eqb in Hu.
    cbv beta zeta delta [CreateActions]. now rewrite Hr, Hu, H.
Qed.


(** *** The key of an object request *)

(** C6. GET, HEAD, DELETE and POST rebuild the key from the route
    parameters alone.  On the path /b1/dir/ the route gives the key
    parameter dir and an empty tail, and each of the four handlers passes
    the key dir, without the slash of the path, to the backend;
    [PutActions] passes dir/ there. *)
Theorem trailing_slash_dropped :
  strings.lastByte (fiber.Path sample.getDir) = Some "/"
  /\ callsOf (GetActions api sample.getDir) = [backend.CallGetObject "b1" "dir" ""]
  /\ callsOf (HeadObject api sample.getDir) = [backend.CallHeadObject "b1" "dir"]
  /\ callsOf (DeleteActions api sample.getDir) = [backend.CallDeleteObject "b1" "dir"]
  /\ callsOf (CreateActions api sample.getDir) =
       [backend.CallCreateMultipartUpload
          {| s3.CreateMultipartUploadInput.Bucket := "b1";
             s3.CreateMultipartUploadInput.Key := "dir" |}]
  /\ putKey sample.getDir = Some "dir/".
Proof.
  split; [reflexivity |].
  rewrite GetActions_without_uploadId, HeadObject_calls, DeleteActions_without_uploadId,
    CreateActions_without_uploadId by reflexivity.
  repeat split.
Qed.

(** *** The Last-Modified header *)

(** The controllers' layout, read chunk by chunk: weekday, day, month,
    year and clock of the value, and the letters GMT as they stand. *)
Lemma Format_timefmt (t : time.Time) :
  time.Format t timefmt =
    substring 0 3 (time.WeekdayString (time.WDay t)) ++ ", "
      ++ time.appendInt (time.Day t) 2 ++ " "
      ++ substring 0 3 (time.MonthString (time.Mon t)) ++ " "
      ++ time.appendInt (time.Year t) 4 ++ " "
      ++ time.appendInt (time.Hour t) 2 ++ ":"
      ++ time.appendInt (time.Minute t) 2 ++ ":"
      ++ time.appendInt (time.Second t) 2 ++ " GMT".
Proof. reflexivity. Qed.

Lemma headerOf_objectHeaders (w : fiber.Response) (contentLength : Z)
  (contentType contentEncoding etag : option string) (lastmod : string) :
  fiber.lookupHeader
    (fiber.Header
       (utils.SetResponseHeaders
          (objectHeaders contentLength contentType contentEncoding etag lastmod) w))
    "Last-Modified" = Some lastmod.
Proof. simpl. now apply lookupHeader_setArg. Qed.

Lemma Header_SendStatus (code : Z) (w : fiber.Response) :
  fiber.Header (fiber.SendStatus code w) = fiber.Header w.
Proof. unfold fiber.SendStatus. now destruct (String.eqb _ _). Qed.

(** C8, as the code has it.  On a successful GetObject or HeadObject the
    response carries a Last-Modified header.  With a timestamp from the
    backend that is in UTC, its value is that timestamp in the layout
    "Mon, 02 Jan 2006 15:04:05 GMT", which is the RFC 1123 date in GMT;
    without a timestamp (nil) the header is there all the same, with the
    empty string as value. *)
Theorem last_modified_header (ctx : fiber.Request) :
  (forall written res,
     fiber.Query ctx "uploadId" = EmptyString ->
     fiber.Has (fiber.queryArgs ctx) "acl" = false ->
     fiber.Get ctx "X-Amz-Object-Attributes" = EmptyString ->
     backend.GetObject (be api) (fiber.Params ctx "bucket") (objectKey ctx) (fiber.Get ctx "Range")
       = (written, Some res, None) ->
     (forall t,
        s3.GetObjectOutput.LastModified res = Some t ->
        time.Offset t = 0 ->
        headerOf (GetActions api ctx) "Last-Modified" =
          Some (time.Format t "Mon, 02 Jan 2006 15:04:05 GMT"))
     /\ (s3.GetObjectOutput.LastModified res = None ->
         headerOf (GetActions api ctx) "Last-Modified" = Some EmptyString))
  /\ (forall res,
        backend.HeadObject (be api) (fiber.Params ctx "bucket") (objectKey ctx)
          = (Some res, None) ->
        (forall t,
           s3.HeadObjectOutput.LastModified res = Some t ->
           time.Offset t = 0 ->
           headerOf (HeadObject api ctx) "Last-Modified" =
             Some (time.Format t "Mon, 02 Jan 2006 15:04:05 GMT"))
        /\ (s3.HeadObjectOutput.LastModified res = None ->
            headerOf (HeadObject api ctx) "Last-Modified" = Some EmptyString)).
Proof.
  unfold objectKey. split.
  - intros written res Hu Hacl Hattr Hbe.
    assert (headerOf (GetActions api ctx) "Last-Modified" =
              Some match s3.GetObjectOutput.LastModified res with
                   | Some t => time.Format t timefmt
                   | None => EmptyString
                   end) as E.
    { cbv beta zeta delta [GetActions]. rewrite Hu, Hacl, Hattr, Hbe.
      cbv beta iota delta [headerOf respond response negb String.eqb].
      rewrite Header_SendStatus. apply headerOf_objectHeaders. }
    rewrite E. split; [intros t -> _ | intros ->]; reflexivity.
  - intros res Hbe.
    assert (headerOf (HeadObject api ctx) "Last-Modified" =
              Some match s3.HeadObjectOutput.LastModified res with
                   | Some t => time.Format t timefmt
                   | None => EmptyString
                   end) as E.
    { cbv beta zeta delta [HeadObject]. rewrite Hbe. cbv beta iota.
      rewrite headerOf_SendResponse. apply headerOf_objectHeaders. }
    rewrite E. split; [intros t -> _ | intros ->]; reflexivity.
Qed.

(** ** Further properties of the handlers *)

(** Case analysis on the tests and results a handler branches on. *)
Ltac branches :=
  repeat match goal with
         | |- context [if ?b then _ else _] => destruct b
         | |- context [let '(_, _) := ?p in _] => destruct p
         | |- context [match ?x with _ => _ end] => destruct x
         end.

Lemma returned_SendResponse (req : fiber.Request) (s : State) (err : option error) :
  dispatch.returned (SendResponse req s err) = None.
Proof. now destruct err as [[serr | msg] |]. Qed.

Lemma SendResponse_returns (req : fiber.Request) (s : State) (err : option error) :
  SendResponse req s err <> Panic.
Proof. now destruct err as [[serr | msg] |]. Qed.

Lemma SendXMLResponse_returns (req : fiber.Request) (s : State) (resp : option Doc)
  (err : option error) :
  SendXMLResponse req s resp err <> Panic.
Proof.
  destruct err as [[serr | msg] |]; try discriminate.
  destruct resp as [v |]; simpl; [| discriminate].
  now destruct (xmlMarshal v).
Qed.

(** X1. Whatever the request and the backend, each of the seven handlers
    invokes at most one backend operation. *)
Theorem at_most_one_backend_call (handler : fiber.Request -> Outcome) (ctx : fiber.Request) :
  In handler (dispatch.handlers api) ->
  (length (callsOf (handler ctx)) <= 1)%nat.
Proof.
  unfold dispatch.handlers. simpl.
  intros [<- | [<- | [<- | [<- | [<- | [<- | [<- | []]]]]]]].
  - cbv beta zeta delta [GetActions]. branches;
      rewrite ?callsOf_SendResponse, ?callsOf_SendXMLResponse; simpl; lia.
  - cbv beta zeta delta [PutBucketActions]. branches;
      rewrite ?callsOf_SendResponse, ?callsOf_SendXMLResponse; simpl; lia.
  - cbv beta zeta delta [PutActions putLadder]. branches;
      rewrite ?callsOf_SendResponse, ?callsOf_SendXMLResponse; simpl; lia.
  - cbv beta zeta delta [DeleteObjects]. branches;
      rewrite ?callsOf_SendResponse, ?callsOf_SendXMLResponse; simpl; lia.
  - cbv beta zeta delta [DeleteActions]. branches;
      rewrite ?callsOf_SendResponse, ?callsOf_SendXMLResponse; simpl; lia.
  - cbv beta zeta delta [HeadObject]. branches;
      rewrite ?callsOf_SendResponse, ?callsOf_SendXMLResponse; simpl; lia.
  - cbv beta zeta delta [CreateActions]. branches;
      rewrite ?callsOf_SendResponse, ?callsOf_SendXMLResponse; simpl; lia.
Qed.

(** Case analysis that keeps what the backend returned. *)
Ltac branchesEq :=
  repeat match goal with
         | |- context [match ?x with _ => _ end] => is_var x; destruct x
         | |- context [if ?b then _ else _] => destruct b eqn:?
         | |- context [let '(_, _) := ?p in _] => destruct p eqn:?
         | |- context [match ?x with _ => _ end] => destruct x eqn:?
         end.

Lemma returned_SendXMLResponse_result (req : fiber.Request) (s : State) (resp : option Doc)
  (err : option error) (e : error) :
  dispatch.returned (SendXMLResponse req s resp err) = Some e ->
  exists v, resp = Some v /\ err = None /\ xmlMarshal v = inr e.
Proof.
  destruct err as [[serr | msg] |]; simpl; try discriminate.
  destruct resp as [v |]; simpl; [| discriminate].
  destruct (xmlMarshal v) as [b | e'] eqn:E; simpl.
  - discriminate.
  - intro H. injection H as <-. now exists v.
Qed.

(** With an error, the two response writers do the same. *)
Lemma SendXMLResponse_error (req : fiber.Request) (s : State) (resp : option Doc)
  (e : error) :
  SendXMLResponse req s resp (Some e) = SendResponse req s (Some e).
Proof. now destruct e. Qed.

(** A leaf of a handler that returns an error to the router. *)
Ltac returnedLeaf :=
  rewrite ?returned_SendResponse; simpl dispatch.returned;
  first
    [ discriminate
    | let H := fresh "H" in
      intro H; injection H as <-; left; split; reflexivity
    | let H := fresh "H" in
      let v := fresh "v" in
      let Hv := fresh "Hv" in
      intro H; apply returned_SendXMLResponse_result in H;
      destruct H as (v & -> & -> & Hv); right;
      eexists _, v; rewrite callsOf_SendXMLResponse;
      split; [reflexivity | split; [simpl; eassumption | exact Hv]] ].

(** A leaf of a handler that has invoked [op], whose backend error is
    [e]. *)
Ltac answeredLeaf Hop Herr :=
  rewrite ?callsOf_SendResponse, ?callsOf_SendXMLResponse in Hop; simpl in Hop;
  first
    [ contradiction
    | destruct Hop as [<- | []]; simpl in Herr;
      repeat match goal with
             | E : _ = (_, _) |- _ => rewrite E in Herr; clear E
             end;
      simpl in Herr;
      first
        [ discriminate
        | try (injection Herr as ->); try (rewrite Herr); try subst;
          rewrite ?SendXMLResponse_error;
          split; [apply returned_SendResponse |];
          eexists; split; [| reflexivity]; reflexivity ] ].

(** X2. A handler returns a Go error to the router in two cases only:
    the error "wrong api call", before any backend operation, and the
    error of [xml.Marshal] on the result that the one backend operation
    it invoked has returned without error.  An error of the backend is
    never returned: the handler answers it with [SendResponse] (to which
    [SendXMLResponse] with an error is equal) and returns nil. *)
Theorem returned_errors (handler : fiber.Request -> Outcome) (ctx : fiber.Request) :
  In handler (dispatch.handlers api) ->
  (forall e,
     dispatch.returned (handler ctx) = Some e ->
     (e = OtherError "wrong api call" /\ callsOf (handler ctx) = [])
     \/ (exists op v,
           callsOf (handler ctx) = [op]
           /\ dispatch.reply api op = (Some v, None)
           /\ xmlMarshal v = inr e))
  /\ (forall op e,
        In op (callsOf (handler ctx)) ->
        snd (dispatch.reply api op) = Some e ->
        dispatch.returned (handler ctx) = None
        /\ exists s, calls s = [op] /\ handler ctx = SendResponse ctx s (Some e)).
Proof.
  unfold dispatch.handlers. simpl.
  intros [<- | [<- | [<- | [<- | [<- | [<- | [<- | []]]]]]]].
  - split.
    + intro e. cbv beta zeta delta [GetActions]. branchesEq; returnedLeaf.
    + intros op e. cbv beta zeta delta [GetActions].
      branchesEq; intros Hop Herr; answeredLeaf Hop Herr.
  - split.
    + intro e. cbv beta zeta delta [PutBucketActions]. branchesEq; returnedLeaf.
    + intros op e. cbv beta zeta delta [PutBucketActions].
      branchesEq; intros Hop Herr; answeredLeaf Hop Herr.
  - split.
    + intro e. cbv beta zeta delta [PutActions putLadder]. branchesEq; returnedLeaf.
    + intros op e. cbv beta zeta delta [PutActions putLadder].
      branchesEq; intros Hop Herr; answeredLeaf Hop Herr.
  - split.
    + intro e. cbv beta zeta delta [DeleteObjects]. branchesEq; returnedLeaf.
    + intros op e. cbv beta zeta delta [DeleteObjects].
      branchesEq; intros Hop Herr; answeredLeaf Hop Herr.
  - split.
    + intro e. cbv beta zeta delta [DeleteActions]. branchesEq; returnedLeaf.
    + intros op e. cbv beta zeta delta [DeleteActions].
      branchesEq; intros Hop Herr; answeredLeaf Hop Herr.
  - split.
    + intro e. cbv beta zeta delta [HeadObject]. branchesEq; returnedLeaf.
    + intros op e. cbv beta zeta delta [HeadObject].
      branchesEq; intros Hop Herr; answeredLeaf Hop Herr.
  - split.
    + intro e. cbv beta zeta delta [CreateActions]. branchesEq; returnedLeaf.
    + intros op e. cbv beta zeta delta [CreateActions].
      branchesEq; intros Hop Herr; answeredLeaf Hop Herr.
Qed.

Lemma joinKey_empty (key keyEnd : string) :
  joinKey key keyEnd = EmptyString <-> key = EmptyString /\ keyEnd = EmptyString.
Proof.
  unfold joinKey. split.
  - destruct keyEnd as [| ch rest]; simpl; [now split |].
    intro H. apply append_empty in H. destruct H as [_ H]. discriminate.
  - now intros [-> ->].
Qed.

Lemma lastByte_empty (s : string) : strings.lastByte s = None <-> s = EmptyString.
Proof. split; [apply lastByte_None | now intros ->]. Qed.

(** X3. [PutActions] panics on exactly two kinds of request: an empty
    path, and a path that ends with a slash while both the key parameter
    and the wildcard tail are empty. *)
Theorem PutActions_panics_iff (ctx : fiber.Request) :
  PutActions api ctx = Panic <->
  fiber.Path ctx = EmptyString
  \/ (strings.lastByte (fiber.Path ctx) = Some "/"
      /\ fiber.Params ctx "key" = EmptyString /\ fiber.Params ctx "*1" = EmptyString).
Proof.
  assert (forall bucket key contentLength,
            putLadder api ctx bucket key contentLength <> Panic) as Hladder.
  { intros bucket key contentLength. cbv beta zeta delta [putLadder].
    pose proof (Split_not_nil (fiber.Get ctx "X-Amz-Copy-Source") "/") as Hne.
    branches; try discriminate;
      try apply SendResponse_returns; try apply SendXMLResponse_returns.
    contradiction. }
  assert (PutActions api ctx = Panic <-> putKey ctx = None) as E.
  { unfold putKey. cbv beta zeta delta [PutActions].
    destruct (withTrailingSlash _ _) as [key |]; [| tauto].
    split; [| discriminate]. intro H. exfalso. revert H.
    branches; try apply Hladder. apply SendResponse_returns. }
  rewrite E. unfold putKey, withTrailingSlash.
  destruct (strings.lastByte (fiber.Path ctx)) as [pl |] eqn:Ep.
  - assert (fiber.Path ctx <> EmptyString) as Hp.
    { intro H. apply lastByte_empty in H. congruence. }
    destruct (String.eqb pl "/") eqn:Es.
    + apply String.eqb_eq in Es. subst pl.
      destruct (strings.lastByte (joinKey _ _)) as [kl |] eqn:Ek.
      * assert (joinKey (fiber.Params ctx "key") (fiber.Params ctx "*1") <> EmptyString) as Hk.
        { intro H. apply lastByte_empty in H. congruence. }
        rewrite joinKey_empty in Hk.
        split; [now destruct (negb _) | intros [H | (_ & H1 & H2)]; [contradiction | tauto]].
      * apply lastByte_empty, joinKey_empty in Ek. tauto.
    + apply String.eqb_neq in Es. split; [discriminate |].
      intros [H | (H & _)]; [contradiction | congruence].
  - apply lastByte_empty in Ep. tauto.
Qed.

(** *** The remaining branches of the PUT handlers *)

(** X5. A PUT on an object that is no part upload, carries neither ACL
    nor grants nor a copy source and whose Content-Length is absent or
    parses, calls [PutObject] with the bucket, the rebuilt key, that
    length, the user metadata of the request headers and the body as it
    was sent.  The
    etag the backend returns is the ETag header of the response whether
    or not the backend also returns an error; without error the response
    has status 200 and no body. *)
Theorem plain_put_dispatch (ctx : fiber.Request) (key : string) (contentLength : Z) :
  putKey ctx = Some key ->
  lengthIs ctx contentLength ->
  ~ (fiber.Query ctx "uploadId" <> EmptyString /\ fiber.Query ctx "partNumber" <> EmptyString) ->
  fiber.Get ctx "X-Amz-Acl" = EmptyString ->
  grantsOf ctx = EmptyString ->
  fiber.Get ctx "X-Amz-Copy-Source" = EmptyString ->
  let input :=
    {| s3.PutObjectInput.Bucket := fiber.Params ctx "bucket";
       s3.PutObjectInput.Key := key;
       s3.PutObjectInput.ContentLength := contentLength;
       s3.PutObjectInput.Metadata := utils.GetUserMetaData (fiber.reqHeader ctx);
       s3.PutObjectInput.Body := fiber.RequestBody ctx |} in
  callsOf (PutActions api ctx) = [backend.CallPutObject input]
  /\ headerOf (PutActions api ctx) "ETag" = Some (fst (backend.PutObject (be api) input))
  /\ (snd (backend.PutObject (be api) input) = None ->
      dispatch.statusOf (PutActions api ctx) = Some 200
      /\ dispatch.bodyOf (PutActions api ctx) = Some EmptyString).
Proof.
  intros Hk Hl Hup Hacl Hgr Hcp input.
  rewrite (PutActions_with_length ctx key contentLength Hk Hl).
  apply not_both_false in Hup. unfold grantsOf in Hgr.
  cbv beta zeta delta [putLadder]. rewrite Hup, Hgr, Hacl, Hcp. simpl.
  fold input. destruct (backend.PutObject (be api) input) as [etag err].
  rewrite callsOf_SendResponse, headerOf_SendResponse. simpl.
  split; [reflexivity | split; [reflexivity |]]. now intros ->.
Qed.

(** X6. A PUT on an object, outside the part-upload branch, that carries
    a canned ACL or grants but not both calls [PutObjectAcl] with the
    bucket, the rebuilt key and the six header values, also when the
    request names a copy source: the ACL rule comes before the copy
    rule. *)
Theorem object_acl_dispatch (ctx : fiber.Request) (key : string) (contentLength : Z) :
  putKey ctx = Some key ->
  lengthIs ctx contentLength ->
  ~ (fiber.Query ctx "uploadId" <> EmptyString /\ fiber.Query ctx "partNumber" <> EmptyString) ->
  (fiber.Get ctx "X-Amz-Acl" <> EmptyString /\ grantsOf ctx = EmptyString)
  \/ (fiber.Get ctx "X-Amz-Acl" = EmptyString /\ grantsOf ctx <> EmptyString) ->
  callsOf (PutActions api ctx) =
    [backend.CallPutObjectAcl
       {| s3.PutObjectAclInput.Bucket := fiber.Params ctx "bucket";
          s3.PutObjectAclInput.Key := key;
          s3.PutObjectAclInput.ACL := fiber.Get ctx "X-Amz-Acl";
          s3.PutObjectAclInput.GrantFullControl := fiber.Get ctx "X-Amz-Grant-Full-Control";
          s3.PutObjectAclInput.GrantRead := fiber.Get ctx "X-Amz-Grant-Read";
          s3.PutObjectAclInput.GrantReadACP := fiber.Get ctx "X-Amz-Grant-Read-Acp";
          s3.PutObjectAclInput.GrantWrite := fiber.Get ctx "X-Amz-Grant-Write";
          s3.PutObjectAclInput.GrantWriteACP := fiber.Get ctx "X-Amz-Grant-Write-Acp" |}].
Proof.
  intros Hk Hl Hup Hone.
  rewrite (PutActions_with_length ctx key contentLength Hk Hl).
  apply not_both_false in Hup. unfold grantsOf in Hone.
  cbv beta zeta delta [putLadder]. rewrite Hup.
  destruct Hone as [[Hacl Hgr] | [Hacl Hgr]].
  - apply neq_empty_eqb in Hacl. rewrite Hgr, Hacl. simpl.
    now rewrite callsOf_SendResponse.
  - apply neq_empty_eqb in Hgr. rewrite Hgr, Hacl. simpl.
    now rewrite callsOf_SendResponse.
Qed.

(** X7. PUT on a bucket, with the authenticated principal in place:
    without ACL and grant headers [PutBucket] is called with the bucket
    and the principal as owner; with a canned ACL or grants, but not
    both, [PutBucketAcl] is called with the header values and the
    principal as owner. *)
Theorem bucket_put_dispatch (ctx : fiber.Request) (owner : string) :
  fiber.Locals ctx "access" = fiber.Str owner ->
  (fiber.Get ctx "X-Amz-Acl" = EmptyString -> grantsOf ctx = EmptyString ->
   callsOf (PutBucketActions api ctx) =
     [backend.CallPutBucket (fiber.Params ctx "bucket") owner])
  /\ ((fiber.Get ctx "X-Amz-Acl" <> EmptyString /\ grantsOf ctx = EmptyString)
      \/ (fiber.Get ctx "X-Amz-Acl" = EmptyString /\ grantsOf ctx <> EmptyString) ->
      callsOf (PutBucketActions api ctx) =
        [backend.CallPutBucketAcl
           {| s3.PutBucketAclInput.Bucket := fiber.Params ctx "bucket";
              s3.PutBucketAclInput.ACL := fiber.Get ctx "X-Amz-Acl";
              s3.PutBucketAclInput.GrantFullControl :=
                fiber.Get ctx "X-Amz-Grant-Full-Control";
              s3.PutBucketAclInput.GrantRead := fiber.Get ctx "X-Amz-Grant-Read";
              s3.PutBucketAclInput.GrantReadACP := fiber.Get ctx "X-Amz-Grant-Read-Acp";
              s3.PutBucketAclInput.GrantWrite := fiber.Get ctx "X-Amz-Grant-Write";
              s3.PutBucketAclInput.GrantWriteACP := fiber.Get ctx "X-Amz-Grant-Write-Acp";
              s3.PutBucketAclInput.OwnerID := owner |}]).
Proof.
  intro Hown. unfold grantsOf. split.
  - intros Hacl Hgr. cbv beta zeta delta [PutBucketActions].
    rewrite Hown, Hgr, Hacl. simpl. now rewrite callsOf_SendResponse.
  - intros [[Hacl Hgr] | [Hacl Hgr]]; cbv beta zeta delta [PutBucketActions]; rewrite Hown.
    + apply neq_empty_eqb in Hacl. rewrite Hgr, Hacl. simpl.
      now rewrite callsOf_SendResponse.
    + apply neq_empty_eqb in Hgr. rewrite Hgr, Hacl. simpl.
      now rewrite callsOf_SendResponse.
Qed.

(** *** DELETE and POST *)

(** X8. DELETE on an object with a non-empty uploadId calls
    [AbortMultipartUpload] with the upload id, the bucket, the key
    rebuilt from the route parameters and the values of the
    X-Amz-Expected-Bucket-Owner and X-Amz-Request-Payer headers (empty
    when absent); when the backend returns no error the response has
    status 200 and no body. *)
Theorem abort_upload_dispatch (ctx : fiber.Request) :
  fiber.Query ctx "uploadId" <> EmptyString ->
  let input :=
    {| s3.AbortMultipartUploadInput.UploadId := fiber.Query ctx "uploadId";
       s3.AbortMultipartUploadInput.Bucket := fiber.Params ctx "bucket";
       s3.AbortMultipartUploadInput.Key := objectKey ctx;
       s3.AbortMultipartUploadInput.ExpectedBucketOwner :=
         fiber.Get ctx "X-Amz-Expected-Bucket-Owner";
       s3.AbortMultipartUploadInput.RequestPayer := fiber.Get ctx "X-Amz-Request-Payer" |} in
  callsOf (DeleteActions api ctx) = [backend.CallAbortMultipartUpload input]
  /\ (backend.AbortMultipartUpload (be api) input = None ->
      dispatch.statusOf (DeleteActions api ctx) = Some 200
      /\ dispatch.bodyOf (DeleteActions api ctx) = Some EmptyString).
Proof.
  intros Hu input. apply neq_empty_eqb in Hu. unfold objectKey in input.
  cbv beta zeta delta [DeleteActions]. rewrite Hu. simpl. fold input.
  rewrite callsOf_SendResponse. split; [reflexivity |]. now intros ->.
Qed.

(** X9. A request body that parses is handed to the backend: by
    DeleteObjects to [DeleteObjects] with the bucket; by POST with a
    restore argument to [RestoreObject], whatever uploadId is; by POST
    without restore and with a non-empty uploadId to
    [CompleteMultipartUpload] with the upload id and the parsed parts. *)
Theorem parsed_body_forwarded (ctx : fiber.Request) :
  (forall dObj, xmlUnmarshalDelete (fiber.Body ctx) = Some dObj ->
     callsOf (DeleteObjects api ctx) =
       [backend.CallDeleteObjects (fiber.Params ctx "bucket") dObj])
  /\ (forall restoreRequest,
        fiber.Has (fiber.queryArgs ctx) "restore" = true ->
        xmlUnmarshalRestore (fiber.Body ctx) = Some restoreRequest ->
        callsOf (CreateActions api ctx) =
          [backend.CallRestoreObject (fiber.Params ctx "bucket") (objectKey ctx)
             restoreRequest])
  /\ (forall parts,
        fiber.Has (fiber.queryArgs ctx) "restore" = false ->
        fiber.Query ctx "uploadId" <> EmptyString ->
        xmlUnmarshalParts (fiber.Body ctx) = Some parts ->
        callsOf (CreateActions api ctx) =
          [backend.CallCompleteMultipartUpload (fiber.Params ctx "bucket") (objectKey ctx)
             (fiber.Query ctx "uploadId") parts]).
Proof.
  unfold objectKey. repeat split.
  - intros dObj H. unfold DeleteObjects. rewrite H. now rewrite callsOf_SendResponse.
  - intros restoreRequest Hr H. cbv beta zeta delta [CreateActions]. rewrite Hr, H.
    now rewrite callsOf_SendResponse.
  - intros parts Hr Hu H. apply neq_empty_eqb in Hu.
    cbv beta zeta delta [CreateActions]. rewrite Hr, Hu, H. simpl.
    match goal with |- context [backend.CompleteMultipartUpload ?b ?x ?y ?z ?w] =>
      destruct (backend.CompleteMultipartUpload b x y z w) as [res err] end.
    now rewrite callsOf_SendXMLResponse.
Qed.

(** *** The copy source and the attribute list *)

(** The copy rule in the terms of the code: the first piece of the
    split, and the other pieces joined again. *)
Lemma PutActions_copy_calls (ctx : fiber.Request) (key : string) (contentLength : Z) :
  putKey ctx = Some key ->
  lengthIs ctx contentLength ->
  ~ (fiber.Query ctx "uploadId" <> EmptyString /\ fiber.Query ctx "partNumber" <> EmptyString) ->
  fiber.Get ctx "X-Amz-Acl" = EmptyString ->
  grantsOf ctx = EmptyString ->
  fiber.Get ctx "X-Amz-Copy-Source" <> EmptyString ->
  callsOf (PutActions api ctx) =
    match strings.Split (fiber.Get ctx "X-Amz-Copy-Source") "/" with
    | [] => []
    | srcBucket :: srcObject =>
        [backend.CallCopyObject srcBucket (strings.Join srcObject "/")
           (fiber.Params ctx "bucket") key]
    end.
Proof.
  intros Hk Hl Hup Hacl Hgr Hcp. rewrite (PutActions_with_length ctx key contentLength Hk Hl).
  apply not_both_false in Hup. apply neq_empty_eqb in Hcp. unfold grantsOf in Hgr.
  cbv beta zeta delta [putLadder]. rewrite Hup, Hgr, Hacl, Hcp. simpl.
  destruct (strings.Split (fiber.Get ctx "X-Amz-Copy-Source") "/") as [| b rest];
    [reflexivity |].
  destruct (backend.CopyObject (be api) b (strings.Join rest "/") (fiber.Params ctx "bucket") key)
    as [res err].
  now rewrite callsOf_SendXMLResponse.
Qed.

(** The pieces of a split hold no separator. *)
Lemma Split_pieces (s : string) (sep : ascii) :
  Forall (dispatch.withoutByte sep) (strings.Split s sep).
Proof.
  unfold dispatch.withoutByte.
  induction s as [| ch s IH]; simpl; [now repeat constructor |].
  destruct (Ascii.eqb ch sep) eqn:E; [now constructor |].
  destruct (strings.Split s sep) as [| p ps]; [now repeat constructor; simpl; rewrite E |].
  inversion IH as [| ? ? Hp Hps]; subst. constructor; [| exact Hps].
  simpl. now rewrite E, Hp.
Qed.

(** X10. The two edges of the copy source.  A copy source that begins
    with a slash is dispatched with the empty source bucket and
    everything after that slash as source key; a copy source without any
    slash is dispatched as source bucket with the empty source key.  In
    neither case does the dispatcher refuse the request. *)
Theorem copy_source_edges (ctx : fiber.Request) (key : string) (contentLength : Z) :
  putKey ctx = Some key ->
  lengthIs ctx contentLength ->
  ~ (fiber.Query ctx "uploadId" <> EmptyString /\ fiber.Query ctx "partNumber" <> EmptyString) ->
  fiber.Get ctx "X-Amz-Acl" = EmptyString ->
  grantsOf ctx = EmptyString ->
  (forall rest,
     fiber.Get ctx "X-Amz-Copy-Source" = String "/" rest ->
     callsOf (PutActions api ctx) =
       [backend.CallCopyObject EmptyString rest (fiber.Params ctx "bucket") key])
  /\ (fiber.Get ctx "X-Amz-Copy-Source" <> EmptyString ->
      strings.ContainsByte (fiber.Get ctx "X-Amz-Copy-Source") "/" = false ->
      callsOf (PutActions api ctx) =
        [backend.CallCopyObject (fiber.Get ctx "X-Amz-Copy-Source") EmptyString
           (fiber.Params ctx "bucket") key]).
Proof.
  intros Hk Hl Hup Hacl Hgr. split.
  - intros rest Hcp.
    rewrite (PutActions_copy_calls ctx key contentLength Hk Hl Hup Hacl Hgr)
      by (rewrite Hcp; discriminate).
    rewrite Hcp. simpl. now rewrite Join_Split.
  - intros Hne Hno.
    rewrite (PutActions_copy_calls ctx key contentLength Hk Hl Hup Hacl Hgr Hne).
    destruct (Split_cutFirst (fiber.Get ctx "X-Amz-Copy-Source") "/") as (b & rest & Hs & Hc).
    pose proof (cutFirst_spec (fiber.Get ctx "X-Amz-Copy-Source") "/") as [_ Hcut].
    rewrite Hno, Hc in Hcut. injection Hcut as -> Hj. now rewrite Hs, Hj.
Qed.

(** X11. GET on an object with the X-Amz-Object-Attributes header set
    (and neither uploadId nor acl) calls [GetObjectAttributes] with the
    header cut at its commas: no attribute holds a comma, nothing is
    trimmed or dropped, and the attributes joined by commas are the
    header again. *)
Theorem object_attributes_dispatch (ctx : fiber.Request) :
  fiber.Query ctx "uploadId" = EmptyString ->
  fiber.Has (fiber.queryArgs ctx) "acl" = false ->
  fiber.Get ctx "X-Amz-Object-Attributes" <> EmptyString ->
  exists attributes,
    callsOf (GetActions api ctx) =
      [backend.CallGetObjectAttributes (fiber.Params ctx "bucket") (objectKey ctx) attributes]
    /\ strings.Join attributes "," = fiber.Get ctx "X-Amz-Object-Attributes"
    /\ Forall (dispatch.withoutByte ",") attributes
    /\ attributes <> [].
Proof.
  intros Hu Hacl Hattr. exists (strings.Split (fiber.Get ctx "X-Amz-Object-Attributes") ",").
  rewrite (GetActions_without_uploadId ctx Hu), Hacl.
  apply neq_empty_eqb in Hattr. rewrite Hattr. simpl.
  split; [reflexivity | split; [apply Join_Split | split]].
  - apply Split_pieces.
  - apply Split_not_nil.
Qed.

(** *** The response to GET and HEAD on an object *)

(** Setting a header leaves the headers of other names as they are. *)
Lemma lookupHeader_setArg_other (h : list (string * string)) (key key' value : string) :
  strings.EqualFold key key' = false ->
  fiber.lookupHeader (fiber.setArg h key value) key' = fiber.lookupHeader h key'.
Proof.
  intro Hk. induction h as [| [k v] h IH]; simpl.
  - now rewrite Hk.
  - destruct (strings.EqualFold k key) eqn:E; simpl.
    + destruct (strings.EqualFold k key') eqn:E'; [| reflexivity].
      rewrite EqualFold_sym in E. now rewrite (EqualFold_trans _ _ _ E E') in Hk.
    + now rewrite IH.
Qed.

Lemma lookupHeader_delArg (h : list (string * string)) (key key' : string) :
  strings.EqualFold key key' = true ->
  fiber.lookupHeader (fiber.delArg h key) key' = None.
Proof.
  intro Hk. induction h as [| [k v] h IH]; simpl; [reflexivity |].
  destruct (strings.EqualFold k key) eqn:E; simpl; [exact IH |].
  destruct (strings.EqualFold k key') eqn:E'; [| exact IH].
  rewrite EqualFold_sym in Hk. now rewrite (EqualFold_trans _ _ _ E' Hk) in E.
Qed.

Lemma lookupHeader_delArg_other (h : list (string * string)) (key key' : string) :
  strings.EqualFold key key' = false ->
  fiber.lookupHeader (fiber.delArg h key) key' = fiber.lookupHeader h key'.
Proof.
  intro Hk. induction h as [| [k v] h IH]; simpl; [reflexivity |].
  destruct (strings.EqualFold k key) eqn:E; simpl.
  - destruct (strings.EqualFold k key') eqn:E'; [| exact IH].
    rewrite EqualFold_sym in E. now rewrite (EqualFold_trans _ _ _ E E') in Hk.
  - now rewrite IH.
Qed.

(** Setting a header, of whatever kind, leaves the headers of other
    names as they are. *)
Lemma lookupHeader_setHeader_other (h : list (string * string)) (key key' value : string) :
  strings.EqualFold key key' = false ->
  fiber.lookupHeader (fiber.setHeader h key value) key' = fiber.lookupHeader h key'.
Proof.
  intro Hk. unfold fiber.setHeader.
  destruct (strings.EqualFold key "Content-Type" || strings.EqualFold key "Content-Encoding").
  - destruct (String.eqb value EmptyString);
      [now apply lookupHeader_delArg_other | now apply lookupHeader_setArg_other].
  - destruct (strings.EqualFold key "Content-Length");
      [| now apply lookupHeader_setArg_other].
    destruct (fasthttp.parseContentLength value);
      [now apply lookupHeader_setArg_other | reflexivity].
Qed.

(** A content type or content encoding just set: the value, or no header
    when the value is empty. *)
Lemma lookupHeader_setHeader_content (h : list (string * string)) (key value : string) :
  strings.EqualFold key "Content-Type" || strings.EqualFold key "Content-Encoding" = true ->
  fiber.lookupHeader (fiber.setHeader h key value) key =
    if String.eqb value EmptyString then None else Some value.
Proof.
  intro Hk. unfold fiber.setHeader. rewrite Hk.
  destruct (String.eqb value EmptyString).
  - apply lookupHeader_delArg, EqualFold_refl.
  - apply lookupHeader_setArg, EqualFold_refl.
Qed.

Lemma headers_objectHeaders (w : fiber.Response) (contentLength : Z)
  (contentType contentEncoding etag : option string) (lastmod : string) :
  let h := fiber.Header
             (utils.SetResponseHeaders
                (objectHeaders contentLength contentType contentEncoding etag lastmod) w) in
  fiber.lookupHeader h "Content-Type" =
    (if String.eqb (getstring contentType) EmptyString
     then None else Some (getstring contentType))
  /\ fiber.lookupHeader h "Content-Encoding" =
       (if String.eqb (getstring contentEncoding) EmptyString
        then None else Some (getstring contentEncoding))
  /\ fiber.lookupHeader h "ETag" = Some (getstring etag).
Proof.
  cbv zeta. cbn [utils.SetResponseHeaders objectHeaders utils.Key utils.Value].
  unfold fiber.Set_. cbn [fiber.Header].
  repeat split.
  - do 3 (rewrite lookupHeader_setHeader_other by reflexivity).
    now apply lookupHeader_setHeader_content.
  - do 2 (rewrite lookupHeader_setHeader_other by reflexivity).
    now apply lookupHeader_setHeader_content.
  - rewrite lookupHeader_setHeader_other by reflexivity.
    now apply lookupHeader_setArg.
Qed.

(** X12. On a successful GetObject or HeadObject the handler writes the
    ETag header with the etag of the result, empty when that is nil, and
    Content-Type and Content-Encoding with the values of the result when
    these are not empty; for a nil or empty content type or content
    encoding no such header is set (for the content type the default of
    fasthttp stands). *)
Theorem standard_headers (ctx : fiber.Request) :
  (forall written res,
     fiber.Query ctx "uploadId" = EmptyString ->
     fiber.Has (fiber.queryArgs ctx) "acl" = false ->
     fiber.Get ctx "X-Amz-Object-Attributes" = EmptyString ->
     backend.GetObject (be api) (fiber.Params ctx "bucket") (objectKey ctx)
       (fiber.Get ctx "Range") = (written, Some res, None) ->
     headerOf (GetActions api ctx) "Content-Type" =
       (if String.eqb (getstring (s3.GetObjectOutput.ContentType res)) EmptyString
        then None else Some (getstring (s3.GetObjectOutput.ContentType res)))
     /\ headerOf (GetActions api ctx) "Content-Encoding" =
          (if String.eqb (getstring (s3.GetObjectOutput.ContentEncoding res)) EmptyString
           then None else Some (getstring (s3.GetObjectOutput.ContentEncoding res)))
     /\ headerOf (GetActions api ctx) "ETag" =
          Some (getstring (s3.GetObjectOutput.ETag res)))
  /\ (forall res,
        backend.HeadObject (be api) (fiber.Params ctx "bucket") (objectKey ctx)
          = (Some res, None) ->
        headerOf (HeadObject api ctx) "Content-Type" =
          (if String.eqb (getstring (s3.HeadObjectOutput.ContentType res)) EmptyString
           then None else Some (getstring (s3.HeadObjectOutput.ContentType res)))
        /\ headerOf (HeadObject api ctx) "Content-Encoding" =
             (if String.eqb (getstring (s3.HeadObjectOutput.ContentEncoding res)) EmptyString
              then None else Some (getstring (s3.HeadObjectOutput.ContentEncoding res)))
        /\ headerOf (HeadObject api ctx) "ETag" =
             Some (getstring (s3.HeadObjectOutput.ETag res))).
Proof.
  unfold objectKey. split.
  - intros written res Hu Hacl Hattr Hbe.
    cbv beta zeta delta [GetActions]. rewrite Hu, Hacl, Hattr, Hbe.
    cbv beta iota delta [headerOf respond response negb String.eqb].
    rewrite Header_SendStatus. apply headers_objectHeaders.
  - intros res Hbe.
    cbv beta zeta delta [HeadObject]. rewrite Hbe. cbv beta iota.
    rewrite !headerOf_SendResponse. apply headers_objectHeaders.
Qed.

Lemma RespBody_SetMetaHeaders (meta : list (string * string)) (w : fiber.Response) :
  fiber.RespBody (utils.SetMetaHeaders meta w) = fiber.RespBody w.
Proof.
  revert w. induction meta as [| [k v] meta IH]; intro w; simpl; [reflexivity |].
  now rewrite IH.
Qed.

Lemma RespBody_SetResponseHeaders (hs : list utils.CustomHeader) (w : fiber.Response) :
  fiber.RespBody (utils.SetResponseHeaders hs w) = fiber.RespBody w.
Proof.
  revert w. induction hs as [| h hs IH]; intro w; simpl; [reflexivity |].
  now rewrite IH.
Qed.

Lemma SendStatus_spec (code : Z) (w : fiber.Response) :
  fiber.StatusCode (fiber.SendStatus code w) = code
  /\ fiber.RespBody (fiber.SendStatus code w) =
       if String.eqb (fiber.RespBody w) EmptyString
       then fiber.StatusMessage code else fiber.RespBody w.
Proof.
  unfold fiber.SendStatus. simpl. now destruct (String.eqb (fiber.RespBody w) EmptyString).
Qed.

(** X13. The body and status of the two successful answers.  GetObject:
    status 200 and, as body, the bytes the backend wrote to the body
    writer; when the backend wrote nothing the body is the status text
    OK, put there by [SendStatus].  HeadObject, which ends with
    [SendResponse]: status 200 and no body. *)
Theorem object_answer_body (ctx : fiber.Request) :
  (forall written res,
     fiber.Query ctx "uploadId" = EmptyString ->
     fiber.Has (fiber.queryArgs ctx) "acl" = false ->
     fiber.Get ctx "X-Amz-Object-Attributes" = EmptyString ->
     backend.GetObject (be api) (fiber.Params ctx "bucket") (objectKey ctx)
       (fiber.Get ctx "Range") = (written, Some res, None) ->
     dispatch.statusOf (GetActions api ctx) = Some 200
     /\ dispatch.bodyOf (GetActions api ctx) =
          Some (if String.eqb written EmptyString then "OK" else written)
     /\ dispatch.returned (GetActions api ctx) = None)
  /\ (forall res,
        backend.HeadObject (be api) (fiber.Params ctx "bucket") (objectKey ctx)
          = (Some res, None) ->
        dispatch.statusOf (HeadObject api ctx) = Some 200
        /\ dispatch.bodyOf (HeadObject api ctx) = Some EmptyString
        /\ dispatch.returned (HeadObject api ctx) = None).
Proof.
  unfold objectKey. split.
  - intros written res Hu Hacl Hattr Hbe.
    cbv beta zeta delta [GetActions]. rewrite Hu, Hacl, Hattr, Hbe.
    cbv beta iota delta [dispatch.statusOf dispatch.bodyOf dispatch.returned
                           respond response negb String.eqb].
    match goal with |- context [fiber.SendStatus 200 ?w] =>
      destruct (SendStatus_spec 200 w) as [Hs Hb]; rewrite Hs, Hb end.
    rewrite RespBody_SetResponseHeaders, RespBody_SetMetaHeaders. simpl.
    now repeat split.
  - intros res Hbe.
    cbv beta zeta delta [HeadObject]. rewrite Hbe. cbv beta iota. simpl.
    rewrite ?RespBody_SetResponseHeaders, ?RespBody_SetMetaHeaders. now repeat split.
Qed.

(** X14. When GetObject fails with a catalog error, whatever the backend
    had already written to the body writer is replaced by the rendered
    error, the status is that of the error, and none of the metadata and
    standard headers is written. *)
Theorem get_object_error_answer (ctx : fiber.Request) (written : string)
  (res : option s3.GetObjectOutput.t) (serr : s3err.APIError) :
  fiber.Query ctx "uploadId" = EmptyString ->
  fiber.Has (fiber.queryArgs ctx) "acl" = false ->
  fiber.Get ctx "X-Amz-Object-Attributes" = EmptyString ->
  backend.GetObject (be api) (fiber.Params ctx "bucket") (objectKey ctx)
    (fiber.Get ctx "Range") = (written, res, Some (CatalogError serr)) ->
  responseOf (GetActions api ctx) =
    Some {| fiber.StatusCode := s3err.HTTPStatusCode serr;
            fiber.Header := [];
            fiber.RespBody := GetAPIErrorResponse serr "" "" "" |}.
Proof.
  unfold objectKey. intros Hu Hacl Hattr Hbe.
  cbv beta zeta delta [GetActions]. now rewrite Hu, Hacl, Hattr, Hbe.
Qed.

(** *** The key of a PUT *)

(** X15. The key [PutActions] passes on is the key rebuilt from the route
    parameters, with one slash added exactly when the path ends with a
    slash and the rebuilt key does not: a key that already ends with a
    slash is not given a second one, and a path without trailing slash
    leaves the key as it is. *)
Theorem put_key_shape (ctx : fiber.Request) (key : string) :
  putKey ctx = Some key ->
  (strings.lastByte (fiber.Path ctx) = Some "/" -> strings.lastByte key = Some "/")
  /\ (strings.lastByte (fiber.Path ctx) <> Some "/" -> key = objectKey ctx)
  /\ (strings.lastByte (objectKey ctx) = Some "/" -> key = objectKey ctx)
  /\ (key <> objectKey ctx ->
      key = objectKey ctx ++ "/" /\ strings.lastByte (objectKey ctx) <> Some "/").
Proof.
  unfold putKey, objectKey, withTrailingSlash.
  destruct (strings.lastByte (fiber.Path ctx)) as [pl |]; [| discriminate].
  destruct (String.eqb pl "/") eqn:Es.
  - apply String.eqb_eq in Es. subst pl.
    destruct (strings.lastByte (joinKey _ _)) as [kl |] eqn:Ek; [| discriminate].
    destruct (String.eqb kl "/") eqn:El; simpl; intro H; injection H as <-.
    + apply String.eqb_eq in El. subst kl.
      repeat split; intros; try reflexivity; try assumption; exfalso; congruence.
    + apply String.eqb_neq in El.
      repeat split; intros; try reflexivity; try apply lastByte_append;
        try congruence; exfalso; congruence.
  - apply String.eqb_neq in Es. intro H. injection H as <-.
    repeat split; intros; try reflexivity; exfalso; congruence.
Qed.

(** *** Requests the dispatcher refuses itself *)

(** X16. When a handler ends without having invoked the backend, it has
    refused the request in one of three ways: it returned the error
    "wrong api call", it sent one of the four catalog entries
    InvalidMaxParts, InvalidPartNumberMarker, InvalidRequest and
    InvalidPart, or it panicked.  In particular no success answer is
    given without a backend operation. *)
Theorem refusals (handler : fiber.Request -> Outcome) (ctx : fiber.Request) :
  In handler (dispatch.handlers api) ->
  callsOf (handler ctx) = [] ->
  handler ctx = Panic
  \/ handler ctx = wrongApiCall
  \/ exists code,
       In code [s3err.ErrInvalidMaxParts; s3err.ErrInvalidPartNumberMarker;
                s3err.ErrInvalidRequest; s3err.ErrInvalidPart]
       /\ handler ctx = sendCatalog ctx code.
Proof.
  unfold dispatch.handlers, wrongApiCall, sendCatalog. simpl.
  intros [<- | [<- | [<- | [<- | [<- | [<- | [<- | []]]]]]]].
  - cbv beta zeta delta [GetActions]. branches;
      rewrite ?callsOf_SendResponse, ?callsOf_SendXMLResponse; try discriminate;
      intros _; right; right; eauto 7.
  - cbv beta zeta delta [PutBucketActions]. branches;
      rewrite ?callsOf_SendResponse, ?callsOf_SendXMLResponse; try discriminate; auto.
  - cbv beta zeta delta [PutActions putLadder]. branches;
      rewrite ?callsOf_SendResponse, ?callsOf_SendXMLResponse; try discriminate; auto;
      intros _; right; right; eauto 7.
  - cbv beta zeta delta [DeleteObjects]. branches;
      rewrite ?callsOf_SendResponse, ?callsOf_SendXMLResponse; try discriminate; auto.
  - cbv beta zeta delta [DeleteActions]. branches;
      rewrite ?callsOf_SendResponse, ?callsOf_SendXMLResponse; discriminate.
  - cbv beta zeta delta [HeadObject]. branches;
      rewrite ?callsOf_SendResponse, ?callsOf_SendXMLResponse; discriminate.
  - cbv beta zeta delta [CreateActions]. branches;
      rewrite ?callsOf_SendResponse, ?callsOf_SendXMLResponse; try discriminate; auto.
Qed.

(** *** The response writers on success *)

(** X17. What the writers do to the headers.  On an error neither writer
    changes them: the error document goes out without a Content-Type of
    the writer's.  [SendXMLResponse] without error sets Content-Type to
    application/xml when the marshalled document is not empty and sends
    it; an empty document and a nil value leave the headers alone and
    give an empty body; when marshalling fails the response is not
    touched and the error is returned. *)
Theorem writers_on_headers (req : fiber.Request) (s : State) (resp : option Doc)
  (err : error) (v : Doc) :
  dispatch.headersOf (SendResponse req s (Some err)) = fiber.Header (response s)
  /\ dispatch.headersOf (SendXMLResponse req s resp (Some err)) = fiber.Header (response s)
  /\ (forall b, xmlMarshal v = inl b -> b <> EmptyString ->
        headerOf (SendXMLResponse req s (Some v) None) "Content-Type"
          = Some "application/xml"
        /\ dispatch.bodyOf (SendXMLResponse req s (Some v) None) = Some b
        /\ dispatch.statusOf (SendXMLResponse req s (Some v) None)
           = Some (fiber.StatusCode (response s)))
  /\ (xmlMarshal v = inl EmptyString ->
        dispatch.headersOf (SendXMLResponse req s (Some v) None) = fiber.Header (response s)
        /\ dispatch.bodyOf (SendXMLResponse req s (Some v) None) = Some EmptyString)
  /\ (forall e, xmlMarshal v = inr e ->
        SendXMLResponse req s (Some v) None = Return s (Some e))
  /\ dispatch.headersOf (SendXMLResponse req s None None) = fiber.Header (response s)
  /\ dispatch.bodyOf (SendXMLResponse req s None None) = Some EmptyString.
Proof.
  repeat split.
  - now destruct err.
  - now destruct err.
  - simpl. rewrite H. apply neq_empty_eqb in H0. rewrite H0. simpl.
    now apply lookupHeader_setArg.
  - simpl. rewrite H. now destruct (negb (String.eqb b EmptyString)).
  - simpl. rewrite H. now destruct (negb (String.eqb b EmptyString)).
  - simpl. now rewrite H.
  - simpl. now rewrite H.
  - intros e H. simpl. now rewrite H.
Qed.

(** X21. The handlers find out whether grants are present by
    concatenating the five grant headers.  The test is exact: the
    concatenation is non-empty if and only if one of the five headers
    has a non-empty value. *)
Theorem grants_detected_iff (ctx : fiber.Request) :
  grantsOf ctx <> EmptyString <->
  exists h, In h grantHeaders /\ fiber.Get ctx h <> EmptyString.
Proof.
  split.
  - unfold grantsOf, grantHeaders. intro H.
    destruct (fiber.Get ctx "X-Amz-Grant-Full-Control") eqn:E1;
      [| exists "X-Amz-Grant-Full-Control"; rewrite E1; simpl; split; [tauto | discriminate]].
    destruct (fiber.Get ctx "X-Amz-Grant-Read") eqn:E2;
      [| exists "X-Amz-Grant-Read"; rewrite E2; simpl; split; [tauto | discriminate]].
    destruct (fiber.Get ctx "X-Amz-Grant-Read-Acp") eqn:E3;
      [| exists "X-Amz-Grant-Read-Acp"; rewrite E3; simpl; split; [tauto | discriminate]].
    destruct (fiber.Get ctx "X-Amz-Grant-Write") eqn:E4;
      [| exists "X-Amz-Grant-Write"; rewrite E4; simpl; split; [tauto | discriminate]].
    destruct (fiber.Get ctx "X-Amz-Grant-Write-Acp") eqn:E5;
      [| exists "X-Amz-Grant-Write-Acp"; rewrite E5; simpl; split; [tauto | discriminate]].
    now contradiction H.
  - intros (h & Hin & Hne). now apply (grantsOf_not_empty ctx h).
Qed.

(** *** The service-level and bucket-level handlers *)

Section Buckets.

Variable ops : bucketBackend.Backend Doc.

(** X18. GET on a bucket invokes exactly one backend operation, chosen
    in this order: with an acl argument [GetBucketAcl], else with an
    uploads argument [ListMultipartUploads], else [ListObjectsV2] when
    list-type reads as the number 2, else [ListObjects].  Both listings
    get the prefix, the value of continuation-token as marker (the v1
    listing too), the delimiter and max-keys. *)
Theorem list_dispatch (ctx : fiber.Request) :
  let bucket := fiber.Params ctx "bucket" in
  let prefix := fiber.Query ctx "prefix" in
  let marker := fiber.Query ctx "continuation-token" in
  let delimiter := fiber.Query ctx "delimiter" in
  let maxkeys := fiber.QueryInt ctx "max-keys" 0 in
  (fiber.Has (fiber.queryArgs ctx) "acl" = true ->
   bucketControllers.invoked (bucketControllers.ListActions ops ctx) =
     [bucketBackend.CallGetBucketAcl bucket])
  /\ (fiber.Has (fiber.queryArgs ctx) "acl" = false ->
      fiber.Has (fiber.queryArgs ctx) "uploads" = true ->
      bucketControllers.invoked (bucketControllers.ListActions ops ctx) =
        [bucketBackend.CallListMultipartUploads
           {| bucketBackend.ListMultipartUploadsInput.Bucket := bucket |}])
  /\ (fiber.Has (fiber.queryArgs ctx) "acl" = false ->
      fiber.Has (fiber.queryArgs ctx) "uploads" = false ->
      strconv.Atoi (fiber.Query ctx "list-type") = strconv.Ok 2 ->
      bucketControllers.invoked (bucketControllers.ListActions ops ctx) =
        [bucketBackend.CallListObjectsV2 bucket prefix marker delimiter maxkeys])
  /\ (fiber.Has (fiber.queryArgs ctx) "acl" = false ->
      fiber.Has (fiber.queryArgs ctx) "uploads" = false ->
      strconv.Atoi (fiber.Query ctx "list-type") <> strconv.Ok 2 ->
      bucketControllers.invoked (bucketControllers.ListActions ops ctx) =
        [bucketBackend.CallListObjects bucket prefix marker delimiter maxkeys]).
Proof.
  cbv zeta. repeat split.
  - intro Hacl. cbv beta zeta delta [bucketControllers.ListActions]. rewrite Hacl.
    now destruct (bucketBackend.GetBucketAcl ops (fiber.Params ctx "bucket")).
  - intros Hacl Hup. cbv beta zeta delta [bucketControllers.ListActions].
    rewrite Hacl, Hup.
    now destruct (bucketBackend.ListMultipartUploads ops _).
  - intros Hacl Hup Ht. cbv beta zeta delta [bucketControllers.ListActions].
    rewrite Hacl, Hup. unfold fiber.QueryInt at 1. rewrite Ht. simpl.
    now destruct (bucketBackend.ListObjectsV2 ops _ _ _ _ _).
  - intros Hacl Hup Ht. cbv beta zeta delta [bucketControllers.ListActions].
    rewrite Hacl, Hup.
    assert ((fiber.QueryInt ctx "list-type" 0 =? 2) = false) as E.
    { unfold fiber.QueryInt.
      destruct (strconv.Atoi (fiber.Query ctx "list-type")) as [n | e]; [| reflexivity].
      apply Z.eqb_neq. intros ->. now apply Ht. }
    rewrite E. now destruct (bucketBackend.ListObjects ops _ _ _ _ _).
Qed.

(** What [SendXMLResponse] answers when the backend gave no error:
    status 200 and the rendering of the result, or no body. *)
Lemma SendXMLResponse_no_error (req : fiber.Request) (resp : option Doc) :
  dispatch.statusOf (SendXMLResponse req start resp None) = Some 200
  /\ dispatch.bodyOf (SendXMLResponse req start resp None) =
       Some match resp with
            | Some v => match xmlMarshal v with
                        | inl b => b
                        | inr _ => EmptyString
                        end
            | None => EmptyString
            end.
Proof.
  destruct resp as [v |]; simpl; [| now split].
  destruct (xmlMarshal v) as [b | e]; simpl; [| now split].
  now destruct (negb (String.eqb b EmptyString)).
Qed.

(** X19. The bucket listing checks nothing.  Whatever the request, the
    handler invokes one backend operation and its answer is what
    [SendXMLResponse] makes of the result and the error of that
    operation; it sends no error of its own: when the backend returns no
    error the status is 200 and the body is the rendering of the
    backend's result (empty without one).  In particular max-keys is not
    validated: a max-keys that reads as a number, negative ones
    included, reaches the listing as it is, and any other value as 0. *)
Theorem list_checks_nothing (ctx : fiber.Request) :
  let run := bucketControllers.ListActions ops ctx in
  let bucket := fiber.Params ctx "bucket" in
  let prefix := fiber.Query ctx "prefix" in
  let marker := fiber.Query ctx "continuation-token" in
  let delimiter := fiber.Query ctx "delimiter" in
  (exists op,
     bucketControllers.invoked run = [op]
     /\ bucketControllers.outcome run =
          SendXMLResponse ctx start (fst (bucketControllers.reply ops op))
            (snd (bucketControllers.reply ops op)))
  /\ (forall op res,
        In op (bucketControllers.invoked run) ->
        bucketControllers.reply ops op = (res, None) ->
        dispatch.statusOf (bucketControllers.outcome run) = Some 200
        /\ dispatch.bodyOf (bucketControllers.outcome run) =
             Some match res with
                  | Some v => match xmlMarshal v with
                              | inl b => b
                              | inr _ => EmptyString
                              end
                  | None => EmptyString
                  end)
  /\ (forall n,
        fiber.Has (fiber.queryArgs ctx) "acl" = false ->
        fiber.Has (fiber.queryArgs ctx) "uploads" = false ->
        strconv.Atoi (fiber.Query ctx "max-keys") = strconv.Ok n ->
        bucketControllers.invoked run =
          [if fiber.QueryInt ctx "list-type" 0 =? 2
           then bucketBackend.CallListObjectsV2 bucket prefix marker delimiter n
           else bucketBackend.CallListObjects bucket prefix marker delimiter n])
  /\ (forall e,
        fiber.Has (fiber.queryArgs ctx) "acl" = false ->
        fiber.Has (fiber.queryArgs ctx) "uploads" = false ->
        strconv.Atoi (fiber.Query ctx "max-keys") = strconv.Err e ->
        bucketControllers.invoked run =
          [if fiber.QueryInt ctx "list-type" 0 =? 2
           then bucketBackend.CallListObjectsV2 bucket prefix marker delimiter 0
           else bucketBackend.CallListObjects bucket prefix marker delimiter 0]).
Proof.
  cbv zeta.
  assert (exists op,
            bucketControllers.invoked (bucketControllers.ListActions ops ctx) = [op]
            /\ bucketControllers.outcome (bucketControllers.ListActions ops ctx) =
                 SendXMLResponse ctx start (fst (bucketControllers.reply ops op))
                   (snd (bucketControllers.reply ops op))) as Hrun.
  { cbv beta zeta delta [bucketControllers.ListActions].
    destruct (fiber.Has (fiber.queryArgs ctx) "acl");
      [| destruct (fiber.Has (fiber.queryArgs ctx) "uploads");
         [| destruct (fiber.QueryInt ctx "list-type" 0 =? 2)]];
      match goal with
      | |- context [let '(_, _) := ?p in _] => destruct p as [res err] eqn:E
      end;
      eexists; (split; [reflexivity |]); simpl; now rewrite E. }
  split; [exact Hrun |]. split; [| split].
  - intros op res Hin Hreply. destruct Hrun as (op' & Hinv & Hout).
    rewrite Hinv in Hin. destruct Hin as [<- | []].
    rewrite Hout, Hreply. apply SendXMLResponse_no_error.
  - intros n Hacl Hup Hn. cbv beta zeta delta [bucketControllers.ListActions].
    assert (fiber.QueryInt ctx "max-keys" 0 = n) as ->
      by (unfold fiber.QueryInt; now rewrite Hn).
    rewrite Hacl, Hup. now branches.
  - intros e Hacl Hup He. cbv beta zeta delta [bucketControllers.ListActions].
    assert (fiber.QueryInt ctx "max-keys" 0 = 0) as ->
      by (unfold fiber.QueryInt; now rewrite He).
    rewrite Hacl, Hup. now branches.
Qed.

(** X20. ListBuckets, DeleteBucket and HeadBucket invoke their one
    backend operation, the latter two with the bucket of the route.
    When the backend returns no error, DeleteBucket and HeadBucket answer
    with status 200, no body and no header: what HeadBucket gets from
    the backend is dropped.  When the backend returns a catalog error,
    each of the three answers with the status and the rendering of that
    entry. *)
Theorem bucket_answers (ctx : fiber.Request) :
  bucketControllers.invoked (bucketControllers.ListBuckets ops ctx) =
    [bucketBackend.CallListBuckets]
  /\ bucketControllers.invoked (bucketControllers.DeleteBucket ops ctx) =
       [bucketBackend.CallDeleteBucket (fiber.Params ctx "bucket")]
  /\ bucketControllers.invoked (bucketControllers.HeadBucket ops ctx) =
       [bucketBackend.CallHeadBucket (fiber.Params ctx "bucket")]
  /\ (bucketBackend.DeleteBucket ops (fiber.Params ctx "bucket") = None ->
      responseOf (bucketControllers.outcome (bucketControllers.DeleteBucket ops ctx)) =
        Some fiber.fresh)
  /\ (forall res,
        bucketBackend.HeadBucket ops (fiber.Params ctx "bucket") = (res, None) ->
        responseOf (bucketControllers.outcome (bucketControllers.HeadBucket ops ctx)) =
          Some fiber.fresh)
  /\ (forall serr,
        let answer :=
          Some {| fiber.StatusCode := s3err.HTTPStatusCode serr;
                  fiber.Header := [];
                  fiber.RespBody := GetAPIErrorResponse serr "" "" "" |} in
        (forall res,
           bucketBackend.ListBuckets ops = (res, Some (CatalogError serr)) ->
           responseOf (bucketControllers.outcome (bucketControllers.ListBuckets ops ctx))
             = answer)
        /\ (bucketBackend.DeleteBucket ops (fiber.Params ctx "bucket")
              = Some (CatalogError serr) ->
            responseOf (bucketControllers.outcome (bucketControllers.DeleteBucket ops ctx))
              = answer)
        /\ (forall res,
              bucketBackend.HeadBucket ops (fiber.Params ctx "bucket")
                = (res, Some (CatalogError serr)) ->
              responseOf (bucketControllers.outcome (bucketControllers.HeadBucket ops ctx))
                = answer)).
Proof.
  repeat split.
  - unfold bucketControllers.ListBuckets. now destruct (bucketBackend.ListBuckets ops).
  - unfold bucketControllers.HeadBucket. now destruct (bucketBackend.HeadBucket ops _).
  - intro H. unfold bucketControllers.DeleteBucket. cbv zeta. now rewrite H.
  - intros res H. unfold bucketControllers.HeadBucket. now rewrite H.
  - intros res H. unfold bucketControllers.ListBuckets. now rewrite H.
  - intro H. unfold bucketControllers.DeleteBucket. cbv zeta. now rewrite H.
  - intros res H. unfold bucketControllers.HeadBucket. now rewrite H.
Qed.

End Buckets.

End Properties.

(** ** The handlers on the sample requests *)

(** The scenarios of the specification run as it says. *)
Example scenario_copy :
  callsOf (PutActions sample.api sample.putCopy) =
    [backend.CallCopyObject "src" "obj/sub" "b1" "k1"].
Proof. reflexivity. Qed.

Example scenario_put_part :
  callsOf (PutActions sample.api sample.putPartThree) =
    [backend.CallPutObjectPart "b1" "k1" "U" 3 3 "abc"]
  /\ headerOf (PutActions sample.api sample.putPartThree) "ETag" = Some "etag-part".
Proof. split; reflexivity. Qed.

Example scenario_max_parts :
  GetActions sample.api sample.maxPartsNegative =
    sendCatalog sample.maxPartsNegative s3err.ErrInvalidMaxParts.
Proof. reflexivity. Qed.

Example scenario_acl_and_grant :
  PutBucketActions sample.api sample.putBucketBoth = wrongApiCall.
Proof. reflexivity. Qed.

(** HEAD and GET on a backend that fails without a catalog error: the
    InternalError document goes out under status 200. *)
Example internal_error_status :
  responseOf (HeadObject sample.brokenController sample.getPlain) =
    Some {| fiber.StatusCode := 200;
            fiber.Header := [];
            fiber.RespBody :=
              sample.render (GetAPIError (P := sample.packages) s3err.ErrInternalError)
                "" "" "" |}
  /\ responseOf (GetActions sample.brokenController sample.getPlain) =
     Some {| fiber.StatusCode := 200;
             fiber.Header := [];
             fiber.RespBody :=
               sample.render (GetAPIError (P := sample.packages) s3err.ErrInternalError)
                 "" "" "" |}.
Proof. split; reflexivity. Qed.

(** A timestamp that is not in UTC: [Format] prints the clock of the
    value's own zone, and the letters GMT of the layout after it.  The
    instant below is 03:04:59 in UTC; the handlers do not move the value
    to UTC before they format it. *)
Example local_clock_labelled_GMT :
  time.Format
    {| time.Year := 2023; time.Mon := time.May; time.Day := 7;
       time.Hour := 5; time.Minute := 4; time.Second := 59;
       time.WDay := time.Sunday; time.ZoneAbbr := "CEST"; time.Offset := 7200 |}
    timefmt = "Sun, 07 May 2023 05:04:59 GMT".
Proof. reflexivity. Qed.

(** *** The theorems at concrete requests *)

Lemma acl_and_grants_refused_witness :
  PutBucketActions sample.api sample.putBucketBoth = wrongApiCall
  /\ callsOf (PutActions sample.api sample.putObjectBoth) = [].
Proof.
  split.
  - apply (proj1 (acl_and_grants_refused sample.api sample.putBucketBoth "X-Amz-Grant-Read"
                    ltac:(vm_compute; discriminate)
                    ltac:(simpl; tauto)
                    ltac:(vm_compute; discriminate)) "alice" eq_refl).
  - apply (proj2 (acl_and_grants_refused sample.api sample.putObjectBoth "X-Amz-Grant-Read"
                    ltac:(vm_compute; discriminate)
                    ltac:(simpl; tauto)
                    ltac:(vm_compute; discriminate)) "k1" eq_refl).
    vm_compute. intros [H _]. now apply H.
Defined.

Lemma put_part_dispatch_witness :
  callsOf (PutActions sample.api sample.putPartThree) =
    [backend.CallPutObjectPart "b1" "k1" "U" 3 3 "abc"]
  /\ headerOf (PutActions sample.api sample.putPartThree) "ETag" = Some "etag-part"
  /\ PutActions sample.api sample.putPartZero =
       sendCatalog sample.putPartZero s3err.ErrInvalidPart.
Proof.
  destruct (put_part_dispatch sample.api sample.putPartThree "k1" eq_refl
              (or_intror (ex_intro _ 3 eq_refl))
              ltac:(vm_compute; discriminate)
              ltac:(vm_compute; discriminate)) as (cl & Hl & Hpart & _).
  assert (cl = 3) as ->.
  { destruct Hl as [He _ | Hp];
      [vm_compute in He; discriminate | vm_compute in Hp; now injection Hp as <-]. }
  destruct (Hpart 3 eq_refl ltac:(lia)) as [W1 W2].
  split; [exact W1 | split; [exact W2 |]].
  destruct (put_part_dispatch sample.api sample.putPartZero "k1" eq_refl
              (or_intror (ex_intro _ 3 eq_refl))
              ltac:(vm_compute; discriminate)
              ltac:(vm_compute; discriminate)) as (cl & _ & _ & Hrefused).
  apply Hrefused.
  intros (pn & Hpn & Hge). vm_compute in Hpn. injection Hpn as <-. lia.
Defined.

Lemma copy_source_dispatch_witness :
  callsOf (PutActions sample.api sample.putCopy) =
    [backend.CallCopyObject "src" "obj/sub" "b1" "k1"].
Proof.
  apply (copy_source_dispatch sample.api sample.putCopy "k1" eq_refl (or_introl eq_refl)).
  - vm_compute. intros [H _]. now apply H.
  - reflexivity.
  - reflexivity.
  - vm_compute. discriminate.
Defined.

Lemma content_length_parsed_first_witness :
  PutActions sample.api sample.putCopyBadLength =
    sendCatalog sample.putCopyBadLength s3err.ErrInvalidRequest
  /\ callsOf (PutActions sample.api sample.putCopyBadLength) = []
  /\ callsOf (PutActions sample.api sample.putPlain) =
       [backend.CallPutObject
          {| s3.PutObjectInput.Bucket := "b1";
             s3.PutObjectInput.Key := "k1";
             s3.PutObjectInput.ContentLength := 0;
             s3.PutObjectInput.Metadata := [];
             s3.PutObjectInput.Body := "abc" |}].
Proof.
  pose proof (proj1 (content_length_parsed_first sample.api sample.putCopyBadLength "k1"
                       eq_refl)
                strconv.ErrSyntax ltac:(vm_compute; discriminate) eq_refl) as [W1 W2].
  pose proof (proj2 (proj2 (proj2 (content_length_parsed_first sample.api sample.putPlain
                                     "k1" eq_refl)) eq_refl)
                eq_refl eq_refl eq_refl eq_refl) as W3.
  exact (conj W1 (conj W2 W3)).
Defined.

Lemma empty_uploadId_is_absent_witness :
  fiber.Has (fiber.queryArgs sample.emptyUploadId) "uploadId" = true
  /\ callsOf (GetActions sample.api sample.emptyUploadId) =
       [backend.CallGetObjectAcl "b1" "k1"]
  /\ callsOf (DeleteActions sample.api sample.emptyUploadId) =
       [backend.CallDeleteObject "b1" "k1"]
  /\ callsOf (CreateActions sample.api sample.emptyUploadId) =
       [backend.CallCreateMultipartUpload
          {| s3.CreateMultipartUploadInput.Bucket := "b1";
             s3.CreateMultipartUploadInput.Key := "k1" |}].
Proof.
  destruct (empty_uploadId_is_absent sample.api sample.emptyUploadId eq_refl)
    as (Wget & _ & Wdel & Wpost).
  exact (conj eq_refl (conj Wget (conj Wdel (Wpost eq_refl)))).
Defined.

Lemma list_parts_arguments_witness :
  GetActions sample.api sample.maxPartsNegative =
    sendCatalog sample.maxPartsNegative s3err.ErrInvalidMaxParts
  /\ GetActions sample.api sample.markerNoNumber =
       sendCatalog sample.markerNoNumber s3err.ErrInvalidPartNumberMarker
  /\ callsOf (GetActions sample.api sample.maxPartsTen) =
       [backend.CallListObjectParts "b1" "k1" "U" 0 10].
Proof.
  split; [| split].
  - apply (proj1 (list_parts_arguments sample.api sample.maxPartsNegative
                    ltac:(vm_compute; discriminate))
             ltac:(vm_compute; discriminate) eq_refl).
  - apply (proj1 (proj2 (list_parts_arguments sample.api sample.markerNoNumber
                           ltac:(vm_compute; discriminate)))
             (or_introl eq_refl) ltac:(vm_compute; discriminate) eq_refl).
  - apply (proj1 (proj2 (proj2 (list_parts_arguments sample.api sample.maxPartsTen
                                  ltac:(vm_compute; discriminate))))
             (or_intror eq_refl) (or_introl eq_refl)).
Defined.

(** C5 as stated fails on a max-parts that is present with the empty
    value: it is no positive integer, yet the request is not refused and
    [ListObjectParts] is called. *)
Lemma list_parts_empty_max_parts_counterexample :
  fiber.Query sample.maxPartsEmpty "uploadId" = "U"
  /\ fiber.Has (fiber.queryArgs sample.maxPartsEmpty) "max-parts" = true
  /\ positiveInt (fiber.Query sample.maxPartsEmpty "max-parts") = false
  /\ GetActions sample.api sample.maxPartsEmpty <>
       sendCatalog sample.maxPartsEmpty s3err.ErrInvalidMaxParts
  /\ callsOf (GetActions sample.api sample.maxPartsEmpty) =
       [backend.CallListObjectParts "b1" "k1" "U" 0 0].
Proof.
  repeat split; try reflexivity; vm_compute; discriminate.
Qed.

Lemma unparsable_body_refused_witness :
  DeleteObjects sample.api sample.deleteNoXml = wrongApiCall
  /\ CreateActions sample.api sample.restoreNoXml = wrongApiCall
  /\ CreateActions sample.api sample.completeNoXml = wrongApiCall.
Proof.
  split; [| split].
  - apply (proj1 (unparsable_body_refused sample.api sample.deleteNoXml) eq_refl).
  - apply (proj1 (proj2 (unparsable_body_refused sample.api sample.restoreNoXml))
             eq_refl eq_refl).
  - apply (proj1 (proj2 (proj2 (unparsable_body_refused sample.api sample.completeNoXml)))
             eq_refl ltac:(vm_compute; discriminate) eq_refl).
Defined.

(** C4 as stated fails on a DeleteObjects body that does not parse: the
    handler sends no catalog error, of any entry; the response is as
    nothing had been written to it (status 200, no body), and the error
    goes to the router. *)
Lemma unparsable_delete_counterexample :
  xmlUnmarshalDelete (Packages := sample.packages) (fiber.Body sample.deleteNoXml) = None
  /\ (forall code, DeleteObjects sample.api sample.deleteNoXml <>
                     sendCatalog sample.deleteNoXml code)
  /\ responseOf (DeleteObjects sample.api sample.deleteNoXml) =
       Some {| fiber.StatusCode := 200; fiber.Header := [];
               fiber.RespBody := EmptyString |}.
Proof.
  repeat split. intro code. vm_compute. discriminate.
Qed.

Lemma last_modified_header_witness :
  headerOf (GetActions sample.apiModified sample.getPlain) "Last-Modified" =
    Some "Sun, 07 May 2023 03:04:59 GMT"
  /\ headerOf (HeadObject sample.apiModified sample.getPlain) "Last-Modified" =
       Some "Sun, 07 May 2023 03:04:59 GMT"
  /\ headerOf (GetActions sample.api sample.getPlain) "Last-Modified" = Some EmptyString.
Proof.
  split; [| split].
  - apply (proj1 (proj1 (last_modified_header sample.apiModified sample.getPlain)
                    "abc" (sample.got (Some sample.modified))
                    eq_refl eq_refl eq_refl eq_refl)
             sample.modified eq_refl eq_refl).
  - apply (proj1 (proj2 (last_modified_header sample.apiModified sample.getPlain)
                    (sample.head (Some sample.modified)) eq_refl)
             sample.modified eq_refl eq_refl).
  - apply (proj2 (proj1 (last_modified_header sample.api sample.getPlain)
                    "abc" (sample.got None) eq_refl eq_refl eq_refl eq_refl)
             eq_refl).
Defined.

(** C8 as stated fails when the backend gives no timestamp: the response
    has a Last-Modified header all the same, with the empty value. *)
Lemma last_modified_nil_counterexample :
  backend.GetObject (be sample.api) "b1" "k1" "" = ("abc", Some (sample.got None), None)
  /\ s3.GetObjectOutput.LastModified (sample.got None) = None
  /\ headerOf (GetActions sample.api sample.getPlain) "Last-Modified" = Some EmptyString
  /\ headerOf (GetActions sample.api sample.getPlain) "Last-Modified" <> None
  /\ headerOf (HeadObject sample.api sample.getPlain) "Last-Modified" <> None.
Proof.
  repeat split; try reflexivity; vm_compute; discriminate.
Qed.

(** *** The further properties at concrete requests *)

Lemma at_most_one_backend_call_witness :
  (length (callsOf (PutActions sample.api sample.putCopy)) <= 1)%nat.
Proof.
  apply (at_most_one_backend_call sample.api (PutActions sample.api) sample.putCopy).
  simpl. tauto.
Defined.

Lemma returned_errors_witness :
  (OtherError "wrong api call" = OtherError "wrong api call"
   /\ callsOf (PutBucketActions sample.api sample.putBucketBoth) = []
   \/ exists op v,
        callsOf (PutBucketActions sample.api sample.putBucketBoth) = [op]
        /\ dispatch.reply sample.api op = (Some v, None)
        /\ xmlMarshal (Packages := sample.packages) v = inr (OtherError "wrong api call"))
  /\ dispatch.returned (GetActions moreSamples.failingGet sample.getPlain) = None
  /\ exists s,
       calls s = [backend.CallGetObject "b1" "k1" ""]
       /\ GetActions moreSamples.failingGet sample.getPlain =
            SendResponse sample.getPlain s (Some (CatalogError moreSamples.noSuchKey)).
Proof.
  split.
  - apply (proj1 (returned_errors sample.api (PutBucketActions sample.api)
                    sample.putBucketBoth ltac:(simpl; tauto))
             (OtherError "wrong api call") eq_refl).
  - apply (proj2 (returned_errors moreSamples.failingGet
                    (GetActions moreSamples.failingGet) sample.getPlain
                    ltac:(simpl; tauto))
             (backend.CallGetObject "b1" "k1" "") (CatalogError moreSamples.noSuchKey)
             (or_introl eq_refl) eq_refl).
Defined.

Lemma PutActions_panics_iff_witness :
  PutActions sample.api moreSamples.putNoKey = Panic.
Proof.
  apply (proj2 (PutActions_panics_iff sample.api moreSamples.putNoKey)).
  right. repeat split.
Defined.

Lemma plain_put_dispatch_witness :
  callsOf (PutActions sample.api moreSamples.putWithLength) =
    [backend.CallPutObject
       {| s3.PutObjectInput.Bucket := "b1";
          s3.PutObjectInput.Key := "k1";
          s3.PutObjectInput.ContentLength := 3;
          s3.PutObjectInput.Metadata := [("color", "blue")];
          s3.PutObjectInput.Body := "abc" |}]
  /\ headerOf (PutActions sample.api moreSamples.putWithLength) "ETag" = Some "etag-1".
Proof.
  destruct (plain_put_dispatch sample.api moreSamples.putWithLength "k1" 3 eq_refl
              (lengthParsed moreSamples.putWithLength 3 eq_refl)
              ltac:(vm_compute; tauto) eq_refl eq_refl eq_refl) as (W1 & W2 & _).
  exact (conj W1 W2).
Defined.

Lemma object_acl_dispatch_witness :
  callsOf (PutActions sample.api moreSamples.putAclAndCopy) =
    [backend.CallPutObjectAcl
       {| s3.PutObjectAclInput.Bucket := "b1";
          s3.PutObjectAclInput.Key := "k1";
          s3.PutObjectAclInput.ACL := "private";
          s3.PutObjectAclInput.GrantFullControl := "";
          s3.PutObjectAclInput.GrantRead := "";
          s3.PutObjectAclInput.GrantReadACP := "";
          s3.PutObjectAclInput.GrantWrite := "";
          s3.PutObjectAclInput.GrantWriteACP := "" |}].
Proof.
  apply (object_acl_dispatch sample.api moreSamples.putAclAndCopy "k1" 0 eq_refl
           (lengthAbsent moreSamples.putAclAndCopy 0 eq_refl eq_refl)
           ltac:(vm_compute; tauto)).
  left. split; [vm_compute; discriminate | reflexivity].
Defined.

Lemma bucket_put_dispatch_witness :
  callsOf (PutBucketActions sample.api moreSamples.putBucketPlain) =
    [backend.CallPutBucket "b1" "alice"]
  /\ callsOf (PutBucketActions sample.api moreSamples.putBucketAcl) =
       [backend.CallPutBucketAcl
          {| s3.PutBucketAclInput.Bucket := "b1";
             s3.PutBucketAclInput.ACL := "private";
             s3.PutBucketAclInput.GrantFullControl := "";
             s3.PutBucketAclInput.GrantRead := "";
             s3.PutBucketAclInput.GrantReadACP := "";
             s3.PutBucketAclInput.GrantWrite := "";
             s3.PutBucketAclInput.GrantWriteACP := "";
             s3.PutBucketAclInput.OwnerID := "alice" |}].
Proof.
  split.
  - apply (proj1 (bucket_put_dispatch sample.api moreSamples.putBucketPlain "alice" eq_refl)
             eq_refl eq_refl).
  - apply (proj2 (bucket_put_dispatch sample.api moreSamples.putBucketAcl "alice" eq_refl)).
    left. split; [vm_compute; discriminate | reflexivity].
Defined.

Lemma abort_upload_dispatch_witness :
  callsOf (DeleteActions sample.api moreSamples.abort) =
    [backend.CallAbortMultipartUpload
       {| s3.AbortMultipartUploadInput.UploadId := "U";
          s3.AbortMultipartUploadInput.Bucket := "b1";
          s3.AbortMultipartUploadInput.Key := "dir/sub/k1";
          s3.AbortMultipartUploadInput.ExpectedBucketOwner := "";
          s3.AbortMultipartUploadInput.RequestPayer := "requester" |}]
  /\ dispatch.statusOf (DeleteActions sample.api moreSamples.abort) = Some 200.
Proof.
  destruct (abort_upload_dispatch sample.api moreSamples.abort
              ltac:(vm_compute; discriminate)) as [W1 W2].
  exact (conj W1 (proj1 (W2 eq_refl))).
Defined.

Lemma parsed_body_forwarded_witness :
  callsOf (DeleteObjects sample.api moreSamples.deleteTwo) =
    [backend.CallDeleteObjects "b1" "<Delete></Delete>"]
  /\ callsOf (CreateActions sample.api moreSamples.restoreDuringUpload) =
       [backend.CallRestoreObject "b1" "k1" "<RestoreRequest></RestoreRequest>"]
  /\ callsOf (CreateActions sample.api moreSamples.complete) =
       [backend.CallCompleteMultipartUpload "b1" "k1" "U"
          ["<CompleteMultipartUpload></CompleteMultipartUpload>"]].
Proof.
  split; [| split].
  - apply (proj1 (parsed_body_forwarded sample.api moreSamples.deleteTwo)
             "<Delete></Delete>" eq_refl).
  - apply (proj1 (proj2 (parsed_body_forwarded sample.api moreSamples.restoreDuringUpload))
             "<RestoreRequest></RestoreRequest>" eq_refl eq_refl).
  - apply (proj2 (proj2 (parsed_body_forwarded sample.api moreSamples.complete))
             ["<CompleteMultipartUpload></CompleteMultipartUpload>"] eq_refl
             ltac:(vm_compute; discriminate) eq_refl).
Defined.

Lemma copy_source_edges_witness :
  callsOf (PutActions sample.api moreSamples.copyLeadingSlash) =
    [backend.CallCopyObject "" "src/obj" "b1" "k1"]
  /\ callsOf (PutActions sample.api moreSamples.copyBucketOnly) =
       [backend.CallCopyObject "src" "" "b1" "k1"].
Proof.
  split.
  - apply (proj1 (copy_source_edges sample.api moreSamples.copyLeadingSlash "k1" 0 eq_refl
                    (lengthAbsent moreSamples.copyLeadingSlash 0 eq_refl eq_refl)
                    ltac:(vm_compute; tauto) eq_refl eq_refl) "src/obj" eq_refl).
  - apply (proj2 (copy_source_edges sample.api moreSamples.copyBucketOnly "k1" 0 eq_refl
                    (lengthAbsent moreSamples.copyBucketOnly 0 eq_refl eq_refl)
                    ltac:(vm_compute; tauto) eq_refl eq_refl)
             ltac:(vm_compute; discriminate) eq_refl).
Defined.

Lemma object_attributes_dispatch_witness :
  exists attributes,
    callsOf (GetActions sample.api moreSamples.attributes) =
      [backend.CallGetObjectAttributes "b1" "k1" attributes]
    /\ strings.Join attributes "," = "ETag, ObjectSize"
    /\ Forall (dispatch.withoutByte ",") attributes
    /\ attributes <> [].
Proof.
  apply (object_attributes_dispatch sample.api moreSamples.attributes eq_refl eq_refl).
  vm_compute. discriminate.
Defined.

Lemma standard_headers_witness :
  headerOf (GetActions sample.apiModified sample.getPlain) "Content-Type"
    = Some "text/plain"
  /\ headerOf (GetActions sample.apiModified sample.getPlain) "Content-Encoding" = None
  /\ headerOf (GetActions sample.apiModified sample.getPlain) "ETag" = Some "etag-1".
Proof.
  apply (proj1 (standard_headers sample.apiModified sample.getPlain)
           "abc" (sample.got (Some sample.modified)) eq_refl eq_refl eq_refl eq_refl).
Defined.

Lemma object_answer_body_witness :
  (dispatch.statusOf (GetActions sample.apiModified sample.getPlain) = Some 200
   /\ dispatch.bodyOf (GetActions sample.apiModified sample.getPlain) = Some "abc"
   /\ dispatch.returned (GetActions sample.apiModified sample.getPlain) = None)
  /\ (dispatch.statusOf (HeadObject sample.apiModified sample.getPlain) = Some 200
      /\ dispatch.bodyOf (HeadObject sample.apiModified sample.getPlain) = Some ""
      /\ dispatch.returned (HeadObject sample.apiModified sample.getPlain) = None).
Proof.
  split.
  - apply (proj1 (object_answer_body sample.apiModified sample.getPlain)
             "abc" (sample.got (Some sample.modified)) eq_refl eq_refl eq_refl eq_refl).
  - apply (proj2 (object_answer_body sample.apiModified sample.getPlain)
             (sample.head (Some sample.modified)) eq_refl).
Defined.

Lemma get_object_error_answer_witness :
  responseOf (GetActions moreSamples.failingGet sample.getPlain) =
    Some {| fiber.StatusCode := 404;
            fiber.Header := [];
            fiber.RespBody := sample.render moreSamples.noSuchKey "" "" "" |}.
Proof.
  apply (get_object_error_answer moreSamples.failingGet sample.getPlain "partial" None
           moreSamples.noSuchKey eq_refl eq_refl eq_refl eq_refl).
Defined.

Lemma put_key_shape_witness :
  strings.lastByte "dir/" = Some "/".
Proof.
  apply (proj1 (put_key_shape sample.getDir "dir/" eq_refl)). reflexivity.
Defined.

Lemma refusals_witness :
  GetActions sample.api sample.maxPartsNegative = Panic
  \/ GetActions sample.api sample.maxPartsNegative = wrongApiCall
  \/ exists code,
       In code [s3err.ErrInvalidMaxParts; s3err.ErrInvalidPartNumberMarker;
                s3err.ErrInvalidRequest; s3err.ErrInvalidPart]
       /\ GetActions sample.api sample.maxPartsNegative =
            sendCatalog sample.maxPartsNegative code.
Proof.
  apply (refusals sample.api (GetActions sample.api) sample.maxPartsNegative).
  - simpl. tauto.
  - reflexivity.
Defined.

Lemma writers_on_headers_witness :
  headerOf (SendXMLResponse (P := sample.packages) sample.getPlain start
              (Some "<ListPartsResult/>") None) "Content-Type" = Some "application/xml"
  /\ dispatch.bodyOf (SendXMLResponse (P := sample.packages) sample.getPlain start
                        (Some "<ListPartsResult/>") None) = Some "<ListPartsResult/>"
  /\ dispatch.statusOf (SendXMLResponse (P := sample.packages) sample.getPlain start
                          (Some "<ListPartsResult/>") None) = Some 200.
Proof.
  apply (proj1 (proj2 (proj2 (writers_on_headers (P := sample.packages) sample.getPlain start
                                None (OtherError "unused") "<ListPartsResult/>")))
           "<ListPartsResult/>" eq_refl).
  discriminate.
Defined.

Lemma list_dispatch_witness :
  bucketControllers.invoked (bucketControllers.ListActions (P := sample.packages)
                               bucketSample.be moreSamples.listAcl) =
    [bucketBackend.CallGetBucketAcl "b1"]
  /\ bucketControllers.invoked (bucketControllers.ListActions (P := sample.packages)
                                  bucketSample.be moreSamples.listUploads) =
       [bucketBackend.CallListMultipartUploads
          {| bucketBackend.ListMultipartUploadsInput.Bucket := "b1" |}]
  /\ bucketControllers.invoked (bucketControllers.ListActions (P := sample.packages)
                                  bucketSample.be moreSamples.listV2) =
       [bucketBackend.CallListObjectsV2 "b1" "p" "" "" 100]
  /\ bucketControllers.invoked (bucketControllers.ListActions (P := sample.packages)
                                  bucketSample.be moreSamples.listV1) =
       [bucketBackend.CallListObjects "b1" "" "m" "" (-5)].
Proof.
  split; [| split; [| split]].
  - apply (proj1 (list_dispatch (P := sample.packages) bucketSample.be moreSamples.listAcl)
             eq_refl).
  - apply (proj1 (proj2 (list_dispatch (P := sample.packages) bucketSample.be
                           moreSamples.listUploads)) eq_refl eq_refl).
  - apply (proj1 (proj2 (proj2 (list_dispatch (P := sample.packages) bucketSample.be
                                  moreSamples.listV2))) eq_refl eq_refl eq_refl).
  - apply (proj2 (proj2 (proj2 (list_dispatch (P := sample.packages) bucketSample.be
                                  moreSamples.listV1))) eq_refl eq_refl).
    vm_compute. discriminate.
Defined.

Lemma list_checks_nothing_witness :
  bucketControllers.invoked (bucketControllers.ListActions (P := sample.packages)
                               bucketSample.be moreSamples.listV1) =
    [bucketBackend.CallListObjects "b1" "" "m" "" (-5)]
  /\ bucketControllers.invoked (bucketControllers.ListActions (P := sample.packages)
                                  bucketSample.be moreSamples.listNoNumber) =
       [bucketBackend.CallListObjects "b1" "" "" "" 0]
  /\ dispatch.statusOf
       (bucketControllers.outcome
          (bucketControllers.ListActions (P := sample.packages)
             bucketSample.be moreSamples.listV1)) = Some 200.
Proof.
  pose proof (list_checks_nothing (P := sample.packages) bucketSample.be moreSamples.listV1)
    as (_ & Hplain & Hnumber & _).
  pose proof (list_checks_nothing (P := sample.packages) bucketSample.be
                moreSamples.listNoNumber) as (_ & _ & _ & Hother).
  split; [| split].
  - apply (Hnumber (-5) eq_refl eq_refl eq_refl).
  - apply (Hother strconv.ErrSyntax eq_refl eq_refl eq_refl).
  - apply (proj1 (Hplain (bucketBackend.CallListObjects "b1" "" "m" "" (-5))
                    (Some "<ListBucketResult/>") (or_introl eq_refl) eq_refl)).
Defined.

Lemma bucket_answers_witness :
  responseOf (bucketControllers.outcome
                (bucketControllers.HeadBucket (P := sample.packages) bucketSample.be
                   moreSamples.listV1)) = Some fiber.fresh
  /\ responseOf (bucketControllers.outcome
                   (bucketControllers.DeleteBucket (P := sample.packages)
                      bucketSample.missing moreSamples.listV1)) =
       Some {| fiber.StatusCode := 404;
               fiber.Header := [];
               fiber.RespBody :=
                 sample.render
                   (GetAPIError (P := sample.packages) s3err.ErrNoSuchBucket) "" "" "" |}.
Proof.
  split.
  - apply (proj1 (proj2 (proj2 (proj2 (proj2
             (bucket_answers (P := sample.packages) bucketSample.be moreSamples.listV1)))))
             (Some "<HeadBucketOutput/>") eq_refl).
  - destruct (bucket_answers (P := sample.packages) bucketSample.missing moreSamples.listV1)
      as (_ & _ & _ & _ & _ & W).
    apply (proj1 (proj2 (W (GetAPIError (P := sample.packages) s3err.ErrNoSuchBucket)))).
    reflexivity.
Defined.

Lemma grants_detected_iff_witness :
  grantsOf sample.putObjectBoth <> EmptyString.
Proof.
  apply (proj2 (grants_detected_iff sample.putObjectBoth)).
  exists "X-Amz-Grant-Read". split; [simpl; tauto | vm_compute; discriminate].
Defined.
